(** * Radio-Computer/dashboard: the telemetry and service-status engine

    A shallow embedding of [dashboard.py] and the properties its
    specification states about it.

    Conventions of the embedding.
    - A Python [str] is a [string] whose characters are the code points
      below 256; [str.isspace] is taken on that range.
    - A Python [int] is a [Z].
    - A Python [float] is modelled by the rational it denotes ([Q]).  The
      operations of the program that round are written out with their
      rounding: [//] and [%] ([PyFloat.floordiv], [PyFloat.pymod]), the
      difference of the two clock readings ([PyFloat.sub]) and the
      conversion of an [int] to a float ([float_of_int]).  Division by
      [1024.0], a power of two, comparison and the correctly rounded
      [.1f] / [.2f] formatting are exact, so there the denoted rational
      gives the same answer.  NaN, infinities and the negative zero are
      outside the model.
    - Calls that leave the process ([subprocess.run], [psutil], the clock)
      are answered by a [world]; each call is appended to a trace of
      events, so that "which external calls were issued" is a property of
      the run.  A call returns a value or raises an exception; values of
      type [exn] are instances of Python's [Exception]. *)

From Stdlib Require Import ZArith QArith Qabs Qround Lqa String Ascii List Lia.
From Stdlib Require Import DecimalString DecimalN DecimalZ Sorted Permutation.
From Stdlib Require Qcanon.
From stdpp Require Import base gmap strings list fin_maps.

Local Open Scope string_scope.
Local Open Scope Z_scope.

(** ** Python string methods *)

Module PyStr.

(** [s[:n]] *)
Fixpoint take (n : nat) (s : string) : string :=
  match n, s with
  | O, _ => ""
  | S _, EmptyString => ""
  | S n', String c s' => String c (take n' s')
  end.

(** [c.isspace()] for a code point below 256 *)
Definition is_space (c : ascii) : bool :=
  let n := nat_of_ascii c in
  ((9 <=? n) && (n <=? 13))%nat || ((28 <=? n) && (n <=? 32))%nat
  || (n =? 133)%nat || (n =? 160)%nat.

Fixpoint lstrip_by (p : ascii -> bool) (s : string) : string :=
  match s with
  | EmptyString => ""
  | String c s' => if p c then lstrip_by p s' else s
  end.

Fixpoint rstrip_by (p : ascii -> bool) (s : string) : string :=
  match s with
  | EmptyString => ""
  | String c s' =>
      match rstrip_by p s' with
      | EmptyString => if p c then "" else String c ""
      | r => String c r
      end
  end.

Definition strip_by (p : ascii -> bool) (s : string) : string :=
  rstrip_by p (lstrip_by p s).

(** [c in chars] for a character *)
Fixpoint mem_char (c : ascii) (chars : string) : bool :=
  match chars with
  | EmptyString => false
  | String d chars' => Ascii.eqb c d || mem_char c chars'
  end.

(** [s.strip()] *)
Definition strip (s : string) : string := strip_by is_space s.

(** [s.strip(chars)] *)
Definition strip_chars (chars s : string) : string :=
  strip_by (fun c => mem_char c chars) s.

(** [s.split(sep)] for a one-character separator: always at least one
    piece. *)
Fixpoint split_char (sep : ascii) (s : string) : list string :=
  match s with
  | EmptyString => [""]
  | String c s' =>
      if Ascii.eqb c sep then "" :: split_char sep s'
      else match split_char sep s' with
           | [] => [String c ""]
           | piece :: pieces => String c piece :: pieces
           end
  end.

(** [s.split()]: the maximal runs of non-space characters.  [cur] is the
    run being read, last character first. *)
Fixpoint split_ws_from (cur : string) (s : string) : list string :=
  match s with
  | EmptyString =>
      match cur with EmptyString => [] | _ => [String.rev cur] end
  | String c s' =>
      if is_space c then
        match cur with
        | EmptyString => split_ws_from "" s'
        | _ => String.rev cur :: split_ws_from "" s'
        end
      else split_ws_from (String c cur) s'
  end.

Definition split_ws (s : string) : list string := split_ws_from "" s.

(** [pat in s] *)
Fixpoint contains (pat s : string) : bool :=
  String.prefix pat s
  || match s with
     | EmptyString => false
     | String _ s' => contains pat s'
     end.

(** [sep.join(pieces)] *)
Fixpoint join (sep : string) (pieces : list string) : string :=
  match pieces with
  | [] => ""
  | [p] => p
  | p :: ps => p +:+ sep +:+ join sep ps
  end.

(** [str(n)] and [f"{n}"] for an [int] *)
Definition of_int (n : Z) : string := NilZero.string_of_int (Z.to_int n).

(** the decimal digits of a natural number *)
Definition of_N (n : N) : string := NilZero.string_of_uint (N.to_uint n).

(** [s.zfill(w)] on a digit string *)
Definition zfill (w : nat) (s : string) : string :=
  String.concat "" (List.repeat "0" (w - String.length s)%nat) +:+ s.

End PyStr.

(** ** Python floats, as the rationals they denote *)

Module PyFloat.

Local Open Scope Q_scope.

(** Rounding to the nearest integer, ties to the even one: the rounding of
    the [f] format type. *)
Definition round_half_even (q : Q) : Z :=
  let f := Qfloor q in
  match Qcompare (q - inject_Z f) (1 # 2) with
  | Lt => f
  | Gt => (f + 1)%Z
  | Eq => if Z.even f then f else (f + 1)%Z
  end.

(** [x] in units of [10^-prec], rounded. *)
Definition scaled (prec : nat) (x : Q) : Z :=
  round_half_even (x * inject_Z (10 ^ Z.of_nat prec)).

(** [f"{x:.{prec}f}"]: sign, integer digits, and [prec] fraction digits. *)
Definition format_f (prec : nat) (x : Q) : string :=
  let t := Z.abs (scaled prec x) in
  let p := (10 ^ Z.of_nat prec)%Z in
  (if Qlt_le_dec x 0 then "-" else "")
  +:+ PyStr.of_N (Z.to_N (t / p))
  +:+ match prec with
      | O => ""
      | _ => "." +:+ PyStr.zfill prec (PyStr.of_N (Z.to_N (t mod p)))
      end.

(** [float(n)] for an [int]: the nearest binary64 value, ties to even, as
    an integer.  Below 2^53 in magnitude the conversion is exact. *)
Definition round_to_binary64 (n : Z) : Z :=
  let a := Z.abs n in
  let sh := (Z.log2 a + 1 - 53)%Z in
  if (sh <=? 0)%Z then n
  else
    let q := Z.shiftr a sh in
    let r := Z.land a (Z.ones sh) in
    let half := Z.shiftl 1 (sh - 1) in
    let q' := if (half <? r)%Z || ((r =? half)%Z && Z.odd q)
              then (q + 1)%Z else q in
    (Z.sgn n * Z.shiftl q' sh)%Z.

(** [int(x)]: truncation towards zero *)
Definition to_int (x : Q) : Z :=
  if Qlt_le_dec x 0 then Qceiling x else Qfloor x.

(** [2^e], for an exponent of either sign. *)
Definition pow2 (e : Z) : Q :=
  if (0 <=? e)%Z then inject_Z (2 ^ e) else / inject_Z (2 ^ (- e)).

(** The binary exponent of a non-zero [x]:
    [2^(ilog2 x) <= |x| < 2^(ilog2 x + 1)]. *)
Definition ilog2 (x : Q) : Z :=
  let e := (Z.log2 (Z.abs (Qnum x)) - Z.log2 (Zpos (Qden x)))%Z in
  if Qle_bool (pow2 e) (Qabs x) then e else (e - 1)%Z.

(** The binary64 value nearest to [x], ties to even: 53 significant bits,
    and a spacing that never goes below [2^-1074].  The result of every
    float operation is rounded so.  (Overflow to an infinity is not
    modelled: the operations below only make their operands smaller.) *)
Definition round_float (x : Q) : Q :=
  let x := Qred x in
  if Qeq_bool x 0 then 0
  else
    let e := Z.max (ilog2 x - 52) (-1074) in
    Qred (inject_Z (round_half_even (x / pow2 e)) * pow2 e).

(** [x + y], [x - y] and [x / y] on floats. *)
Definition add (x y : Q) : Q := round_float (x + y).
Definition sub (x y : Q) : Q := round_float (x - y).
Definition div (x y : Q) : Q := round_float (x / y).

(** [x < y] *)
Definition ltb (x y : Q) : bool := negb (Qle_bool y x).

(** C's [fmod(x, y)]: the remainder of the division truncated towards zero.
    It has the sign of [x] and is exact. *)
Definition fmod (x y : Q) : Q := x - y * inject_Z (to_int (x / y)).

(** The remainder [m] is not zero and its sign is not that of the divisor
    [y]. *)
Definition wrong_sign (m y : Q) : bool :=
  negb (Qeq_bool m 0) && xorb (ltb y 0) (ltb m 0).

(** [x % y] on floats, [y] not zero: [fmod], to which the divisor is added
    (a float addition) when its sign is not that of the divisor. *)
Definition pymod (x y : Q) : Q :=
  let m := fmod x y in
  if wrong_sign m y then add m y else m.

(** [x // y] on floats, [y] not zero: the quotient [(x - m) / y] of float
    operations, less one where the remainder [m] had the wrong sign, then
    snapped to the nearest whole number. *)
Definition floordiv (x y : Q) : Q :=
  let m := fmod x y in
  let d := div (sub x m) y in
  let d := if wrong_sign m y then sub d 1 else d in
  if Qeq_bool d 0 then 0
  else
    let f := inject_Z (Qfloor d) in
    if ltb (1 # 2) (sub d f) then add f 1 else f.

(** The text before the first ['.'] and, when there is one, the text after
    it. *)
Fixpoint split_dot (s : string) : string * option string :=
  match s with
  | EmptyString => ("", None)
  | String c s' =>
      if Ascii.eqb c "." then ("", Some s')
      else let '(a, b) := split_dot s' in (String c a, b)
  end.

(** The value of an unsigned decimal literal [digits] or [digits.digits]. *)
Definition unsigned_literal (s : string) : option Q :=
  let '(ip, fp) := split_dot s in
  let fp := match fp with Some f => f | None => "" end in
  match NilZero.uint_of_string ip, NilEmpty.uint_of_string fp with
  | Some a, Some b =>
      let k := Z.of_nat (String.length fp) in
      Some ((Z.of_N (N.of_uint a) * 10 ^ k + Z.of_N (N.of_uint b))%Z
            # Z.to_pos (10 ^ k))
  | _, _ => None
  end.

(** [float(s)] on the plain decimal literals [[-]digits[.digits]], the only
    ones the program passes to it; [None] stands for [ValueError]. *)
Definition of_string (s : string) : option Q :=
  match s with
  | EmptyString => None
  | String c s' =>
      if Ascii.eqb c "-" then option_map Qopp (unsigned_literal s')
      else unsigned_literal s
  end.

End PyFloat.

(** ** Exceptions and results *)

Inductive exn_class : Set :=
| TimeoutExpired       (* subprocess.TimeoutExpired *)
| FileNotFoundError    (* the binary is missing *)
| OSError
| ValueError
| TypeError
| OverflowError
| NoSuchProcess        (* psutil.NoSuchProcess *)
| AccessDenied         (* psutil.AccessDenied *)
| OtherException.

(** An exception: its class and [str(e)]. *)
Record exn : Set := Exn { exn_cls : exn_class; exn_str : string }.

Inductive result (A : Type) : Type :=
| Ret (a : A)
| Raise (e : exn).
Arguments Ret {A} a.
Arguments Raise {A} e.

Definition exn_class_eqb (a b : exn_class) : bool :=
  match a, b with
  | TimeoutExpired, TimeoutExpired | FileNotFoundError, FileNotFoundError
  | OSError, OSError | ValueError, ValueError | TypeError, TypeError
  | OverflowError, OverflowError
  | NoSuchProcess, NoSuchProcess | AccessDenied, AccessDenied
  | OtherException, OtherException => true
  | _, _ => false
  end.

(** ** The formatters of [dashboard.py] *)

Definition float_of_int (n : Z) : result Q :=
  let v := PyFloat.round_to_binary64 n in
  if Z.abs v <? 2 ^ 1024 then Ret (inject_Z v)
  else Raise (Exn OverflowError "int too large to convert to float").

(** The iterations of the loop of [format_bytes] once [bytes] is a float. *)
Fixpoint format_bytes_loop (units : list string) (bytes : Q) : string :=
  match units with
  | [] => PyFloat.format_f 1 bytes +:+ "PB"
  | unit :: units' =>
      if Qlt_le_dec bytes 1024 then PyFloat.format_f 1 bytes +:+ unit
      else format_bytes_loop units' (bytes / 1024)%Q
  end.

(** [format_bytes]: the argument is an [int]; the first test compares the
    integer itself, the [.1f] format and the first [/= 1024.0] convert it to
    a float. *)
Definition format_bytes (bytes : Z) : result string :=
  match float_of_int bytes with
  | Raise e => Raise e
  | Ret x =>
      if bytes <? 1024 then Ret (PyFloat.format_f 1 x +:+ "B")
      else Ret (format_bytes_loop ["KB"; "MB"; "GB"; "TB"] (x / 1024)%Q)
  end.

(** [format_uptime]: the argument is a float, so [//] and [%] are the float
    operations, each rounding its result. *)
Definition format_uptime (seconds : Q) : string :=
  let days := PyFloat.floordiv seconds 86400 in
  let hours := PyFloat.floordiv (PyFloat.pymod seconds 86400) 3600 in
  let minutes := PyFloat.floordiv (PyFloat.pymod seconds 3600) 60 in
  PyStr.of_int (PyFloat.to_int days) +:+ "d "
  +:+ PyStr.of_int (PyFloat.to_int hours) +:+ "h "
  +:+ PyStr.of_int (PyFloat.to_int minutes) +:+ "m".

(** ** The outside world *)

(** What the process asks of its environment. *)
Inductive event : Type :=
| SubprocessRun (argv : list string) (timeout : Z)
| PsutilCall (function : string)
| TimeTime
| TimeSleep (secs : Z)
| DatetimeNow.

(** [psutil.virtual_memory()], [psutil.disk_usage(path)],
    [psutil.net_io_counters()]: the fields the program reads. *)
Record svmem : Type :=
  { vm_total : Z; vm_used : Z; vm_available : Z; vm_percent : Q }.
Record sdiskusage : Type :=
  { du_total : Z; du_used : Z; du_free : Z; du_percent : Q }.
Record snetio : Type := { bytes_sent : Z; bytes_recv : Z }.

(** The [info] dictionary that [psutil.process_iter(attrs)] attaches to a
    process, with the five attributes asked for.  [pid] is always there;
    each of the others is [None] where psutil could not read it (access
    denied, zombie process): psutil catches that exception itself and
    stores [None]. *)
Record proc_dict : Type :=
  { d_pid : Z;
    d_name : option string;
    d_cpu_percent : option Q;
    d_memory_percent : option Q;
    d_username : option string }.

(** A process handed out by the iterator: reading [proc.info], the first
    statement of the [try] block, gives the dictionary or raises. *)
Record process : Type := { info : result proc_dict }.

(** The five attributes of a process of which none is withheld: [name] and
    [username] are strings, the percentages floats. *)
Record proc_info : Type :=
  { pi_pid : Z;
    pi_name : string;
    pi_cpu_percent : Q;
    pi_memory_percent : Q;
    pi_username : string }.

(** The dictionary that holds these attributes. *)
Definition dict_of (i : proc_info) : proc_dict :=
  {| d_pid := pi_pid i;
     d_name := Some (pi_name i);
     d_cpu_percent := Some (pi_cpu_percent i);
     d_memory_percent := Some (pi_memory_percent i);
     d_username := Some (pi_username i) |}.

(** The attributes of a dictionary in which no value is [None]. *)
Definition delivered (d : proc_dict) : option proc_info :=
  match d_name d, d_cpu_percent d, d_memory_percent d, d_username d with
  | Some name, Some cpu, Some mem, Some user =>
      Some {| pi_pid := d_pid d;
              pi_name := name;
              pi_cpu_percent := cpu;
              pi_memory_percent := mem;
              pi_username := user |}
  | _, _, _, _ => None
  end.

(** The answers of the environment during one request.
    [subprocess_run history argv timeout] answers the call
    [subprocess.run(argv, capture_output=True, text=True, timeout=timeout)]
    made after the calls of [history]: the [stdout] of the completed
    process, or the exception raised (time-out, missing binary, ...).  The
    same command may be answered differently each time it is run. *)
Record world : Type :=
  { subprocess_run : list event -> list string -> Z -> result string;
    psutil_cpu_percent : result Q;
    psutil_cpu_count : result Z;
    psutil_getloadavg : result (Q * Q * Q);
    psutil_virtual_memory : result svmem;
    psutil_disk_usage : string -> result sdiskusage;
    psutil_net_io_counters : result snetio;
    psutil_boot_time : result Q;
    psutil_process_iter : result (list process);
    time_time : Q;
    datetime_now : string }.

(** The mutable state of the process: the calls issued so far, oldest
    first, and the module-level dictionary [login_attempts]. *)
Record state : Type :=
  { trace : list event;
    login_attempts : gmap string Z }.

Definition log (ev : event) (s : state) : state :=
  {| trace := trace s ++ [ev]; login_attempts := login_attempts s |}.

(** ** Computations: state passing with exceptions *)

Definition M (A : Type) : Type := state -> result A * state.

#[global] Instance M_ret : MRet M := fun A a s => (Ret a, s).

#[global] Instance M_bind : MBind M := fun A B k m s =>
  match m s with
  | (Ret a, s') => k a s'
  | (Raise e, s') => (Raise e, s')
  end.

(** A pure step that may raise. *)
Definition lift {A} (r : result A) : M A := fun s => (r, s).

(** A call to the environment: it is recorded, then answered. *)
Definition external {A} (ev : event) (answer : result A) : M A :=
  fun s => (answer, log ev s).

(** A call whose answer may depend on the calls made before it. *)
Definition external_after {A} (ev : event)
    (answer : list event -> result A) : M A :=
  fun s => (answer (trace s), log ev s).

(** [try: body / except Exception as e: handler e] *)
Definition try_except {A} (body : M A) (handler : exn -> M A) : M A :=
  fun s =>
    match body s with
    | (Ret a, s') => (Ret a, s')
    | (Raise e, s') => handler e s'
    end.

(** [try: body / except (classes): handler]: other exceptions pass
    through. *)
Definition try_except_in {A} (classes : list exn_class) (body : M A)
    (handler : M A) : M A :=
  try_except body (fun e =>
    if existsb (exn_class_eqb (exn_cls e)) classes then handler
    else lift (Raise e)).

(** [[f(x) for x in xs]] *)
Fixpoint for_list {A B} (f : A -> M B) (xs : list A) : M (list B) :=
  match xs with
  | [] => mret []
  | x :: xs' => y ← f x; ys ← for_list f xs'; mret (y :: ys)
  end.

(** ** Configuration *)

Record config : Type :=
  { cfg_username : string;
    cfg_password : string;
    cfg_services : list string }.

Definition DEFAULT_CONFIG : config :=
  {| cfg_username := "admin";
     cfg_password := "admin";
     cfg_services := ["nginx"; "ssh"; "docker"; "postgresql"; "redis"] |}.

(** ** Results handed to the HTTP layer *)

(** One entry of [top_processes]. *)
Record proc_entry : Type :=
  { pe_pid : Z;
    pe_name : string;
    pe_cpu : string;
    pe_mem : string;
    pe_user : string }.

(** The dictionary returned by [get_system_data]. *)
Record snapshot : Type :=
  { timestamp : string;
    cpu_percent : Q;
    cpu_count : Z;
    load_avg : string;
    mem_total : string;
    mem_used : string;
    mem_available : string;
    mem_percent : Q;
    disk_total : string;
    disk_used : string;
    disk_free : string;
    disk_percent : Q;
    net_sent : string;
    net_recv : string;
    uptime : string;
    services : list (gmap string string);
    top_processes : list proc_entry }.

(** The local variables of [get_system_data] that hold host metrics. *)
Record metrics : Type :=
  { m_cpu_percent : Q;
    m_cpu_count : Z;
    m_load_avg : string;
    m_mem_total : string;
    m_mem_used : string;
    m_mem_available : string;
    m_mem_percent : Q;
    m_disk_total : string;
    m_disk_used : string;
    m_disk_free : string;
    m_disk_percent : Q;
    m_net_sent : string;
    m_net_recv : string;
    m_uptime : string }.

Inductive response : Type :=
| JsonDict (body : gmap string string)
| JsonSnapshot (body : snapshot)
| Template (name : string)
| PlainResponse (body : string) (status : Z) (headers : gmap string string).

(** What a handler reads from the current request. *)
Record request : Type :=
  { remote_addr : string;
    authorization : option (string * string);
    (* request.args.get('lines', 100, type=int): the parameter when it is
       present and an integer *)
    args_lines : option Z }.

(** ** The program *)

(** The descending, stable sort of [sorted(..., key=..., reverse=True)]:
    elements with equal keys keep their order. *)
Fixpoint insert_desc {A} (x : Q * A) (l : list (Q * A)) : list (Q * A) :=
  match l with
  | [] => [x]
  | y :: l' =>
      if Qlt_le_dec (fst x) (fst y) then y :: insert_desc x l' else x :: l
  end.

Definition sort_desc {A} (l : list (Q * A)) : list (Q * A) :=
  foldr insert_desc [] l.

(** [sorted(items, key=key, reverse=True)]: the keys are computed first,
    in order, and an exception of [key] is the exception of the call. *)
Definition sorted_reverse {A} (key : A -> result Q) (items : list A)
  : M (list A) :=
  keyed ← for_list (fun x => k ← lift (key x); mret (k, x)) items;
  mret (map snd (sort_desc keyed)).

(** One iteration of the loop of [get_service_status] over the lines of the
    output. *)
Definition status_line (acc : string * string) (line : string)
  : string * string :=
  let line := PyStr.strip line in
  if PyStr.contains "Active:" line then
    let parts := PyStr.split_ws line in
    if (2 <=? length parts)%nat then
      let active := nth 1 parts "" in
      if (3 <=? length parts)%nat
      then (active, PyStr.strip_chars "()" (nth 2 parts ""))
      else (active, snd acc)
    else acc
  else acc.

(** The parse of the status text: [(active, sub)]. *)
Definition parse_status (output : string) : string * string :=
  fold_left status_line (PyStr.split_char "010" output)
            ("unknown", "unknown").

(** The entry appended to [top_processes] for a process of which no
    attribute is withheld. *)
Definition entry_of (i : proc_info) : proc_entry :=
  {| pe_pid := pi_pid i;
     pe_name := PyStr.take 30 (pi_name i);
     pe_cpu := PyFloat.format_f 1 (pi_cpu_percent i) +:+ "%";
     pe_mem := PyFloat.format_f 1 (pi_memory_percent i) +:+ "%";
     pe_user := PyStr.take 15 (pi_username i) |}.

(** [x[:n]] where [x] is a string or [None]. *)
Definition slice_to (n : nat) (x : option string) : result string :=
  match x with
  | Some text => Ret (PyStr.take n text)
  | None => Raise (Exn TypeError "'NoneType' object is not subscriptable")
  end.

(** [f"{x:.1f}%"] where [x] is a float or [None]. *)
Definition percent_text (x : option Q) : result string :=
  match x with
  | Some v => Ret (PyFloat.format_f 1 v +:+ "%")
  | None =>
      Raise (Exn TypeError
                 "unsupported format string passed to NoneType.__format__")
  end.

(** The dictionary display in the body of the loop over the processes: its
    values are evaluated in the order written, and the first that raises
    ends the evaluation. *)
Definition read_entry (d : proc_dict) : result proc_entry :=
  match slice_to 30 (d_name d) with
  | Raise e => Raise e
  | Ret name =>
      match percent_text (d_cpu_percent d) with
      | Raise e => Raise e
      | Ret cpu =>
          match percent_text (d_memory_percent d) with
          | Raise e => Raise e
          | Ret mem =>
              match slice_to 15 (d_username d) with
              | Raise e => Raise e
              | Ret user =>
                  Ret {| pe_pid := d_pid d;
                         pe_name := name;
                         pe_cpu := cpu;
                         pe_mem := mem;
                         pe_user := user |}
              end
          end
      end
  end.

(** [lambda x: float(x['cpu'].strip('%'))] *)
Definition cpu_key (x : proc_entry) : result Q :=
  match PyFloat.of_string (PyStr.strip_chars "%" (pe_cpu x)) with
  | Some k => Ret k
  | None => Raise (Exn ValueError "could not convert string to float")
  end.

Section Dashboard.

Variable w : world.
Variable CONFIG : config.

Definition USERNAME : string := cfg_username CONFIG.
Definition PASSWORD : string := cfg_password CONFIG.
Definition SERVICES : list string := cfg_services CONFIG.

Definition check_auth (req : request) (username password : string) : M bool :=
  fun s =>
    let ip := remote_addr req in
    let s1 :=
      if 5 <? default 0 (login_attempts s !! ip)
      then log (TimeSleep 3) s else s in
    let ok := String.eqb username USERNAME && String.eqb password PASSWORD in
    (Ret ok,
     {| trace := trace s1;
        login_attempts :=
          <[ ip := if ok then 0
                   else default 0 (login_attempts s1 !! ip) + 1 ]>
            (login_attempts s1) |}).

Definition authenticate : response :=
  PlainResponse "Authentication required" 401
    {[ "WWW-Authenticate" := "Basic realm=" +:+ String "034" "System Monitor"
                             +:+ String "034" "" ]}.

Definition requires_auth (f : request -> M response) (req : request)
  : M response :=
  match authorization req with
  | None => mret authenticate
  | Some (username, password) =>
      ok ← check_auth req username password;
      if ok : bool then f req else mret authenticate
  end.

Definition get_service_status (service_name : string)
  : M (gmap string string) :=
  try_except
    (output ← external_after
                (SubprocessRun ["systemctl"; "status"; service_name] 2)
                (fun history =>
                   subprocess_run w history
                                  ["systemctl"; "status"; service_name] 2);
     let '(active, sub) := parse_status output in
     mret {[ "name" := service_name; "active" := active; "sub" := sub ]})
    (fun e =>
       mret {[ "name" := service_name;
               "active" := "error";
               "sub" := PyStr.take 20 (exn_str e) ]}).

Definition get_service_logs (service_name : string) (lines : Z) : M string :=
  let argv := ["journalctl"; "-u"; service_name; "-n"; PyStr.of_int lines;
               "--no-pager"] in
  try_except
    (external_after (SubprocessRun argv 5)
                    (fun history => subprocess_run w history argv 5))
    (fun e => mret ("Error fetching logs: " +:+ exn_str e)).

(** The loop over [psutil.process_iter]: one step. *)
Definition collect_process (acc : list proc_entry) (proc : process)
  : M (list proc_entry) :=
  try_except_in [NoSuchProcess; AccessDenied]
    (d ← lift (info proc);
     entry ← lift (read_entry d);
     mret (acc ++ [entry])%list)
    (mret acc).

Fixpoint collect_processes (acc : list proc_entry) (procs : list process)
  : M (list proc_entry) :=
  match procs with
  | [] => mret acc
  | proc :: procs' =>
      acc' ← collect_process acc proc; collect_processes acc' procs'
  end.

(** The "Top processes" part of [get_system_data]. *)
Definition get_top_processes : M (list proc_entry) :=
  procs ← external (PsutilCall "process_iter") (psutil_process_iter w);
  top_processes ← collect_processes [] procs;
  ranked ← sorted_reverse cpu_key top_processes;
  mret (firstn 10 ranked).

(** The "Services" part of [get_system_data]. *)
Definition get_services : M (list (gmap string string)) :=
  for_list get_service_status SERVICES.

(** The readings taken by the "CPU", "Memory", "Disk", "Network" and
    "Uptime" parts of [get_system_data], in the order of the program. *)
Definition sample_metrics : M metrics :=
  (* CPU *)
  cpu_percent ← external (PsutilCall "cpu_percent") (psutil_cpu_percent w);
  cpu_count ← external (PsutilCall "cpu_count") (psutil_cpu_count w);
  loads ← external (PsutilCall "getloadavg") (psutil_getloadavg w);
  let '(l1, l5, l15) := loads in
  let load_avg := PyStr.join ", " (map (PyFloat.format_f 2) [l1; l5; l15]) in
  (* Memory *)
  mem ← external (PsutilCall "virtual_memory") (psutil_virtual_memory w);
  mem_total ← lift (format_bytes (vm_total mem));
  mem_used ← lift (format_bytes (vm_used mem));
  mem_available ← lift (format_bytes (vm_available mem));
  let mem_percent := vm_percent mem in
  (* Disk *)
  disk ← external (PsutilCall "disk_usage") (psutil_disk_usage w "/");
  disk_total ← lift (format_bytes (du_total disk));
  disk_used ← lift (format_bytes (du_used disk));
  disk_free ← lift (format_bytes (du_free disk));
  let disk_percent := du_percent disk in
  (* Network *)
  net ← external (PsutilCall "net_io_counters") (psutil_net_io_counters w);
  net_sent ← lift (format_bytes (bytes_sent net));
  net_recv ← lift (format_bytes (bytes_recv net));
  (* Uptime *)
  now ← external TimeTime (Ret (time_time w));
  boot ← external (PsutilCall "boot_time") (psutil_boot_time w);
  let uptime := format_uptime (PyFloat.sub now boot) in
  mret {| m_cpu_percent := cpu_percent;
          m_cpu_count := cpu_count;
          m_load_avg := load_avg;
          m_mem_total := mem_total;
          m_mem_used := mem_used;
          m_mem_available := mem_available;
          m_mem_percent := mem_percent;
          m_disk_total := disk_total;
          m_disk_used := disk_used;
          m_disk_free := disk_free;
          m_disk_percent := disk_percent;
          m_net_sent := net_sent;
          m_net_recv := net_recv;
          m_uptime := uptime |}.

Definition get_system_data : M snapshot :=
  m ← sample_metrics;
  (* Services *)
  services ← get_services;
  (* Top processes *)
  top_processes ← get_top_processes;
  timestamp ← external DatetimeNow (Ret (datetime_now w));
  mret {| timestamp := timestamp;
          cpu_percent := m_cpu_percent m;
          cpu_count := m_cpu_count m;
          load_avg := m_load_avg m;
          mem_total := m_mem_total m;
          mem_used := m_mem_used m;
          mem_available := m_mem_available m;
          mem_percent := m_mem_percent m;
          disk_total := m_disk_total m;
          disk_used := m_disk_used m;
          disk_free := m_disk_free m;
          disk_percent := m_disk_percent m;
          net_sent := m_net_sent m;
          net_recv := m_net_recv m;
          uptime := m_uptime m;
          services := services;
          top_processes := top_processes |}.

(** The view functions, as written under their decorators. *)
Definition index (req : request) : M response :=
  mret (Template "dashboard.html").

Definition api_data (req : request) : M response :=
  data ← get_system_data; mret (JsonSnapshot data).

Definition api_logs (service_name : string) (req : request) : M response :=
  let lines := default 100 (args_lines req) in
  logs ← get_service_logs service_name lines;
  if bool_decide (service_name ∈ SERVICES)
  then mret (JsonDict {[ "service" := service_name; "logs" := logs ]})
  else mret (JsonDict {[ "service" := "not allowed";
                         "logs" := "not allowed" ]}).

(** The routes: each view behind [@requires_auth]. *)
Definition route_index : request -> M response := requires_auth index.
Definition route_api_data : request -> M response := requires_auth api_data.
Definition route_api_logs (service_name : string) : request -> M response :=
  requires_auth (api_logs service_name).

End Dashboard.

Definition initial_state : state := {| trace := []; login_attempts := ∅ |}.

(** ** Concrete inputs used to exercise the statements *)

(** A request from an operator who is logged in. *)
Definition operator_request : request :=
  {| remote_addr := "127.0.0.1";
     authorization := Some ("admin", "admin");
     args_lines := None |}.

Definition nginx_status_text : string :=
  "* nginx.service - A high performance web server" +:+ String "010"
  ("   Active: active (running) since Mon 2024-01-01 00:00:00 UTC; 1h ago"
   +:+ String "010" "   Main PID: 812 (nginx)").

Definition timed_out : exn :=
  Exn TimeoutExpired
      "Command '['systemctl', 'status', 'ssh']' timed out after 2 seconds".

Definition sample_processes : list process :=
  [ {| info := Ret {| d_pid := 1; d_name := Some "systemd";
                      d_cpu_percent := Some 1;
                      d_memory_percent := Some (1 # 2);
                      d_username := Some "root" |} |};
    {| info := Raise (Exn NoSuchProcess "process no longer exists (pid=77)") |};
    {| info := Ret {| d_pid := 812; d_name := Some "nginx";
                      d_cpu_percent := Some (7 # 2);
                      d_memory_percent := Some (3 # 4);
                      d_username := Some "www-data" |} |} ]%Q.

(** A host on which nginx runs, the query for ssh times out and the other
    units are not installed. *)
Definition sample_world : world :=
  {| subprocess_run := fun _ argv _ =>
       match argv with
       | ["systemctl"; "status"; "nginx"] => Ret nginx_status_text
       | ["systemctl"; "status"; "ssh"] => Raise timed_out
       | ["systemctl"; "status"; _] => Ret "Unit could not be found."
       | _ => Ret "-- No entries --"
       end;
     psutil_cpu_percent := Ret (25 # 2)%Q;
     psutil_cpu_count := Ret 4;
     psutil_getloadavg := Ret (1 # 2, 1 # 4, 5 # 100)%Q;
     psutil_virtual_memory :=
       Ret {| vm_total := 8 * 1024 ^ 3; vm_used := 3 * 1024 ^ 3;
              vm_available := 5 * 1024 ^ 3; vm_percent := (75 # 2)%Q |};
     psutil_disk_usage := fun _ =>
       Ret {| du_total := 1024 ^ 4; du_used := 1536; du_free := 1024 ^ 4 - 1536;
              du_percent := (1 # 10)%Q |};
     psutil_net_io_counters := Ret {| bytes_sent := 1024; bytes_recv := 1023 |};
     psutil_boot_time := Ret 1700000000%Q;
     psutil_process_iter := Ret sample_processes;
     time_time := 1700090061%Q;
     datetime_now := "2023-11-15 23:14:21" |}.

(** The same host with an unreadable root filesystem. *)
Definition broken_disk_world : world :=
  {| subprocess_run := subprocess_run sample_world;
     psutil_cpu_percent := psutil_cpu_percent sample_world;
     psutil_cpu_count := psutil_cpu_count sample_world;
     psutil_getloadavg := psutil_getloadavg sample_world;
     psutil_virtual_memory := psutil_virtual_memory sample_world;
     psutil_disk_usage := fun _ =>
       Raise (Exn OSError "[Errno 5] Input/output error: '/'");
     psutil_net_io_counters := psutil_net_io_counters sample_world;
     psutil_boot_time := psutil_boot_time sample_world;
     psutil_process_iter := psutil_process_iter sample_world;
     time_time := time_time sample_world;
     datetime_now := datetime_now sample_world |}.

(** ** Vocabulary of the statements *)

(** The "not allowed" sentinel of the logs endpoint. *)
Definition not_allowed : gmap string string :=
  {[ "service" := "not allowed"; "logs" := "not allowed" ]}.

(** The call to the log subsystem for one unit. *)
Definition journalctl_call (service_name : string) (lines : Z) : event :=
  SubprocessRun ["journalctl"; "-u"; service_name; "-n"; PyStr.of_int lines;
                 "--no-pager"] 5.

Definition has_marker (line : string) : bool := PyStr.contains "Active:" line.

(** Every character of [s] satisfies [p]. *)
Fixpoint all_chars (p : ascii -> bool) (s : string) : bool :=
  match s with
  | EmptyString => true
  | String c s' => p c && all_chars p s'
  end.

(** What the loop of [get_service_status] leaves in [(active, sub)] after a
    line that carries the marker, in terms of the tokens of that line. *)
Definition marker_line_result (line : string) (acc : string * string)
  : string * string :=
  match PyStr.split_ws line with
  | _ :: active :: rest =>
      (active,
       match rest with
       | third :: _ => PyStr.strip_chars "()" third
       | [] => acc.2
       end)
  | _ => acc
  end.

(** The dictionary [get_service_status] builds from the answer of the
    service manager, asked after the calls of [history]. *)
Definition service_status_of (w : world) (history : list event)
    (name : string) : gmap string string :=
  match subprocess_run w history ["systemctl"; "status"; name] 2 with
  | Ret output =>
      {[ "name" := name; "active" := (parse_status output).1;
         "sub" := (parse_status output).2 ]}
  | Raise e =>
      {[ "name" := name; "active" := "error";
         "sub" := PyStr.take 20 (exn_str e) ]}
  end.

(** The call to the service manager for one unit. *)
Definition systemctl_call (service_name : string) : event :=
  SubprocessRun ["systemctl"; "status"; service_name] 2.

(** The dictionaries for a list of units queried one after the other. *)
Fixpoint service_statuses (w : world) (history : list event)
    (names : list string) : list (gmap string string) :=
  match names with
  | [] => []
  | name :: names' =>
      service_status_of w history name
      :: service_statuses w (history ++ [systemctl_call name]) names'
  end.

(** The state after a sequence of calls to the environment. *)
Definition log_all (evs : list event) (s : state) : state :=
  {| trace := trace s ++ evs; login_attempts := login_attempts s |}.

(** Two hosts that differ at most in what their subprocesses answer. *)
Definition same_host_metrics (w w' : world) : Prop :=
  psutil_cpu_percent w = psutil_cpu_percent w'
  /\ psutil_cpu_count w = psutil_cpu_count w'
  /\ psutil_getloadavg w = psutil_getloadavg w'
  /\ psutil_virtual_memory w = psutil_virtual_memory w'
  /\ psutil_disk_usage w = psutil_disk_usage w'
  /\ psutil_net_io_counters w = psutil_net_io_counters w'
  /\ psutil_boot_time w = psutil_boot_time w'
  /\ psutil_process_iter w = psutil_process_iter w'
  /\ time_time w = time_time w'
  /\ datetime_now w = datetime_now w'.

(** [sample_world] with every subprocess timing out. *)
Definition unresponsive_world : world :=
  {| subprocess_run := fun _ _ _ => Raise timed_out;
     psutil_cpu_percent := psutil_cpu_percent sample_world;
     psutil_cpu_count := psutil_cpu_count sample_world;
     psutil_getloadavg := psutil_getloadavg sample_world;
     psutil_virtual_memory := psutil_virtual_memory sample_world;
     psutil_disk_usage := psutil_disk_usage sample_world;
     psutil_net_io_counters := psutil_net_io_counters sample_world;
     psutil_boot_time := psutil_boot_time sample_world;
     psutil_process_iter := psutil_process_iter sample_world;
     time_time := time_time sample_world;
     datetime_now := datetime_now sample_world |}.

(** A call to the environment that raised. *)
Definition failed {A} (r : result A) : Prop := exists e, r = Raise e.

(** One of the readings of host metrics fails: CPU, memory, disk, network,
    boot time. *)
Definition metric_read_failed (w : world) : Prop :=
  failed (psutil_cpu_percent w)
  \/ failed (psutil_cpu_count w)
  \/ failed (psutil_getloadavg w)
  \/ failed (psutil_virtual_memory w)
  \/ failed (psutil_disk_usage w "/")
  \/ failed (psutil_net_io_counters w)
  \/ failed (psutil_boot_time w).

(** [e] is the exception some reading of host metrics raised. *)
Definition raised_by_metric_read (w : world) (e : exn) : Prop :=
  psutil_cpu_percent w = Raise e
  \/ psutil_cpu_count w = Raise e
  \/ psutil_getloadavg w = Raise e
  \/ psutil_virtual_memory w = Raise e
  \/ psutil_disk_usage w "/" = Raise e
  \/ psutil_net_io_counters w = Raise e
  \/ psutil_boot_time w = Raise e.

(** The text [get_service_logs] returns for the answer of the log
    subsystem, asked after the calls of [history]. *)
Definition logs_of (w : world) (history : list event) (service_name : string)
    (lines : Z) : string :=
  match subprocess_run w history ["journalctl"; "-u"; service_name; "-n";
                                  PyStr.of_int lines; "--no-pager"] 5 with
  | Ret output => output
  | Raise e => "Error fetching logs: " +:+ exn_str e
  end.

(** The units of [format_bytes], smallest first. *)
Definition byte_units : list string := ["B"; "KB"; "MB"; "GB"; "TB"; "PB"].

(** A byte count divided [k] times by 1024. *)
Definition magnitude (bytes : Q) (k : nat) : Q :=
  (bytes / inject_Z (1024 ^ Z.of_nat k))%Q.

(** A decimal digit. *)
Definition is_digit (c : ascii) : bool :=
  match uint_of_char c (Some Decimal.Nil) with
  | Some _ => true
  | None => false
  end.

(** The processes whose dictionary could be read and withholds nothing. *)
Definition visible (procs : list process) : list proc_info :=
  omap (fun p => match info p with
                 | Ret d => delivered d
                 | Raise _ => None
                 end) procs.

(** A process whose dictionary holds every attribute, or whose read raises
    one of the two exceptions the loop of [get_system_data] expects,
    [NoSuchProcess] or [AccessDenied]. *)
Definition readable_or_gone (p : process) : Prop :=
  match info p with
  | Ret d => is_Some (delivered d)
  | Raise e => exn_cls e = NoSuchProcess \/ exn_cls e = AccessDenied
  end.

(** What the body of the [try] block does for one process: the entry it
    builds, or the exception raised there. *)
Definition try_body (p : process) : result proc_entry :=
  match info p with
  | Ret d => read_entry d
  | Raise e => Raise e
  end.


(** The CPU percentage as displayed: in tenths, after the rounding of the
    [.1f] format. *)
Definition displayed_cpu (i : proc_info) : Z :=
  PyFloat.scaled 1 (pi_cpu_percent i).

(** The same number read back from an entry of the result. *)
Definition entry_tenths (x : proc_entry) : Z :=
  match cpu_key x with
  | Ret k => Qfloor (k * 10)
  | Raise _ => 0
  end.

(** Order of two entries by the CPU percentage they display. *)
Definition cpu_ge (a b : proc_entry) : Prop :=
  exists ka kb, cpu_key a = Ret ka /\ cpu_key b = Ret kb /\ (kb <= ka)%Q.
Definition cpu_gt (a b : proc_entry) : Prop :=
  exists ka kb, cpu_key a = Ret ka /\ cpu_key b = Ret kb /\ (kb < ka)%Q.

(** The sort key of an entry, [0] standing in where [cpu_key] raises. *)
Definition key_of (x : proc_entry) : Q :=
  match cpu_key x with Ret k => k | Raise _ => 0%Q end.

(** Order of two keyed items by their keys, largest first. *)
Definition ge_key {A} (a b : Q * A) : Prop := (fst b <= fst a)%Q.

(** An entry of [top_processes] paired with its sort key. *)
Definition keyed (x : proc_entry) : Q * proc_entry := (key_of x, x).

(** A process whose attributes are all delivered. *)
Definition readable (i : proc_info) : process := {| info := Ret (dict_of i) |}.

(** A list of numbers without two equal ones. *)
Fixpoint distinct_values (l : list Q) : Prop :=
  match l with
  | [] => True
  | x :: l' => Forall (fun y => ~ (x == y)%Q) l' /\ distinct_values l'
  end.

Definition process_with_cpu (pid : Z) (cpu : Q) : proc_info :=
  {| pi_pid := pid;
     pi_name := "worker";
     pi_cpu_percent := cpu;
     pi_memory_percent := (1 # 2)%Q;
     pi_username := "app" |}.

(** Fifteen processes with fifteen different CPU percentages; the last two,
    20 and 20.03125, both display as [20.0%]. *)
Definition fifteen_processes : list proc_info :=
  (map (fun pid => process_with_cpu pid (inject_Z pid))
       [1; 2; 3; 4; 5; 6; 7; 8; 9; 10; 11; 12; 13]
   ++ [process_with_cpu 14 20%Q; process_with_cpu 15 (641 # 32)%Q])%list.

(** Fifteen processes whose CPU percentages still differ once rounded. *)
Definition fifteen_spread_processes : list proc_info :=
  map (fun pid => process_with_cpu pid (pid # 2)%Q)
      [3; 1; 4; 15; 9; 2; 6; 5; 13; 8; 7; 12; 10; 11; 14].

(** [w] with another list of processes. *)
Definition with_processes (procs : list process) (w : world) : world :=
  {| subprocess_run := subprocess_run w;
     psutil_cpu_percent := psutil_cpu_percent w;
     psutil_cpu_count := psutil_cpu_count w;
     psutil_getloadavg := psutil_getloadavg w;
     psutil_virtual_memory := psutil_virtual_memory w;
     psutil_disk_usage := psutil_disk_usage w;
     psutil_net_io_counters := psutil_net_io_counters w;
     psutil_boot_time := psutil_boot_time w;
     psutil_process_iter := Ret procs;
     time_time := time_time w;
     datetime_now := datetime_now w |}.

Definition tie_world : world :=
  with_processes (map readable fifteen_processes) sample_world.

(** The fifteen spread processes, and one that vanishes while it is read. *)
Definition spread_world : world :=
  with_processes
    ({| info := Raise (Exn NoSuchProcess "process no longer exists (pid=77)") |}
     :: map readable fifteen_spread_processes)
    sample_world.

(** ** The configuration file and the start of the module *)

(** A value [json.load] returns.  The members of an object have distinct
    keys. *)
#[local] Unset Elimination Schemes.
Inductive json : Type :=
| JNull
| JBool (b : bool)
| JInt (n : Z)
| JFloat (x : Q)
| JString (s : string)
| JArray (items : list json)
| JObject (members : list (string * json)).
#[local] Set Elimination Schemes.

(** The dictionary [DEFAULT_CONFIG] and its like, as [json.dump] writes them
    and [json.load] reads them back. *)
Definition json_of_config (c : config) : json :=
  JObject [("username", JString (cfg_username c));
           ("password", JString (cfg_password c));
           ("services", JArray (map JString (cfg_services c)))].

(** [d[key]] on the members of a dictionary. *)
Fixpoint member (key : string) (members : list (string * json)) : option json :=
  match members with
  | [] => None
  | (k, v) :: members' => if String.eqb k key then Some v else member key members'
  end.

(** [v[key]] for a string [key]: [KeyError] on a dictionary without the
    key, [TypeError] on anything that is not a dictionary. *)
Definition subscript (v : json) (key : string) : result json :=
  match v with
  | JObject members =>
      match member key members with
      | Some x => Ret x
      | None => Raise (Exn OtherException ("'" +:+ key +:+ "'"))
      end
  | _ => Raise (Exn OtherException "object is not subscriptable with a string")
  end.

Definition string_of_json (v : json) : option string :=
  match v with JString s => Some s | _ => None end.

(** The three values of a well-typed configuration: two strings and a list
    of strings. *)
Definition typed_config (username password services : json) : option config :=
  match username, password, services with
  | JString u, JString p, JArray items =>
      match mapM string_of_json items with
      | Some names =>
          Some {| cfg_username := u; cfg_password := p; cfg_services := names |}
      | None => None
      end
  | _, _, _ => None
  end.

(** What [json.load] makes of the text of a file. *)
Inductive document : Type :=
| Parsed (v : json)
| Unparseable (e : exn).

(** What a path names: a file, something [open(path, 'r')] raises on (a
    directory, a file without read permission), or a symbolic link to
    another path. *)
Inductive node : Type :=
| File (doc : document)
| Unopenable (e : exn)
| Link (target : string).

(** What happens when a file is opened for writing and a document dumped
    into it: it works, the file cannot be opened, or the write breaks off
    and leaves [remains] behind. *)
Inductive write_outcome : Type :=
| Written
| OpenFails (e : exn)
| DumpFails (e : exn) (remains : document).

(** The directory entries by path, and what an attempt to write through a
    path comes to. *)
Record disk : Type :=
  { nodes : gmap string node;
    write_attempt : string -> write_outcome }.

(** The path at the end of the chain of symbolic links that starts at
    [path]: [path] itself when it is no link.  [links] is the number of
    links that may still be followed; a longer chain (or a cycle) leads
    nowhere. *)
Fixpoint follow (links : nat) (entries : gmap string node) (path : string)
  : option string :=
  match entries !! path with
  | Some (Link target) =>
      match links with
      | O => None
      | S links' => follow links' entries target
      end
  | _ => Some path
  end.

(** The number of symbolic links the kernel follows for one path. *)
Definition MAXSYMLINKS : nat := 40.

(** What opening [path] reaches, links followed: nothing when the path,
    or the target of its last link, does not exist. *)
Definition reach (d : disk) (path : string) : option node :=
  match follow MAXSYMLINKS (nodes d) path with
  | Some final => nodes d !! final
  | None => None
  end.

(** The state [load_config] works on: the disk and the lines printed. *)
Record io_state : Type :=
  { the_disk : disk;
    printed : list string }.

Definition IO (A : Type) : Type := io_state -> result A * io_state.

#[global] Instance IO_ret : MRet IO := fun A a s => (Ret a, s).

#[global] Instance IO_bind : MBind IO := fun A B k m s =>
  match m s with
  | (Ret a, s') => k a s'
  | (Raise e, s') => (Raise e, s')
  end.

Definition io_lift {A} (r : result A) : IO A := fun s => (r, s).

(** [try: body / except Exception as e: handler e] *)
Definition io_try {A} (body : IO A) (handler : exn -> IO A) : IO A :=
  fun s =>
    match body s with
    | (Ret a, s') => (Ret a, s')
    | (Raise e, s') => handler e s'
    end.

(** [print(line)] *)
Definition print (line : string) : IO unit :=
  fun s => (Ret tt, {| the_disk := the_disk s; printed := printed s ++ [line] |}).

(** [os.path.exists(path)]: links are followed, and a link that leads
    nowhere does not exist. *)
Definition path_exists (path : string) : IO bool :=
  fun s => (Ret (bool_decide (is_Some (reach (the_disk s) path))), s).

Definition too_many_links (path : string) : exn :=
  Exn OSError ("[Errno 40] Too many levels of symbolic links: '" +:+ path
               +:+ "'").

(** [with open(path, 'r') as f: json.load(f)] *)
Definition read_json (path : string) : IO json :=
  fun s =>
    (match reach (the_disk s) path with
     | Some (File (Parsed v)) => Ret v
     | Some (File (Unparseable e)) => Raise e
     | Some (Unopenable e) => Raise e
     | Some (Link _) => Raise (too_many_links path)
     | None => Raise (Exn FileNotFoundError
                          ("[Errno 2] No such file or directory: '" +:+ path
                           +:+ "'"))
     end, s).

Definition put_node (path : string) (n : node) (s : io_state) : io_state :=
  {| the_disk := {| nodes := <[ path := n ]> (nodes (the_disk s));
                    write_attempt := write_attempt (the_disk s) |};
     printed := printed s |}.

(** [with open(path, 'w') as f: json.dump(v, f, indent=4)]: the file
    written is the one at the end of the links of [path], created there
    when the last link leads nowhere. *)
Definition write_json (path : string) (v : json) : IO unit :=
  fun s =>
    match follow MAXSYMLINKS (nodes (the_disk s)) path with
    | None => (Raise (too_many_links path), s)
    | Some final =>
        match write_attempt (the_disk s) path with
        | Written => (Ret tt, put_node final (File (Parsed v)) s)
        | OpenFails e => (Raise e, s)
        | DumpFails e remains => (Raise e, put_node final (File remains) s)
        end
    end.

Definition load_config (config_file : string) : IO json :=
  found ← path_exists config_file;
  if found : bool then
    io_try
      (config ← read_json config_file;
       _ ← print ("  configuration loaded from " +:+ config_file);
       mret config)
      (fun e =>
         _ ← print ("  error loading config: " +:+ exn_str e);
         _ ← print "  using default configuration";
         mret (json_of_config DEFAULT_CONFIG))
  else
    (* Create default config file *)
    _ ← io_try
          (_ ← write_json config_file (json_of_config DEFAULT_CONFIG);
           _ ← print ("  created default config file: " +:+ config_file);
           print "  edit this file to customize credentials and services")
          (fun e => print ("  could not create config file: " +:+ exn_str e));
    mret (json_of_config DEFAULT_CONFIG).

(** The module-level statements [CONFIG = load_config()],
    [USERNAME = CONFIG['username']], [PASSWORD = CONFIG['password']],
    [SERVICES = CONFIG['services']]: the three globals. *)
Definition load_globals : IO (json * json * json) :=
  config ← load_config "config.json";
  username ← io_lift (subscript config "username");
  password ← io_lift (subscript config "password");
  services ← io_lift (subscript config "services");
  mret (username, password, services).

(** A disk without the file, on which it can be created. *)
Definition empty_disk : disk :=
  {| nodes := ∅; write_attempt := fun _ => Written |}.

(** A disk whose [config.json] lacks the list of services. *)
Definition partial_config_disk : disk :=
  {| nodes := {[ "config.json" :=
                   File (Parsed (JObject [("username", JString "ops");
                                          ("password", JString "s3cret")])) ]};
     write_attempt := fun _ => Written |}.

(** A disk whose [config.json] is not JSON. *)
Definition corrupt_config_disk : disk :=
  {| nodes := {[ "config.json" :=
                   File (Unparseable
                           (Exn ValueError
                                "Expecting value: line 1 column 1 (char 0)")) ]};
     write_attempt := fun _ => Written |}.

(** A read-only directory without the file. *)
Definition read_only_disk : disk :=
  {| nodes := ∅;
     write_attempt := fun _ =>
       OpenFails (Exn OSError "[Errno 30] Read-only file system: 'config.json'") |}.

(** A disk on which [config.json] is a symbolic link to a file that is not
    there. *)
Definition dangling_link_disk : disk :=
  {| nodes := {[ "config.json" := Link "/srv/dashboard/config.json" ]};
     write_attempt := fun _ => Written |}.

Definition start_on (d : disk) : io_state := {| the_disk := d; printed := [] |}.

(** The state after printing some lines. *)
Definition print_all (lines : list string) (s : io_state) : io_state :=
  {| the_disk := the_disk s; printed := printed s ++ lines |}.

(** A disk whose [config.json] holds a configuration of the operator. *)
Definition operator_config : config :=
  {| cfg_username := "ops";
     cfg_password := "s3cret";
     cfg_services := ["nginx"; "cron"] |}.

Definition operator_disk : disk :=
  {| nodes := {[ "config.json" := File (Parsed (json_of_config operator_config)) ]};
     write_attempt := fun _ => Written |}.

(** ** Vocabulary for the authentication gate *)

(** [login_attempts.get(ip, 0)] *)
Definition attempts (s : state) (ip : string) : Z :=
  default 0 (login_attempts s !! ip).

(** Credentials that [check_auth] accepts. *)
Definition accepted (cfg : config) (username password : string) : Prop :=
  username = USERNAME cfg /\ password = PASSWORD cfg.

(** A client that sends one pair of credentials after the other from the
    address of [req]. *)
Definition logins (cfg : config) (req : request)
    (guesses : list (string * string)) : M (list bool) :=
  for_list (fun g => check_auth cfg req g.1 g.2) guesses.

(** The credentials a request carries are missing or not accepted. *)
Definition rejected (cfg : config) (req : request) : Prop :=
  match authorization req with
  | None => True
  | Some (username, password) => ~ accepted cfg username password
  end.

(** No counter of failed logins is negative. *)
Definition counters_nonneg (s : state) : Prop :=
  forall ip n, login_attempts s !! ip = Some n -> 0 <= n.

(** A request from an address with wrong credentials. *)
Definition intruder_request : request :=
  {| remote_addr := "203.0.113.9";
     authorization := Some ("admin", "letmein");
     args_lines := None |}.

(** The calls [get_system_data] makes for the host metrics, in order. *)
Definition metric_calls : list event :=
  [PsutilCall "cpu_percent"; PsutilCall "cpu_count"; PsutilCall "getloadavg";
   PsutilCall "virtual_memory"; PsutilCall "disk_usage";
   PsutilCall "net_io_counters"; TimeTime; PsutilCall "boot_time"].

(** All the calls of a successful [get_system_data], in order. *)
Definition snapshot_calls (cfg : config) : list event :=
  (metric_calls ++ map systemctl_call (SERVICES cfg)
   ++ [PsutilCall "process_iter"; DatetimeNow])%list.

(** A call that starts a subprocess. *)
Definition is_subprocess_run (ev : event) : Prop :=
  match ev with SubprocessRun _ _ => True | _ => False end.

(** ** Inputs at which rounding, withheld attributes and journal lines show *)

(** The output of [systemctl status nginx] with a line of the journal below
    the header; that line of the service's own log has the text [Active:]
    in it. *)
Definition journal_status_text : string :=
  nginx_status_text +:+ String "010"
  ("" +:+ String "010"
   "Nov 03 10:15:02 web1 nginx[812]: Active: 12 connections, 3 waiting").

(** A host whose service manager answers with that text. *)
Definition journal_world : world :=
  {| subprocess_run := fun _ _ _ => Ret journal_status_text;
     psutil_cpu_percent := psutil_cpu_percent sample_world;
     psutil_cpu_count := psutil_cpu_count sample_world;
     psutil_getloadavg := psutil_getloadavg sample_world;
     psutil_virtual_memory := psutil_virtual_memory sample_world;
     psutil_disk_usage := psutil_disk_usage sample_world;
     psutil_net_io_counters := psutil_net_io_counters sample_world;
     psutil_boot_time := psutil_boot_time sample_world;
     psutil_process_iter := psutil_process_iter sample_world;
     time_time := time_time sample_world;
     datetime_now := datetime_now sample_world |}.

(** A process of another user, seen by a dashboard that does not run as
    root: psutil delivers its pid and name and puts [None] for the rest. *)
Definition foreign_process : process :=
  {| info := Ret {| d_pid := 640; d_name := Some "sshd";
                    d_cpu_percent := Some 0%Q;
                    d_memory_percent := None;
                    d_username := None |} |}.


(** * Properties *)

(** ** The embedding on known values *)

Example split_ws_runs :
  PyStr.split_ws (String "009" " Active:  active (running)  ")
  = ["Active:"; "active"; "(running)"].
Proof. reflexivity. Qed.

Example split_ws_blank : PyStr.split_ws "   " = [].
Proof. reflexivity. Qed.

Example split_char_keeps_empty_pieces :
  PyStr.split_char "010" ("a" +:+ String "010" (String "010" "b")
                              +:+ String "010" "")
  = ["a"; ""; "b"; ""].
Proof. reflexivity. Qed.

Example strip_both_ends :
  PyStr.strip (String "009" "  a b  " +:+ String "013" "") = "a b".
Proof. reflexivity. Qed.

Example strip_chars_parentheses :
  PyStr.strip_chars "()" "((dead))" = "dead"
  /\ PyStr.strip_chars "()" "a(b)c" = "a(b)c"
  /\ PyStr.strip_chars "()" "()" = "".
Proof. repeat split; reflexivity. Qed.

Example contains_inside : PyStr.contains "Active:" "Inactive: Active: x" = true.
Proof. reflexivity. Qed.

Example take_short_and_long :
  PyStr.take 3 "ab" = "ab" /\ PyStr.take 3 "abcdef" = "abc".
Proof. split; reflexivity. Qed.

(** Ties go to the even digit: 1.25 prints as [1.2], 3.75 as [3.8]. *)
Example format_f_half_even :
  PyFloat.format_f 1 (5 # 4) = "1.2"
  /\ PyFloat.format_f 1 (15 # 4) = "3.8"
  /\ PyFloat.format_f 1 (-(1 # 25)) = "-0.0"
  /\ PyFloat.format_f 2 (5 # 100) = "0.05"
  /\ PyFloat.format_f 2 (314159 # 100000) = "3.14".
Proof. repeat split; reflexivity. Qed.

Example of_string_values :
  PyFloat.of_string "20.0" = Some (200 # 10)%Q
  /\ PyFloat.of_string "-0.5" = Some (- (5 # 10))%Q
  /\ PyFloat.of_string "7" = Some (7 # 1)%Q
  /\ PyFloat.of_string "1.2.3" = None
  /\ PyFloat.of_string "12%" = None.
Proof. repeat split; reflexivity. Qed.

(** [float(2**53 + 1)] is [2**53], [float(2**53 + 3)] is [2**53 + 4]. *)
Example round_to_binary64_ties :
  PyFloat.round_to_binary64 (2 ^ 53 + 1) = 2 ^ 53
  /\ PyFloat.round_to_binary64 (2 ^ 53 + 3) = 2 ^ 53 + 4
  /\ PyFloat.round_to_binary64 (2 ^ 53 - 1) = 2 ^ 53 - 1.
Proof. repeat split; reflexivity. Qed.

Example format_bytes_values :
  format_bytes 1280 = Ret "1.2KB"
  /\ format_bytes (1024 ^ 2 - 1) = Ret "1024.0KB"
  /\ format_bytes (1024 ^ 6) = Ret "1024.0PB"
  /\ format_bytes (-5) = Ret "-5.0B"
  /\ format_bytes (2 ^ 1024)
     = Raise (Exn OverflowError "int too large to convert to float").
Proof. repeat split; reflexivity. Qed.

Example format_uptime_values :
  format_uptime 59 = "0d 0h 0m"
  /\ format_uptime (172799 + (1 # 2)) = "1d 23h 59m"
  /\ format_uptime (- (3 # 2)) = "-1d 23h 59m".
Proof. repeat split; reflexivity. Qed.

(** Float operations round: a tenth is not a float, and below zero the
    remainder [seconds % 86400] is a rounded sum. *)
Example round_float_values :
  PyFloat.round_float (1 # 10) = (3602879701896397 # 36028797018963968)%Q
  /\ PyFloat.round_float (inject_Z (2 ^ 53 + 1)) = inject_Z (2 ^ 53)
  /\ PyFloat.pymod (- (1 # 1099511627776)) 86400 = 86400%Q
  /\ PyFloat.floordiv (- (1 # 1099511627776)) 86400 = (-1)%Q.
Proof. repeat split; vm_compute; reflexivity. Qed.

Example format_uptime_rounded_values :
  format_uptime (- (7388718138654721 # 17592186044416)) = "-1d 23h 53m"
  /\ format_uptime (4142522435566043 # 33554432) = "1428d 21h 33m"
  /\ format_uptime (inject_Z (2 ^ 60 + 4096)) = "13343998895912d 15h 4m".
Proof. repeat split; vm_compute; reflexivity. Qed.

(** A withheld attribute ends the evaluation of the entry. *)
Example read_entry_values :
  read_entry (dict_of (process_with_cpu 7 (5 # 2)))
  = Ret {| pe_pid := 7; pe_name := "worker"; pe_cpu := "2.5%";
           pe_mem := "0.5%"; pe_user := "app" |}
  /\ try_body foreign_process
     = Raise (Exn TypeError
                  "unsupported format string passed to NoneType.__format__").
Proof. split; reflexivity. Qed.

(** [config.json] as a symbolic link that leads nowhere: the path does not
    exist, the default file is created at the target of the link, and the
    link stays. *)
Example load_config_through_dangling_link :
  reach dangling_link_disk "config.json" = None
  /\ nodes (the_disk (load_config "config.json"
                                  (start_on dangling_link_disk)).2)
     = {[ "config.json" := Link "/srv/dashboard/config.json";
          "/srv/dashboard/config.json"
          := File (Parsed (json_of_config DEFAULT_CONFIG)) ]}.
Proof. split; [reflexivity|]. apply map_eq. intros k. vm_compute. reflexivity. Qed.

(** A request without credentials is answered by [authenticate]; the view
    is not run. *)
Example route_api_logs_unauthenticated :
  route_api_logs sample_world DEFAULT_CONFIG "nginx"
    {| remote_addr := "10.0.0.7"; authorization := None; args_lines := None |}
    initial_state
  = (Ret (authenticate), initial_state).
Proof. reflexivity. Qed.

(** The seventh wrong password from one address is delayed. *)
Example check_auth_throttles :
  let req := {| remote_addr := "10.0.0.7";
                authorization := Some ("admin", "guess");
                args_lines := None |} in
  let s := {| trace := []; login_attempts := {[ "10.0.0.7" := 6 ]} |} in
  check_auth DEFAULT_CONFIG req "admin" "guess" s
  = (Ret false,
     {| trace := [TimeSleep 3]; login_attempts := {[ "10.0.0.7" := 7 ]} |}).
Proof. vm_compute. reflexivity. Qed.

(** Two lines with the marker: the later one sets [active]; having no third
    token it leaves the [sub] of the earlier one. *)
Example parse_status_two_marker_lines :
  parse_status ("   Active: active (running)" +:+ String "010" "Active: failed")
  = ("failed", "running").
Proof. reflexivity. Qed.

Example get_system_data_sample :
  match get_system_data sample_world DEFAULT_CONFIG initial_state with
  | (Ret snap, s) =>
      uptime snap = "1d 1h 1m"
      /\ load_avg snap = "0.50, 0.25, 0.05"
      /\ (mem_total snap, mem_used snap, mem_available snap)
         = ("8.0GB", "3.0GB", "5.0GB")
      /\ (disk_total snap, disk_used snap, disk_free snap)
         = ("1.0TB", "1.5KB", "1024.0GB")
      /\ (net_sent snap, net_recv snap) = ("1.0KB", "1023.0B")
      /\ map (fun x => (pe_pid x, pe_name x, pe_cpu x, pe_mem x, pe_user x))
             (top_processes snap)
         = [(812, "nginx", "3.5%", "0.8%", "www-data");
            (1, "systemd", "1.0%", "0.5%", "root")]
      /\ map (fun d : gmap string string => (d !! "name", d !! "active", d !! "sub"))
             (services snap)
         = [(Some "nginx", Some "active", Some "running");
            (Some "ssh", Some "error", Some "Command '['systemctl");
            (Some "docker", Some "unknown", Some "unknown");
            (Some "postgresql", Some "unknown", Some "unknown");
            (Some "redis", Some "unknown", Some "unknown")]
      /\ trace s
         = [PsutilCall "cpu_percent"; PsutilCall "cpu_count";
            PsutilCall "getloadavg"; PsutilCall "virtual_memory";
            PsutilCall "disk_usage"; PsutilCall "net_io_counters"; TimeTime;
            PsutilCall "boot_time"; systemctl_call "nginx";
            systemctl_call "ssh"; systemctl_call "docker";
            systemctl_call "postgresql"; systemctl_call "redis";
            PsutilCall "process_iter"; DatetimeNow]
  | (Raise _, _) => False
  end.
Proof. vm_compute. repeat split; reflexivity. Qed.

(** ** Running a computation *)

Lemma run_bind {A B} (m : M A) (k : A -> M B) (s : state) :
  (m ≫= k) s =
  match m s with
  | (Ret a, s') => k a s'
  | (Raise e, s') => (Raise e, s')
  end.
Proof. reflexivity. Qed.

Lemma run_external {A} (ev : event) (r : result A) (s : state) :
  external ev r s = (r, log ev s).
Proof. reflexivity. Qed.

Lemma run_external_after {A} (ev : event) (answer : list event -> result A)
    (s : state) :
  external_after ev answer s = (answer (trace s), log ev s).
Proof. reflexivity. Qed.

(** ** [get_service_status] *)

Lemma get_service_status_run (w : world) (name : string) (s : state) :
  get_service_status w name s
  = (Ret (service_status_of w (trace s) name), log (systemctl_call name) s).
Proof.
  unfold get_service_status, try_except, systemctl_call, service_status_of.
  rewrite run_bind, run_external_after.
  destruct (subprocess_run w _ _ 2) as [output|e]; [|reflexivity].
  destruct (parse_status output); reflexivity.
Qed.

(** C10: whatever the service manager answers, [get_service_status] returns
    a dictionary whose keys are exactly [name], [active] and [sub], and
    whose [name] is the name it was asked about. *)
Theorem get_service_status_shape (w : world) (name : string) (s : state) :
  exists d s',
    get_service_status w name s = (Ret d, s')
    /\ dom d = ({[ "name"; "active"; "sub" ]} : gset string)
    /\ d !! "name" = Some name.
Proof.
  rewrite get_service_status_run.
  eexists _, _. split; [reflexivity|].
  unfold service_status_of. destruct (subprocess_run w _ _ 2); split;
    solve [set_solver | by simplify_map_eq].
Qed.

(** ** Facts about the string methods *)

Section Strip.

Variable p : ascii -> bool.

Lemma prefix_empty_r (pat : string) : pat <> "" -> String.prefix pat "" = false.
Proof. destruct pat; [congruence | reflexivity]. Qed.

Lemma prefix_empty_l (s : string) : String.prefix "" s = true.
Proof. destruct s; reflexivity. Qed.

Lemma prefix_head_mismatch (a c : ascii) (pat s : string) :
  a <> c -> String.prefix (String a pat) (String c s) = false.
Proof. intros Hne. simpl. destruct (ascii_dec a c); congruence. Qed.

(** A string that [rstrip_by p] erases consists of characters in [p]. *)
Lemma rstrip_by_empty_head (c : ascii) (s : string) :
  PyStr.rstrip_by p (String c s) = "" -> p c = true /\ PyStr.rstrip_by p s = "".
Proof.
  simpl. destruct (PyStr.rstrip_by p s); [|discriminate].
  destruct (p c); [auto | discriminate].
Qed.

Lemma prefix_of_erased (pat s : string) :
  pat <> "" -> all_chars (fun c => negb (p c)) pat = true ->
  PyStr.rstrip_by p s = "" -> String.prefix pat s = false.
Proof.
  intros Hne Hpat Hs. destruct pat as [|a pat]; [congruence|].
  destruct s as [|c s]; [reflexivity|].
  apply rstrip_by_empty_head in Hs as [Hc _].
  apply prefix_head_mismatch. intros ->.
  simpl in Hpat. rewrite Hc in Hpat. discriminate.
Qed.

Lemma prefix_rstrip_by (pat s : string) :
  all_chars (fun c => negb (p c)) pat = true ->
  String.prefix pat (PyStr.rstrip_by p s) = String.prefix pat s.
Proof.
  revert pat. induction s as [|c s IH]; intros pat Hpat; [reflexivity|].
  destruct pat as [|a pat]; [by rewrite !prefix_empty_l|].
  simpl in Hpat. apply andb_prop in Hpat as [Ha Hpat].
  cbn [PyStr.rstrip_by].
  destruct (PyStr.rstrip_by p s) as [|c' r] eqn:Hr.
  - destruct (p c) eqn:Hc.
    + symmetry. apply prefix_head_mismatch. intros ->.
      rewrite Hc in Ha. discriminate.
    + simpl. destruct (ascii_dec a c); [|reflexivity].
      destruct pat as [|b pat]; [by rewrite !prefix_empty_l|].
      symmetry. apply prefix_of_erased; [congruence | exact Hpat | exact Hr].
  - specialize (IH pat Hpat).
    simpl. destruct (ascii_dec a c); [exact IH | reflexivity].
Qed.

Lemma contains_empty (pat : string) : pat <> "" -> PyStr.contains pat "" = false.
Proof. destruct pat; [congruence | reflexivity]. Qed.

Lemma contains_rstrip_by (pat s : string) :
  pat <> "" -> all_chars (fun c => negb (p c)) pat = true ->
  PyStr.contains pat (PyStr.rstrip_by p s) = PyStr.contains pat s.
Proof.
  intros Hne Hpat. induction s as [|c s IH]; [reflexivity|].
  pose proof (prefix_rstrip_by pat (String c s) Hpat) as Hpre.
  cbn [PyStr.rstrip_by] in *.
  destruct (PyStr.rstrip_by p s) as [|c' r] eqn:Hr.
  - rewrite contains_empty in IH by exact Hne.
    destruct (p c).
    + rewrite contains_empty by exact Hne.
      cbn [PyStr.contains]. rewrite <- IH, <- Hpre.
      rewrite prefix_empty_r by exact Hne. reflexivity.
    + cbn [PyStr.contains]. rewrite <- IH, Hpre.
      rewrite prefix_empty_r by exact Hne. reflexivity.
  - change (PyStr.contains pat (String c (String c' r)))
      with (String.prefix pat (String c (String c' r))
            || PyStr.contains pat (String c' r)).
    rewrite Hpre, IH. reflexivity.
Qed.

Lemma contains_lstrip_by (pat s : string) :
  pat <> "" -> all_chars (fun c => negb (p c)) pat = true ->
  PyStr.contains pat (PyStr.lstrip_by p s) = PyStr.contains pat s.
Proof.
  intros Hne Hpat. induction s as [|c s IH]; [reflexivity|].
  cbn [PyStr.lstrip_by]. destruct (p c) eqn:Hc; [|reflexivity].
  rewrite IH. destruct pat as [|a pat]; [congruence|].
  cbn [PyStr.contains]. rewrite prefix_head_mismatch; [reflexivity|].
  intros ->. simpl in Hpat. rewrite Hc in Hpat. discriminate.
Qed.

Lemma contains_strip_by (pat s : string) :
  pat <> "" -> all_chars (fun c => negb (p c)) pat = true ->
  PyStr.contains pat (PyStr.strip_by p s) = PyStr.contains pat s.
Proof.
  intros Hne Hpat. unfold PyStr.strip_by.
  rewrite contains_rstrip_by, contains_lstrip_by by assumption. reflexivity.
Qed.

End Strip.

(** Stripping a line does not change whether it carries the marker. *)
Lemma has_marker_strip (line : string) :
  has_marker (PyStr.strip line) = has_marker line.
Proof. apply contains_strip_by; [discriminate | reflexivity]. Qed.

(** Stripping a line does not change its tokens. *)
Lemma split_ws_from_rstrip (s cur : string) :
  PyStr.split_ws_from cur (PyStr.rstrip_by PyStr.is_space s)
  = PyStr.split_ws_from cur s.
Proof.
  revert cur. induction s as [|c s IH]; intros cur; [reflexivity|].
  cbn [PyStr.rstrip_by].
  destruct (PyStr.rstrip_by PyStr.is_space s) as [|c' r] eqn:Hr.
  - destruct (PyStr.is_space c) eqn:Hc.
    + cbn [PyStr.split_ws_from]. rewrite Hc, <- IH.
      destruct cur; reflexivity.
    + cbn [PyStr.split_ws_from]. rewrite Hc, <- (IH (String c cur)).
      reflexivity.
  - cbn [PyStr.split_ws_from].
    destruct (PyStr.is_space c); rewrite <- ?IH; reflexivity.
Qed.

Lemma split_ws_lstrip (s : string) :
  PyStr.split_ws (PyStr.lstrip_by PyStr.is_space s) = PyStr.split_ws s.
Proof.
  unfold PyStr.split_ws. induction s as [|c s IH]; [reflexivity|].
  cbn [PyStr.lstrip_by PyStr.split_ws_from].
  destruct (PyStr.is_space c) eqn:Hc; [exact IH|].
  cbn [PyStr.split_ws_from]. rewrite Hc. reflexivity.
Qed.

Lemma split_ws_strip (s : string) :
  PyStr.split_ws (PyStr.strip s) = PyStr.split_ws s.
Proof.
  unfold PyStr.strip, PyStr.strip_by, PyStr.split_ws at 1.
  rewrite split_ws_from_rstrip. apply split_ws_lstrip.
Qed.

(** ** The parse of the status text *)

Lemma status_line_other (acc : string * string) (line : string) :
  has_marker line = false -> status_line acc line = acc.
Proof.
  intros H. unfold status_line.
  fold (has_marker (PyStr.strip line)). rewrite has_marker_strip, H.
  reflexivity.
Qed.

Lemma status_line_marker (acc : string * string) (line : string) :
  has_marker line = true -> status_line acc line = marker_line_result line acc.
Proof.
  intros H. unfold status_line, marker_line_result.
  fold (has_marker (PyStr.strip line)). rewrite has_marker_strip, H.
  rewrite split_ws_strip.
  destruct (PyStr.split_ws line) as [|t1 [|t2 [|t3 rest]]]; reflexivity.
Qed.

Lemma fold_status_line_others (lines : list string) (acc : string * string) :
  Forall (fun l => has_marker l = false) lines ->
  fold_left status_line lines acc = acc.
Proof.
  intros H. revert acc. induction H as [|l lines Hl _ IH]; intros acc.
  - reflexivity.
  - simpl. rewrite status_line_other by exact Hl. apply IH.
Qed.

(** The text has no line with the marker: both fields keep their default. *)
Lemma parse_status_no_marker (output : string) :
  Forall (fun l => has_marker l = false) (PyStr.split_char "010" output) ->
  parse_status output = ("unknown", "unknown").
Proof. apply fold_status_line_others. Qed.

(** The text has exactly one line with the marker: that line decides. *)
Lemma parse_status_one_marker (output : string) (pre post : list string)
    (line : string) :
  PyStr.split_char "010" output = (pre ++ line :: post)%list ->
  Forall (fun l => has_marker l = false) (pre ++ post)%list ->
  has_marker line = true ->
  parse_status output = marker_line_result line ("unknown", "unknown").
Proof.
  intros Hsplit Hothers Hline. unfold parse_status.
  apply Forall_app in Hothers as [Hpre Hpost].
  rewrite Hsplit, fold_left_app. cbn [fold_left].
  rewrite (fold_status_line_others pre) by exact Hpre.
  rewrite status_line_marker by exact Hline.
  apply fold_status_line_others, Hpost.
Qed.

(** Several lines with the marker: the loop does not stop at the first one,
    each one overwrites what the earlier ones set. *)
Lemma parse_status_last_marker (output : string) (pre post : list string)
    (line : string) :
  PyStr.split_char "010" output = (pre ++ line :: post)%list ->
  Forall (fun l => has_marker l = false) post ->
  has_marker line = true ->
  parse_status output
  = marker_line_result line (fold_left status_line pre ("unknown", "unknown")).
Proof.
  intros Hsplit Hpost Hline. unfold parse_status.
  rewrite Hsplit, fold_left_app. cbn [fold_left].
  rewrite status_line_marker by exact Hline.
  apply fold_status_line_others, Hpost.
Qed.

(** Every text: the lines without the marker are skipped, each line with
    the marker overwrites what the earlier ones set. *)
Lemma parse_status_marker_lines (output : string) :
  parse_status output
  = fold_left (fun acc line => marker_line_result line acc)
              (List.filter has_marker (PyStr.split_char "010" output))
              ("unknown", "unknown").
Proof.
  unfold parse_status. generalize ("unknown", "unknown").
  induction (PyStr.split_char "010" output) as [|line lines IH]; intros acc;
    [reflexivity|].
  cbn [fold_left List.filter]. destruct (has_marker line) eqn:Hline.
  - rewrite status_line_marker by exact Hline. apply IH.
  - rewrite status_line_other by exact Hline. apply IH.
Qed.

(** C3: the status parser.  The dictionary carries the parse of the text;
    the parse looks only at the lines with the marker [Active:]; when one
    line of the text has the marker, the second whitespace-separated token
    of that line is the active-state and the third one, stripped of
    parentheses, the sub-state (the default when there is no third token,
    both defaults when there is no second); a text with the line
    [   Active: active (running) since ...] gives [active] and [running];
    a text without the marker gives [unknown] and [unknown]. *)
Theorem get_service_status_parses_active_line :
  (forall w name s output,
      subprocess_run w (trace s) ["systemctl"; "status"; name] 2 = Ret output ->
      (get_service_status w name s).1
      = Ret {[ "name" := name; "active" := (parse_status output).1;
               "sub" := (parse_status output).2 ]})
  /\ (forall output,
         parse_status output
         = fold_left (fun acc line => marker_line_result line acc)
                     (List.filter has_marker (PyStr.split_char "010" output))
                     ("unknown", "unknown"))
  /\ (forall output pre line post,
         PyStr.split_char "010" output = (pre ++ line :: post)%list ->
         Forall (fun l => has_marker l = false) (pre ++ post)%list ->
         has_marker line = true ->
         match PyStr.split_ws line with
         | _ :: active :: third :: _ =>
             parse_status output = (active, PyStr.strip_chars "()" third)
         | [_; active] => parse_status output = (active, "unknown")
         | _ => parse_status output = ("unknown", "unknown")
         end)
  /\ (forall output pre rest post,
         PyStr.split_char "010" output
         = (pre ++ ("   Active: active (running) since " +:+ rest) :: post)%list ->
         Forall (fun l => has_marker l = false) (pre ++ post)%list ->
         parse_status output = ("active", "running"))
  /\ (forall output,
         Forall (fun l => has_marker l = false) (PyStr.split_char "010" output) ->
         parse_status output = ("unknown", "unknown")).
Proof.
  split; [|split; [|split; [|split]]].
  - intros w name s output Hrun.
    rewrite get_service_status_run. unfold service_status_of.
    rewrite Hrun. reflexivity.
  - apply parse_status_marker_lines.
  - intros output pre line post Hsplit Hothers Hline.
    rewrite (parse_status_one_marker output pre post line Hsplit Hothers Hline).
    unfold marker_line_result.
    destruct (PyStr.split_ws line) as [|t1 [|t2 [|t3 rest]]]; reflexivity.
  - intros output pre rest post Hsplit Hothers.
    rewrite (parse_status_one_marker output pre post _ Hsplit Hothers);
      reflexivity.
  - apply parse_status_no_marker.
Qed.

Lemma get_service_status_parses_active_line_witness :
  (get_service_status sample_world "nginx" initial_state).1
  = Ret {[ "name" := "nginx"; "active" := "active"; "sub" := "running" ]}
  /\ parse_status nginx_status_text = ("active", "running")
  /\ parse_status "Unit could not be found." = ("unknown", "unknown").
Proof.
  destruct get_service_status_parses_active_line
    as (Hdict & _ & Hline & Hex & Hnone).
  split; [|split].
  - rewrite (Hdict sample_world "nginx" initial_state nginx_status_text);
      reflexivity.
  - apply (Hex nginx_status_text
               ["* nginx.service - A high performance web server"]
               "Mon 2024-01-01 00:00:00 UTC; 1h ago"
               ["   Main PID: 812 (nginx)"]).
    + reflexivity.
    + repeat constructor.
  - apply Hnone. repeat constructor.
Defined.

(** C3 as the specification words it fails: a text that has the line
    [   Active: active (running) since ...] need not give [active] and
    [running].  The loop goes on after the first line with the marker, and
    a later line with [Active:] in it, here a line of the journal that
    [systemctl status] prints below the header, sets both values anew. *)
Lemma get_service_status_later_marker_line_wins :
  ~ (forall output pre rest post,
        PyStr.split_char "010" output
        = (pre ++ ("   Active: active (running) since " +:+ rest) :: post)%list ->
        parse_status output = ("active", "running"))
  /\ parse_status journal_status_text = ("03", "10:15:02")
  /\ (get_service_status journal_world "nginx" initial_state).1
     = Ret {[ "name" := "nginx"; "active" := "03"; "sub" := "10:15:02" ]}.
Proof.
  split; [|split; reflexivity].
  intros Hclaim.
  specialize (Hclaim journal_status_text
                ["* nginx.service - A high performance web server"]
                "Mon 2024-01-01 00:00:00 UTC; 1h ago"
                ["   Main PID: 812 (nginx)"; "";
                 "Nov 03 10:15:02 web1 nginx[812]: Active: 12 connections, 3 waiting"]
                eq_refl).
  vm_compute in Hclaim. discriminate Hclaim.
Qed.

(** ** The services part of a snapshot *)

Lemma log_all_log_all (a b : list event) (s : state) :
  log_all b (log_all a s) = log_all (a ++ b) s.
Proof. unfold log_all. simpl. rewrite <- app_assoc. reflexivity. Qed.

Lemma log_all_nil (s : state) : log_all [] s = s.
Proof. destruct s. unfold log_all. simpl. rewrite app_nil_r. reflexivity. Qed.

Lemma for_list_get_service_status (w : world) (names : list string) (s : state) :
  for_list (get_service_status w) names s
  = (Ret (service_statuses w (trace s) names),
     log_all (map systemctl_call names) s).
Proof.
  revert s. induction names as [|name names IH]; intros s.
  - simpl. rewrite log_all_nil. reflexivity.
  - cbn [for_list]. rewrite run_bind, get_service_status_run.
    rewrite run_bind, IH.
    change (log (systemctl_call name) s) with (log_all [systemctl_call name] s).
    rewrite log_all_log_all. reflexivity.
Qed.

Lemma get_services_run (w : world) (cfg : config) (s : state) :
  get_services w cfg s
  = (Ret (service_statuses w (trace s) (SERVICES cfg)),
     log_all (map systemctl_call (SERVICES cfg)) s).
Proof. apply for_list_get_service_status. Qed.

Lemma service_status_of_name (w : world) (history : list event)
    (name : string) :
  service_status_of w history name !! "name" = Some name.
Proof.
  unfold service_status_of.
  destruct (subprocess_run w _ _ 2); by simplify_map_eq.
Qed.

Lemma service_statuses_names (w : world) (history : list event)
    (names : list string) :
  map (fun d : gmap string string => d !! "name")
      (service_statuses w history names) = map Some names.
Proof.
  revert history. induction names as [|name names IH]; intros history;
    [reflexivity|].
  cbn [service_statuses map]. rewrite service_status_of_name, IH. reflexivity.
Qed.

Lemma service_statuses_length (w : world) (history : list event)
    (names : list string) :
  length (service_statuses w history names) = length names.
Proof.
  revert history. induction names as [|name names IH]; intros history;
    [reflexivity|].
  cbn [service_statuses length]. rewrite IH. reflexivity.
Qed.

(** [get_system_data], phase by phase. *)
Lemma get_system_data_run (w : world) (cfg : config) (s : state) :
  get_system_data w cfg s =
  match sample_metrics w s with
  | (Raise e, s1) => (Raise e, s1)
  | (Ret m, s1) =>
      match get_top_processes w (log_all (map systemctl_call (SERVICES cfg)) s1) with
      | (Raise e, s2) => (Raise e, s2)
      | (Ret top, s2) =>
          (Ret {| timestamp := datetime_now w;
                  cpu_percent := m_cpu_percent m;
                  cpu_count := m_cpu_count m;
                  load_avg := m_load_avg m;
                  mem_total := m_mem_total m;
                  mem_used := m_mem_used m;
                  mem_available := m_mem_available m;
                  mem_percent := m_mem_percent m;
                  disk_total := m_disk_total m;
                  disk_used := m_disk_used m;
                  disk_free := m_disk_free m;
                  disk_percent := m_disk_percent m;
                  net_sent := m_net_sent m;
                  net_recv := m_net_recv m;
                  uptime := m_uptime m;
                  services := service_statuses w (trace s1) (SERVICES cfg);
                  top_processes := top |},
           log DatetimeNow s2)
      end
  end.
Proof.
  unfold get_system_data. rewrite run_bind.
  destruct (sample_metrics w s) as [[m|e] s1]; [|reflexivity].
  rewrite run_bind, get_services_run, run_bind.
  destruct (get_top_processes w _) as [[top|e] s2]; reflexivity.
Qed.

(** ** Failures of the metric readings *)

Lemma failed_Ret {A} (a : A) : ~ failed (Ret a).
Proof. intros [e He]. discriminate. Qed.

(** Runs the next statement of a computation. *)
Ltac run_next :=
  rewrite run_bind;
  first [ rewrite run_external | unfold lift at 1 ];
  cbn beta iota.

Lemma sample_metrics_failure (w : world) (s : state) :
  metric_read_failed w -> exists e s1, sample_metrics w s = (Raise e, s1).
Proof.
  unfold metric_read_failed, sample_metrics. intros Hfail.
  run_next. destruct (psutil_cpu_percent w) as [cpu|e]; [|eauto].
  run_next. destruct (psutil_cpu_count w) as [n|e]; [|eauto].
  run_next. destruct (psutil_getloadavg w) as [[[l1 l5] l15]|e]; [|eauto].
  run_next. destruct (psutil_virtual_memory w) as [mem|e]; [|eauto].
  run_next. destruct (format_bytes (vm_total mem)); [|eauto].
  run_next. destruct (format_bytes (vm_used mem)); [|eauto].
  run_next. destruct (format_bytes (vm_available mem)); [|eauto].
  run_next. destruct (psutil_disk_usage w "/") as [disk|e]; [|eauto].
  run_next. destruct (format_bytes (du_total disk)); [|eauto].
  run_next. destruct (format_bytes (du_used disk)); [|eauto].
  run_next. destruct (format_bytes (du_free disk)); [|eauto].
  run_next. destruct (psutil_net_io_counters w) as [net|e]; [|eauto].
  run_next. destruct (format_bytes (bytes_sent net)); [|eauto].
  run_next. destruct (format_bytes (bytes_recv net)); [|eauto].
  run_next.
  run_next. destruct (psutil_boot_time w) as [boot|e]; [|eauto].
  exfalso. repeat destruct Hfail as [Hfail|Hfail]; eapply failed_Ret, Hfail.
Qed.

Lemma get_top_processes_failure (w : world) (s : state) (e : exn) :
  psutil_process_iter w = Raise e ->
  get_top_processes w s = (Raise e, log (PsutilCall "process_iter") s).
Proof.
  intros H. unfold get_top_processes. rewrite run_bind, run_external, H.
  reflexivity.
Qed.

Lemma format_bytes_raises (n : Z) (e : exn) :
  format_bytes n = Raise e -> exn_cls e = OverflowError.
Proof.
  unfold format_bytes, float_of_int.
  destruct (Z.abs _ <? 2 ^ 1024).
  - destruct (n <? 1024); discriminate.
  - intros [= <-]. reflexivity.
Qed.

(** What [sample_metrics] raises is what a reading raised, or the overflow
    of a byte count too large for a float. *)
Lemma sample_metrics_raises (w : world) (s s1 : state) (e : exn) :
  sample_metrics w s = (Raise e, s1) ->
  raised_by_metric_read w e \/ exn_cls e = OverflowError.
Proof.
  unfold raised_by_metric_read, sample_metrics.
  run_next. destruct (psutil_cpu_percent w) as [cpu|e0]; [|intros [= -> _]; tauto].
  run_next. destruct (psutil_cpu_count w) as [n|e0]; [|intros [= -> _]; tauto].
  run_next. destruct (psutil_getloadavg w) as [[[l1 l5] l15]|e0];
    [|intros [= -> _]; tauto].
  run_next. destruct (psutil_virtual_memory w) as [mem|e0];
    [|intros [= -> _]; tauto].
  run_next. destruct (format_bytes (vm_total mem)) eqn:F1;
    [|intros [= -> _]; eauto using format_bytes_raises].
  run_next. destruct (format_bytes (vm_used mem)) eqn:F2;
    [|intros [= -> _]; eauto using format_bytes_raises].
  run_next. destruct (format_bytes (vm_available mem)) eqn:F3;
    [|intros [= -> _]; eauto using format_bytes_raises].
  run_next. destruct (psutil_disk_usage w "/") as [disk|e0];
    [|intros [= -> _]; tauto].
  run_next. destruct (format_bytes (du_total disk)) eqn:F4;
    [|intros [= -> _]; eauto using format_bytes_raises].
  run_next. destruct (format_bytes (du_used disk)) eqn:F5;
    [|intros [= -> _]; eauto using format_bytes_raises].
  run_next. destruct (format_bytes (du_free disk)) eqn:F6;
    [|intros [= -> _]; eauto using format_bytes_raises].
  run_next. destruct (psutil_net_io_counters w) as [net|e0];
    [|intros [= -> _]; tauto].
  run_next. destruct (format_bytes (bytes_sent net)) eqn:F7;
    [|intros [= -> _]; eauto using format_bytes_raises].
  run_next. destruct (format_bytes (bytes_recv net)) eqn:F8;
    [|intros [= -> _]; eauto using format_bytes_raises].
  run_next.
  run_next. destruct (psutil_boot_time w) as [boot|e0];
    [|intros [= -> _]; tauto].
  discriminate.
Qed.

(** C6: when a reading of CPU, memory, disk, network or boot time fails, or
    the enumeration of processes does, [get_system_data] returns no
    snapshot: it raises, and what it raises is the exception of a reading
    (or the overflow of a byte count that does not fit a float). *)
Theorem get_system_data_fails_as_a_whole (w : world) (cfg : config) (s : state) :
  metric_read_failed w \/ failed (psutil_process_iter w) ->
  exists e s',
    get_system_data w cfg s = (Raise e, s')
    /\ (raised_by_metric_read w e
        \/ psutil_process_iter w = Raise e
        \/ exn_cls e = OverflowError).
Proof.
  intros H. rewrite get_system_data_run.
  destruct (sample_metrics w s) as [[m|e] s1] eqn:Hm.
  - destruct H as [H|[e Hp]].
    + destruct (sample_metrics_failure w s H) as (e & s1' & He). congruence.
    + rewrite (get_top_processes_failure _ _ e Hp). eauto 6.
  - exists e, s1. split; [reflexivity|].
    destruct (sample_metrics_raises _ _ _ _ Hm); tauto.
Qed.

Lemma get_system_data_fails_as_a_whole_witness :
  exists e s',
    get_system_data broken_disk_world DEFAULT_CONFIG initial_state = (Raise e, s')
    /\ (raised_by_metric_read broken_disk_world e
        \/ psutil_process_iter broken_disk_world = Raise e
        \/ exn_cls e = OverflowError).
Proof.
  apply (get_system_data_fails_as_a_whole broken_disk_world DEFAULT_CONFIG
                                         initial_state).
  left. unfold metric_read_failed.
  do 4 right. left. exists (Exn OSError "[Errno 5] Input/output error: '/'").
  reflexivity.
Defined.

Lemma sample_metrics_same_host (w w' : world) :
  same_host_metrics w w' -> sample_metrics w = sample_metrics w'.
Proof.
  intros (H1 & H2 & H3 & H4 & H5 & H6 & H7 & _ & H9 & _).
  unfold sample_metrics. rewrite H1, H2, H3, H4, H5, H6, H7, H9. reflexivity.
Qed.

Lemma get_top_processes_same_host (w w' : world) :
  same_host_metrics w w' -> get_top_processes w = get_top_processes w'.
Proof.
  intros (_ & _ & _ & _ & _ & _ & _ & H8 & _).
  unfold get_top_processes. rewrite H8. reflexivity.
Qed.

(** C7: a failure of the query to the service manager stays inside
    [get_service_status]: an exception of the query gives
    [active = "error"] and the first 20 characters of its text as [sub]; an
    answer without an [Active:] line gives [unknown] twice; the function
    returns in every case, so does the services part of a snapshot, and a
    snapshot built on one host is also built on any host that differs only
    in what the subprocesses answer. *)
Theorem get_service_status_absorbs_failures :
  (forall w name s e,
      subprocess_run w (trace s) ["systemctl"; "status"; name] 2 = Raise e ->
      get_service_status w name s
      = (Ret {[ "name" := name; "active" := "error";
                "sub" := PyStr.take 20 (exn_str e) ]},
         log (systemctl_call name) s))
  /\ (forall w name s output,
         subprocess_run w (trace s) ["systemctl"; "status"; name] 2 = Ret output ->
         Forall (fun l => has_marker l = false) (PyStr.split_char "010" output) ->
         get_service_status w name s
         = (Ret {[ "name" := name; "active" := "unknown"; "sub" := "unknown" ]},
            log (systemctl_call name) s))
  /\ (forall w name s, exists d s', get_service_status w name s = (Ret d, s'))
  /\ (forall w cfg s, exists l s', get_services w cfg s = (Ret l, s'))
  /\ (forall w w' cfg s snap s1,
         same_host_metrics w w' ->
         get_system_data w cfg s = (Ret snap, s1) ->
         exists snap', get_system_data w' cfg s = (Ret snap', s1)).
Proof.
  repeat split.
  - intros w name s e H. rewrite get_service_status_run.
    unfold service_status_of. rewrite H. reflexivity.
  - intros w name s output H Hnone. rewrite get_service_status_run.
    unfold service_status_of.
    rewrite H, (parse_status_no_marker output Hnone). reflexivity.
  - intros w name s. rewrite get_service_status_run. eauto.
  - intros w cfg s. rewrite get_services_run. eauto.
  - intros w w' cfg s snap s1 Hsame. rewrite !get_system_data_run.
    rewrite (sample_metrics_same_host w w' Hsame).
    rewrite (get_top_processes_same_host w w' Hsame).
    destruct (sample_metrics w' s) as [[m|e] s2]; [|discriminate].
    destruct (get_top_processes w' _) as [[top|e] s3]; [|discriminate].
    intros [= _ <-]. eauto.
Qed.

Lemma get_service_status_absorbs_failures_witness :
  get_service_status sample_world "ssh" initial_state
  = (Ret {[ "name" := "ssh"; "active" := "error";
            "sub" := "Command '['systemctl" ]},
     log (systemctl_call "ssh") initial_state)
  /\ get_service_status sample_world "redis" initial_state
     = (Ret {[ "name" := "redis"; "active" := "unknown"; "sub" := "unknown" ]},
        log (systemctl_call "redis") initial_state)
  /\ (exists snap s1,
         get_system_data sample_world DEFAULT_CONFIG initial_state = (Ret snap, s1)
         /\ exists snap',
             get_system_data unresponsive_world DEFAULT_CONFIG initial_state
             = (Ret snap', s1)).
Proof.
  destruct get_service_status_absorbs_failures as (Herr & Hunk & _ & _ & Hsnap).
  split; [|split].
  - apply (Herr sample_world "ssh" initial_state timed_out). reflexivity.
  - apply (Hunk sample_world "redis" initial_state "Unit could not be found.").
    + reflexivity.
    + repeat constructor.
  - destruct (get_system_data sample_world DEFAULT_CONFIG initial_state)
      as [[snap|e] s1] eqn:Hrun.
    + exists snap, s1. split; [reflexivity|].
      apply (Hsnap sample_world unresponsive_world DEFAULT_CONFIG initial_state
                   snap s1); [|exact Hrun].
      repeat split.
    + vm_compute in Hrun. discriminate.
Defined.

(** C2: the [services] field of a snapshot has one dictionary per entry of
    [SERVICES], in the order of [SERVICES], each under the name of its
    entry, whatever the service manager answered. *)
Theorem snapshot_services_follow_allow_list :
  (forall w cfg s, exists l s',
      get_services w cfg s = (Ret l, s')
      /\ length l = length (SERVICES cfg)
      /\ map (fun d : gmap string string => d !! "name") l
         = map Some (SERVICES cfg))
  /\ (forall w cfg s snap s',
         get_system_data w cfg s = (Ret snap, s') ->
         (exists history,
             services snap = service_statuses w history (SERVICES cfg))
         /\ length (services snap) = length (SERVICES cfg)
         /\ map (fun d : gmap string string => d !! "name") (services snap)
            = map Some (SERVICES cfg)).
Proof.
  split.
  - intros w cfg s. rewrite get_services_run. eexists _, _.
    split; [reflexivity|].
    auto using service_statuses_length, service_statuses_names.
  - intros w cfg s snap s'. rewrite get_system_data_run.
    destruct (sample_metrics w s) as [[m|e] s1]; [|discriminate].
    destruct (get_top_processes w _) as [[top|e] s2]; [|discriminate].
    intros [= <- _]. cbn [services].
    eauto using service_statuses_length, service_statuses_names.
Qed.

Lemma snapshot_services_follow_allow_list_witness :
  exists snap s',
    get_system_data sample_world DEFAULT_CONFIG initial_state = (Ret snap, s')
    /\ map (fun d : gmap string string => d !! "name") (services snap)
       = [Some "nginx"; Some "ssh"; Some "docker"; Some "postgresql";
          Some "redis"].
Proof.
  destruct (get_system_data sample_world DEFAULT_CONFIG initial_state)
    as [[snap|e] s'] eqn:Hrun.
  - exists snap, s'. split; [reflexivity|].
    destruct snapshot_services_follow_allow_list as [_ Hsnap].
    apply (Hsnap sample_world DEFAULT_CONFIG initial_state snap s' Hrun).
  - vm_compute in Hrun. discriminate.
Defined.

(** ** The logs endpoint *)

Lemma get_service_logs_run (w : world) (name : string) (lines : Z) (s : state) :
  get_service_logs w name lines s
  = (Ret (logs_of w (trace s) name lines), log (journalctl_call name lines) s).
Proof.
  unfold get_service_logs, try_except, logs_of, journalctl_call.
  rewrite run_external_after. destruct (subprocess_run w _ _ 5); reflexivity.
Qed.

Lemma api_logs_run (w : world) (cfg : config) (name : string) (req : request)
    (s : state) :
  api_logs w cfg name req s
  = (Ret (JsonDict
            (if bool_decide (name ∈ SERVICES cfg)
             then {[ "service" := name;
                     "logs" := logs_of w (trace s) name
                                       (default 100 (args_lines req)) ]}
             else not_allowed)),
     log (journalctl_call name (default 100 (args_lines req))) s).
Proof.
  unfold api_logs. rewrite run_bind, get_service_logs_run.
  destruct (bool_decide (name ∈ SERVICES cfg)); reflexivity.
Qed.

(** C1, at a name outside the allow-list: the view answers with the
    sentinel, but only after it has queried the log subsystem for that
    name. *)
Theorem api_logs_queries_before_check (w : world) :
  api_logs w DEFAULT_CONFIG "cron" operator_request initial_state
  = (Ret (JsonDict not_allowed),
     {| trace := [SubprocessRun ["journalctl"; "-u"; "cron"; "-n"; "100";
                                 "--no-pager"] 5];
        login_attempts := ∅ |})
  /\ "cron" ∉ SERVICES DEFAULT_CONFIG.
Proof.
  split.
  - rewrite api_logs_run. reflexivity.
  - apply (bool_decide_unpack _). vm_compute. exact I.
Qed.

(** C9: for a name outside [SERVICES] the logs endpoint answers with the
    constant pair [service = "not allowed"], [logs = "not allowed"]; two
    hosts that differ in what the log subsystem returns give the same
    response, in the view and behind the authentication gate. *)
Theorem api_logs_hides_disallowed_logs (w1 w2 : world) (cfg : config)
    (name : string) (req : request) (s : state) :
  name ∉ SERVICES cfg ->
  (api_logs w1 cfg name req s).1 = Ret (JsonDict not_allowed)
  /\ api_logs w1 cfg name req s = api_logs w2 cfg name req s
  /\ route_api_logs w1 cfg name req s = route_api_logs w2 cfg name req s.
Proof.
  intros Hname.
  assert (Hview : forall s0,
             api_logs w1 cfg name req s0 = api_logs w2 cfg name req s0).
  { intros s0. rewrite !api_logs_run.
    rewrite (bool_decide_eq_false_2 _ Hname). reflexivity. }
  split; [|split].
  - rewrite api_logs_run, (bool_decide_eq_false_2 _ Hname). reflexivity.
  - apply Hview.
  - unfold route_api_logs, requires_auth.
    destruct (authorization req) as [[username password]|]; [|reflexivity].
    rewrite !run_bind.
    destruct (check_auth cfg req username password s) as [[[|]|e] s0];
      [apply Hview | reflexivity | reflexivity].
Qed.

Lemma api_logs_hides_disallowed_logs_witness :
  (api_logs sample_world DEFAULT_CONFIG "cron" operator_request initial_state).1
  = Ret (JsonDict not_allowed)
  /\ api_logs sample_world DEFAULT_CONFIG "cron" operator_request initial_state
     = api_logs unresponsive_world DEFAULT_CONFIG "cron" operator_request
                initial_state
  /\ route_api_logs sample_world DEFAULT_CONFIG "cron" operator_request
                    initial_state
     = route_api_logs unresponsive_world DEFAULT_CONFIG "cron" operator_request
                      initial_state.
Proof.
  apply (api_logs_hides_disallowed_logs sample_world unresponsive_world
           DEFAULT_CONFIG "cron" operator_request initial_state).
  apply (bool_decide_unpack _). vm_compute. exact I.
Defined.

(** ** Floats *)

Section FloatFacts.

Local Open Scope Q_scope.

Lemma Qfloor_unique (x : Q) (z : Z) :
  inject_Z z <= x -> x < inject_Z z + 1 -> Qfloor x = z.
Proof.
  intros Hle Hlt.
  pose proof (Qfloor_le x) as Hfl. pose proof (Qlt_floor x) as Hfu.
  rewrite inject_Z_plus in Hfu. change (inject_Z 1) with 1 in Hfu.
  assert (inject_Z z < inject_Z (Qfloor x) + 1) as H1 by lra.
  assert (inject_Z (Qfloor x) < inject_Z z + 1) as H2 by lra.
  change 1 with (inject_Z 1) in H1, H2.
  rewrite <- inject_Z_plus in H1, H2.
  rewrite <- Zlt_Qlt in H1, H2. lia.
Qed.

Lemma to_int_inject_Z (z : Z) : PyFloat.to_int (inject_Z z) = z.
Proof.
  unfold PyFloat.to_int.
  destruct (Qlt_le_dec (inject_Z z) 0); [apply Qceiling_Z | apply Qfloor_Z].
Qed.

(** [x // y] and [x % y] for a positive integer constant [y]. *)
Lemma floordiv_bounds (x : Q) (y : Z) :
  (0 < y)%Z ->
  inject_Z (Qfloor (x / inject_Z y)) * inject_Z y <= x
  /\ x < inject_Z (Qfloor (x / inject_Z y)) * inject_Z y + inject_Z y.
Proof.
  intros Hy. rewrite Zlt_Qlt in Hy. change (inject_Z 0) with 0 in Hy.
  pose proof (Qfloor_le (x / inject_Z y)) as Hfl.
  pose proof (Qlt_floor (x / inject_Z y)) as Hfu.
  rewrite inject_Z_plus in Hfu. change (inject_Z 1) with 1 in Hfu.
  assert (Hx : x == x / inject_Z y * inject_Z y) by (field; lra).
  split.
  - rewrite Hx at 2. apply Qmult_le_compat_r; lra.
  - rewrite Hx at 1.
    assert (E : inject_Z (Qfloor (x / inject_Z y)) * inject_Z y + inject_Z y
                == (inject_Z (Qfloor (x / inject_Z y)) + 1) * inject_Z y) by ring.
    rewrite E. apply Qmult_lt_compat_r; assumption.
Qed.

Lemma round_half_even_comp (x y : Q) :
  x == y -> PyFloat.round_half_even x = PyFloat.round_half_even y.
Proof.
  intros E. unfold PyFloat.round_half_even.
  rewrite (Qfloor_comp x y E).
  assert (E' : x - inject_Z (Qfloor y) == y - inject_Z (Qfloor y))
    by (rewrite E; reflexivity).
  rewrite (Qcompare_comp _ _ E' (1 # 2) (1 # 2) (Qeq_refl _)). reflexivity.
Qed.

Lemma round_half_even_Z (z : Z) : PyFloat.round_half_even (inject_Z z) = z.
Proof.
  unfold PyFloat.round_half_even. rewrite Qfloor_Z.
  destruct (Qcompare (inject_Z z - inject_Z z) (1 # 2)) eqn:Hc;
    try reflexivity; exfalso.
  - apply Qeq_alt in Hc. lra.
  - apply Qgt_alt in Hc. lra.
Qed.

(** *** The rounding of float operations *)

Lemma round_float_comp (x y : Q) :
  x == y -> PyFloat.round_float x = PyFloat.round_float y.
Proof.
  intros E. unfold PyFloat.round_float. rewrite (Qred_complete x y E).
  reflexivity.
Qed.

Lemma pow2_nonpos (e : Z) :
  (e <= 0)%Z -> PyFloat.pow2 e == / inject_Z (2 ^ (- e)).
Proof.
  intros He. unfold PyFloat.pow2. destruct (Z.leb_spec 0 e); [|reflexivity].
  replace e with 0%Z by lia. reflexivity.
Qed.

(** Whole numbers of at most 53 bits are floats. *)
Lemma round_float_Z (z : Z) :
  (Z.abs z < 2 ^ 53)%Z -> PyFloat.round_float (inject_Z z) == inject_Z z.
Proof.
  intros Hz. unfold PyFloat.round_float.
  assert (Hred : Qred (inject_Z z) = inject_Z z).
  { apply Qcanon.Qred_identity. cbn. apply Z.gcd_1_r. }
  rewrite Hred.
  destruct (Qeq_bool (inject_Z z) 0) eqn:Hz0.
  { apply Qeq_bool_eq in Hz0. symmetry. exact Hz0. }
  assert (Hne : z <> 0%Z) by (intros ->; discriminate).
  rewrite Qred_correct.
  set (e0 := Z.log2 (Z.abs z)).
  assert (He0 : (0 <= e0 < 53)%Z).
  { split; [apply Z.log2_nonneg|]. apply Z.log2_lt_pow2; lia. }
  assert (Hlog : PyFloat.ilog2 (inject_Z z) = e0).
  { unfold PyFloat.ilog2. cbn [Qnum Qden inject_Z].
    change (Z.log2 1) with 0%Z. rewrite Z.sub_0_r. fold e0.
    replace (Qle_bool (PyFloat.pow2 e0) (Qabs (inject_Z z))) with true;
      [reflexivity|].
    symmetry. apply Qle_bool_iff. unfold PyFloat.pow2.
    destruct (Z.leb_spec 0 e0); [|lia].
    change (Qabs (inject_Z z)) with (inject_Z (Z.abs z)).
    rewrite <- Zle_Qle. apply Z.log2_spec. lia. }
  rewrite Hlog, Z.max_l by lia.
  pose proof (pow2_nonpos (e0 - 52) ltac:(lia)) as Ep.
  set (k := (2 ^ (- (e0 - 52)))%Z) in Ep.
  assert (Hk : (0 < k)%Z) by (apply Z.pow_pos_nonneg; lia).
  assert (Hkq : 0 < inject_Z k)
    by (change 0 with (inject_Z 0); rewrite <- Zlt_Qlt; exact Hk).
  assert (E : inject_Z z / PyFloat.pow2 (e0 - 52) == inject_Z (z * k)).
  { rewrite Ep, inject_Z_mult. field. lra. }
  rewrite (round_half_even_comp _ _ E), round_half_even_Z, Ep, inject_Z_mult.
  field. lra.
Qed.

Lemma to_int_Qeq (x : Q) (z : Z) : x == inject_Z z -> PyFloat.to_int x = z.
Proof.
  intros E. rewrite <- (to_int_inject_Z z). unfold PyFloat.to_int.
  destruct (Qlt_le_dec x 0) as [Hx|Hx], (Qlt_le_dec (inject_Z z) 0) as [Hz|Hz];
    try (exfalso; lra).
  - unfold Qceiling. rewrite (Qfloor_comp (- x) (- inject_Z z)); [reflexivity|].
    rewrite E. reflexivity.
  - apply Qfloor_comp, E.
Qed.

(** On a non-negative dividend below 2^53 and a positive whole divisor,
    [%] is the exact remainder and [//] the exact floor of the quotient: no
    operation rounds. *)
Lemma pymod_exact (x : Q) (y : Z) :
  (0 < y)%Z -> 0 <= x ->
  PyFloat.pymod x (inject_Z y)
  = x - inject_Z y * inject_Z (Qfloor (x / inject_Z y))
  /\ PyFloat.fmod x (inject_Z y)
     = x - inject_Z y * inject_Z (Qfloor (x / inject_Z y))
  /\ PyFloat.wrong_sign (PyFloat.fmod x (inject_Z y)) (inject_Z y) = false.
Proof.
  intros Hy Hx. destruct (floordiv_bounds x y Hy) as [B1 B2].
  assert (Hyq : 0 < inject_Z y)
    by (change 0 with (inject_Z 0); rewrite <- Zlt_Qlt; exact Hy).
  assert (Hfmod : PyFloat.fmod x (inject_Z y)
                  = x - inject_Z y * inject_Z (Qfloor (x / inject_Z y))).
  { unfold PyFloat.fmod, PyFloat.to_int.
    destruct (Qlt_le_dec (x / inject_Z y) 0) as [Hneg|]; [|reflexivity].
    exfalso. apply (Qlt_not_le _ _ Hneg). apply Qle_shift_div_l; lra. }
  assert (Hsign : PyFloat.wrong_sign (PyFloat.fmod x (inject_Z y)) (inject_Z y)
                  = false).
  { rewrite Hfmod. unfold PyFloat.wrong_sign, PyFloat.ltb.
    replace (Qle_bool 0 (inject_Z y)) with true
      by (symmetry; apply Qle_bool_iff; lra).
    replace (Qle_bool 0 (x - inject_Z y * inject_Z (Qfloor (x / inject_Z y))))
      with true by (symmetry; apply Qle_bool_iff; lra).
    apply andb_false_r. }
  unfold PyFloat.pymod. rewrite Hsign. auto.
Qed.

Lemma floordiv_exact (x : Q) (y : Z) :
  (0 < y)%Z -> 0 <= x -> x < inject_Z (2 ^ 53) ->
  PyFloat.floordiv x (inject_Z y) == inject_Z (Qfloor (x / inject_Z y)).
Proof.
  intros Hy Hx Hlt. destruct (floordiv_bounds x y Hy) as [B1 B2].
  destruct (pymod_exact x y Hy Hx) as (_ & Hfmod & Hsign).
  assert (Hyq : 0 < inject_Z y)
    by (change 0 with (inject_Z 0); rewrite <- Zlt_Qlt; exact Hy).
  set (k := Qfloor (x / inject_Z y)) in *.
  assert (Hk0 : (0 <= k)%Z).
  { change 0%Z with (Qfloor 0). apply Qfloor_resp_le.
    apply Qle_shift_div_l; lra. }
  assert (Hky : (Z.abs (y * k) < 2 ^ 53)%Z).
  { rewrite Z.abs_eq by nia. rewrite Zlt_Qlt, inject_Z_mult. lra. }
  assert (Hkk : (Z.abs k < 2 ^ 53)%Z) by nia.
  unfold PyFloat.floordiv. rewrite Hsign, Hfmod.
  unfold PyFloat.div, PyFloat.sub.
  assert (E1 : x - (x - inject_Z y * inject_Z k) == inject_Z (y * k))
    by (rewrite inject_Z_mult; ring).
  rewrite (round_float_comp _ _ E1).
  assert (E2 : PyFloat.round_float (inject_Z (y * k)) / inject_Z y == inject_Z k).
  { rewrite (round_float_Z _ Hky), inject_Z_mult. field. lra. }
  rewrite (round_float_comp _ _ E2).
  pose proof (round_float_Z k Hkk) as E3.
  destruct (Qeq_bool (PyFloat.round_float (inject_Z k)) 0) eqn:Hzero.
  { apply Qeq_bool_eq in Hzero. rewrite <- E3, Hzero. reflexivity. }
  rewrite (Qfloor_comp _ _ E3), Qfloor_Z.
  assert (E4 : PyFloat.round_float (inject_Z k) - inject_Z k == 0)
    by (rewrite E3; ring).
  rewrite (round_float_comp _ _ E4).
  reflexivity.
Qed.

End FloatFacts.

(** ** [format_uptime] *)

Section Uptime.

Local Open Scope Q_scope.

(** Pushes [inject_Z] to the leaves and evaluates it on constants. *)
Ltac push_inject_Z :=
  repeat first [ rewrite inject_Z_plus | rewrite inject_Z_mult ];
  repeat match goal with
         | |- context [inject_Z (Zpos ?p)] =>
             change (inject_Z (Zpos p)) with (Zpos p # 1)
         end.

(** Up to 2^53 seconds no float operation of [format_uptime] rounds: the
    numbers printed are the floors of the exact quotients. *)
Lemma format_uptime_exact (s : Q) :
  0 <= s -> s < inject_Z (2 ^ 53) ->
  format_uptime s
  = PyStr.of_int (Qfloor (s / 86400)) +:+ "d "
    +:+ PyStr.of_int
          (Qfloor ((s - 86400 * inject_Z (Qfloor (s / 86400))) / 3600))
    +:+ "h "
    +:+ PyStr.of_int
          (Qfloor ((s - 3600 * inject_Z (Qfloor (s / 3600))) / 60))
    +:+ "m".
Proof.
  intros Hs0 Hs1.
  assert (Hbig : inject_Z 86400 < inject_Z (2 ^ 53))
    by (rewrite <- Zlt_Qlt; reflexivity).
  change (inject_Z 86400) with 86400 in Hbig.
  destruct (floordiv_bounds s 86400 eq_refl) as [D1 D2].
  destruct (floordiv_bounds s 3600 eq_refl) as [K1 K2].
  change (inject_Z 86400) with 86400 in D1, D2.
  change (inject_Z 3600) with 3600 in K1, K2.
  assert (Ed : PyFloat.to_int (PyFloat.floordiv s 86400) = Qfloor (s / 86400))
    by (apply to_int_Qeq, (floordiv_exact s 86400); [reflexivity | lra | lra]).
  assert (Er1 : PyFloat.pymod s 86400
                = s - 86400 * inject_Z (Qfloor (s / 86400)))
    by exact (proj1 (pymod_exact s 86400 eq_refl Hs0)).
  assert (Er2 : PyFloat.pymod s 3600
                = s - 3600 * inject_Z (Qfloor (s / 3600)))
    by exact (proj1 (pymod_exact s 3600 eq_refl Hs0)).
  unfold format_uptime. rewrite Ed, Er1, Er2.
  set (r1 := s - 86400 * inject_Z (Qfloor (s / 86400))) in *.
  set (r2 := s - 3600 * inject_Z (Qfloor (s / 3600))) in *.
  assert (Eh : PyFloat.to_int (PyFloat.floordiv r1 3600) = Qfloor (r1 / 3600))
    by (apply to_int_Qeq, (floordiv_exact r1 3600);
        [reflexivity | unfold r1; lra | unfold r1; lra]).
  assert (Em : PyFloat.to_int (PyFloat.floordiv r2 60) = Qfloor (r2 / 60))
    by (apply to_int_Qeq, (floordiv_exact r2 60);
        [reflexivity | unfold r2; lra | unfold r2; lra]).
  rewrite Eh, Em. reflexivity.
Qed.

(** C8, within the range where the float operations are exact:
    for [0 <= seconds < 2^53], [format_uptime] prints the whole days,
    hours and minutes of its argument and drops the seconds: the three
    numbers [d], [h], [m] it prints satisfy [0 <= d], [0 <= h < 24],
    [0 <= m < 60] and
    [86400 d + 3600 h + 60 m <= seconds < 86400 d + 3600 h + 60 m + 60];
    90061 seconds print as [1d 1h 1m]. *)
Theorem format_uptime_decomposes :
  (forall seconds : Q,
      0 <= seconds -> seconds < inject_Z (2 ^ 53) ->
      exists d h m : Z,
        format_uptime seconds
        = PyStr.of_int d +:+ "d " +:+ PyStr.of_int h +:+ "h "
          +:+ PyStr.of_int m +:+ "m"
        /\ (0 <= d)%Z /\ (0 <= h < 24)%Z /\ (0 <= m < 60)%Z
        /\ inject_Z (86400 * d + 3600 * h + 60 * m) <= seconds
        /\ seconds < inject_Z (86400 * d + 3600 * h + 60 * m + 60))
  /\ format_uptime 90061 = "1d 1h 1m".
Proof.
  split; [|reflexivity].
  intros s Hs0 Hs1.
  pose (D := Qfloor (s / 86400)).
  pose (r1 := s - 86400 * inject_Z D).
  pose (H := Qfloor (r1 / 3600)).
  pose (K := Qfloor (s / 3600)).
  pose (r2 := s - 3600 * inject_Z K).
  pose (M := Qfloor (r2 / 60)).
  exists D, H, M. split; [exact (format_uptime_exact s Hs0 Hs1)|].
  destruct (floordiv_bounds s 86400 eq_refl) as [D1 D2].
  destruct (floordiv_bounds r1 3600 eq_refl) as [H1 H2].
  destruct (floordiv_bounds s 3600 eq_refl) as [K1 K2].
  destruct (floordiv_bounds r2 60 eq_refl) as [M1 M2].
  change (inject_Z 86400) with 86400 in D1, D2.
  change (inject_Z 3600) with 3600 in H1, H2, K1, K2.
  change (inject_Z 60) with 60 in M1, M2.
  fold D in D1, D2. fold H in H1, H2. fold K in K1, K2. fold M in M1, M2.
  assert (HK : K = (24 * D + H)%Z).
  { assert (inject_Z K < inject_Z (24 * D + H + 1)) as L1
        by (push_inject_Z; unfold r1 in *; lra).
    assert (inject_Z (24 * D + H) < inject_Z (K + 1)) as L2
        by (push_inject_Z; unfold r1 in *; lra).
    rewrite <- Zlt_Qlt in L1, L2. lia. }
  assert (HKq : inject_Z K == 24 * inject_Z D + inject_Z H)
    by (rewrite HK; push_inject_Z; reflexivity).
  assert (Hd : (0 <= D)%Z).
  { assert (inject_Z (-1) < inject_Z D) as L1
        by (change (inject_Z (-1)) with (-1 # 1); lra).
    rewrite <- Zlt_Qlt in L1. lia. }
  assert (Hh : (0 <= H < 24)%Z).
  { assert (inject_Z (-1) < inject_Z H) as L1
        by (change (inject_Z (-1)) with (-1 # 1); unfold r1 in *; lra).
    assert (inject_Z H < inject_Z 24) as L2
        by (change (inject_Z 24) with 24; unfold r1 in *; lra).
    rewrite <- Zlt_Qlt in L1, L2. lia. }
  assert (Hm : (0 <= M < 60)%Z).
  { assert (inject_Z (-1) < inject_Z M) as L1
        by (change (inject_Z (-1)) with (-1 # 1); unfold r2 in *; lra).
    assert (inject_Z M < inject_Z 60) as L2
        by (change (inject_Z 60) with 60; unfold r2 in *; lra).
    rewrite <- Zlt_Qlt in L1, L2. lia. }
  repeat split; try lia; push_inject_Z; unfold r2 in *; lra.
Qed.

Lemma format_uptime_decomposes_witness :
  exists d h m : Z,
    format_uptime (345599 # 2)
    = PyStr.of_int d +:+ "d " +:+ PyStr.of_int h +:+ "h "
      +:+ PyStr.of_int m +:+ "m"
    /\ (0 <= d)%Z /\ (0 <= h < 24)%Z /\ (0 <= m < 60)%Z
    /\ inject_Z (86400 * d + 3600 * h + 60 * m) <= 345599 # 2
    /\ 345599 # 2 < inject_Z (86400 * d + 3600 * h + 60 * m + 60).
Proof.
  apply (proj1 format_uptime_decomposes (345599 # 2));
    [vm_compute; discriminate | vm_compute; reflexivity].
Defined.

(** Outside that range the float operations round, and what is printed is
    no longer the decomposition of the argument.  Just below zero the
    remainder [seconds % 86400] rounds up to 86400.0: [-2^-40] prints 24
    hours, and the parts printed add up to 3540 seconds.  At
    [2^70 + 2^18] the quotient rounds up: the day count printed is one too
    large, its days alone exceed the argument. *)
Lemma format_uptime_rounds_outside_range :
  (format_uptime (- (1 # 1099511627776)) = "-1d 24h 59m"
   /\ ~ inject_Z (86400 * -1 + 3600 * 24 + 60 * 59) <= - (1 # 1099511627776))
  /\ (format_uptime (inject_Z (2 ^ 70 + 2 ^ 18))
      = "13664254869414486d 17h 6m"
      /\ ~ inject_Z (86400 * 13664254869414486 + 3600 * 17 + 60 * 6)
          <= inject_Z (2 ^ 70 + 2 ^ 18)).
Proof.
  split; (split; [vm_compute; reflexivity | vm_compute; intros H; apply H; reflexivity]).
Qed.

End Uptime.

(** ** [format_bytes] *)

Section Bytes.

Local Open Scope Q_scope.

(** Equal numbers print alike. *)
Lemma format_f_comp (prec : nat) (x y : Q) :
  x == y -> PyFloat.format_f prec x = PyFloat.format_f prec y.
Proof.
  intros E. unfold PyFloat.format_f, PyFloat.scaled.
  rewrite (round_half_even_comp (x * _) (y * _)) by (rewrite E; reflexivity).
  destruct (Qlt_le_dec x 0), (Qlt_le_dec y 0); try reflexivity;
    rewrite E in *; exfalso; lra.
Qed.

(** The conversion of an [int] to a float is exact below 2^53 and never
    takes a larger number below 2^53. *)
Lemma round_to_binary64_exact (n : Z) :
  (Z.abs n < 2 ^ 53)%Z -> PyFloat.round_to_binary64 n = n.
Proof.
  intros Hn. unfold PyFloat.round_to_binary64.
  destruct (Z.eq_dec n 0%Z) as [->|Hne]; [reflexivity|].
  assert (Z.log2 (Z.abs n) < 53)%Z by (apply Z.log2_lt_pow2; lia).
  destruct (Z.leb_spec (Z.log2 (Z.abs n) + 1 - 53) 0); [reflexivity | lia].
Qed.

Lemma round_to_binary64_large (n : Z) :
  (2 ^ 53 <= n)%Z -> (2 ^ 53 <= PyFloat.round_to_binary64 n)%Z.
Proof.
  intros Hn. unfold PyFloat.round_to_binary64.
  rewrite (Z.abs_eq n) by lia.
  assert (Hlog : (53 <= Z.log2 n)%Z) by (apply Z.log2_le_pow2; lia).
  destruct (Z.leb_spec (Z.log2 n + 1 - 53) 0) as [|Hsh]; [lia|].
  set (sh := (Z.log2 n + 1 - 53)%Z) in *.
  rewrite Z.sgn_pos by lia.
  rewrite Z.shiftr_div_pow2, Z.shiftl_mul_pow2 by lia.
  assert (Hq : (2 ^ 52 <= n / 2 ^ sh)%Z).
  { apply Z.div_le_lower_bound; [lia|].
    rewrite Z.mul_comm, <- Z.pow_add_r by lia.
    replace (52 + sh)%Z with (Z.log2 n) by lia.
    apply Z.log2_spec. lia. }
  assert (Hq' : (2 ^ 52 <= (if (Z.shiftl 1 (sh - 1) <? Z.land n (Z.ones sh))%Z
                              || (Z.land n (Z.ones sh) =? Z.shiftl 1 (sh - 1))%Z
                                 && Z.odd (n / 2 ^ sh)
                            then n / 2 ^ sh + 1 else n / 2 ^ sh))%Z)
    by (destruct (_ || _); lia).
  assert (2 ^ 1 <= 2 ^ sh)%Z by (apply Z.pow_le_mono_r; lia).
  change (2 ^ 53)%Z with (2 ^ 52 * 2 ^ 1)%Z.
  rewrite Z.mul_1_l. apply Z.mul_le_mono_nonneg; lia.
Qed.

Lemma float_of_int_exact (n : Z) :
  (Z.abs n < 2 ^ 53)%Z -> float_of_int n = Ret (inject_Z n).
Proof.
  intros Hn. unfold float_of_int. rewrite round_to_binary64_exact by exact Hn.
  destruct (Z.ltb_spec (Z.abs n) (2 ^ 1024)); [reflexivity|].
  assert (2 ^ 53 < 2 ^ 1024)%Z by (apply Z.pow_lt_mono_r; lia). lia.
Qed.

Lemma float_of_int_large (n : Z) (x : Q) :
  (1024 <= n)%Z -> float_of_int n = Ret x -> 1024 <= x.
Proof.
  intros Hn. destruct (Z.lt_ge_cases n (2 ^ 53)) as [Hlt|Hge].
  - rewrite float_of_int_exact by lia. intros [= <-].
    change 1024 with (inject_Z 1024). rewrite <- Zle_Qle. exact Hn.
  - unfold float_of_int. destruct (_ <? _)%Z; [|discriminate]. intros [= <-].
    change 1024 with (inject_Z 1024). rewrite <- Zle_Qle.
    pose proof (round_to_binary64_large n Hge). lia.
Qed.

Lemma magnitude_0 (b : Q) : magnitude b 0 == b.
Proof. unfold magnitude. change (inject_Z (1024 ^ Z.of_nat 0)) with 1. field. Qed.

Lemma magnitude_S (b : Q) (k : nat) :
  magnitude b (S k) == magnitude (b / 1024) k.
Proof.
  unfold magnitude.
  rewrite Nat2Z.inj_succ, Z.pow_succ_r, inject_Z_mult by lia.
  assert (0 < 1024 ^ Z.of_nat k)%Z as Hpos by (apply Z.pow_pos_nonneg; lia).
  rewrite Zlt_Qlt in Hpos. change (inject_Z 0) with 0 in Hpos.
  change (inject_Z 1024) with 1024. field. lra.
Qed.

(** The float iterations of the loop: the unit printed is the first whose
    magnitude is below 1024, and [PB] when there is none. *)
Lemma format_bytes_loop_spec (units : list string) (b : Q) :
  exists k : nat,
    (k <= length units)%nat
    /\ format_bytes_loop units b
       = PyFloat.format_f 1 (magnitude b k) +:+ nth k (units ++ ["PB"])%list ""
    /\ (forall j, (j < k)%nat -> 1024 <= magnitude b j)
    /\ ((k < length units)%nat -> magnitude b k < 1024).
Proof.
  revert b. induction units as [|unit units IH]; intros b.
  - exists 0%nat. cbn [format_bytes_loop length app nth].
    rewrite (format_f_comp 1 _ _ (magnitude_0 b)).
    repeat split; [lia .. ].
  - cbn [format_bytes_loop]. destruct (Qlt_le_dec b 1024) as [Hlt|Hge].
    + exists 0%nat. cbn [length app nth].
      rewrite (format_f_comp 1 _ _ (magnitude_0 b)).
      repeat split; [lia | lia | rewrite magnitude_0; auto].
    + destruct (IH (b / 1024)) as (k & Hk & Hfmt & Hbefore & Hat).
      exists (S k). cbn [length app nth].
      rewrite (format_f_comp 1 _ _ (magnitude_S b k)).
      repeat split; [lia | exact Hfmt | | ].
      * intros [|j] Hj; [rewrite magnitude_0; exact Hge|].
        rewrite magnitude_S. apply Hbefore. lia.
      * intros Hlt. rewrite magnitude_S. apply Hat. lia.
Qed.

(** C5: [format_bytes] divides by 1024 until the magnitude is below 1024
    and prints it with one decimal and the unit reached, among B, KB, MB,
    GB, TB, PB; from 1024 PB on the unit stays PB.  In particular 0 gives
    [0.0B], 1023 gives [1023.0B], 1024 gives [1.0KB], 1536 gives [1.5KB]
    and 1024^4 gives [1.0TB]. *)
Theorem format_bytes_selects_unit :
  (forall (n : Z) (x : Q),
      (0 <= n)%Z -> float_of_int n = Ret x ->
      ((n < 2 ^ 53)%Z -> x = inject_Z n)
      /\ exists k : nat,
          (k <= 5)%nat
          /\ format_bytes n
             = Ret (PyFloat.format_f 1 (magnitude x k) +:+ nth k byte_units "")
          /\ (forall j, (j < k)%nat -> 1024 <= magnitude x j)
          /\ ((k < 5)%nat -> magnitude x k < 1024))
  /\ format_bytes 0 = Ret "0.0B"
  /\ format_bytes 1023 = Ret "1023.0B"
  /\ format_bytes 1024 = Ret "1.0KB"
  /\ format_bytes 1536 = Ret "1.5KB"
  /\ format_bytes (1024 ^ 4) = Ret "1.0TB".
Proof.
  split; [|repeat split; reflexivity].
  intros n x Hn Hx. split.
  { intros Hsmall. rewrite float_of_int_exact in Hx by lia. congruence. }
  unfold format_bytes. rewrite Hx.
  destruct (Z.ltb_spec n 1024) as [Hlt|Hge].
  - exists 0%nat. cbn [nth byte_units].
    rewrite (format_f_comp 1 _ _ (magnitude_0 x)).
    repeat split; [lia | lia | intros _].
    rewrite magnitude_0. rewrite float_of_int_exact in Hx by lia.
    injection Hx as <-. change 1024 with (inject_Z 1024).
    rewrite <- Zlt_Qlt. exact Hlt.
  - destruct (format_bytes_loop_spec ["KB"; "MB"; "GB"; "TB"] (x / 1024))
      as (k & Hk & Hfmt & Hbefore & Hat).
    exists (S k). cbn [length] in Hk, Hat.
    rewrite (format_f_comp 1 _ _ (magnitude_S x k)).
    repeat split; [lia | f_equal; exact Hfmt | | ].
    + intros [|j] Hj.
      * rewrite magnitude_0. exact (float_of_int_large n x Hge Hx).
      * rewrite magnitude_S. apply Hbefore. lia.
    + intros Hlt. rewrite magnitude_S. apply Hat. lia.
Qed.

Lemma format_bytes_selects_unit_witness :
  exists k : nat,
    (k <= 5)%nat
    /\ format_bytes (3 * 1024 ^ 6)
       = Ret (PyFloat.format_f 1 (magnitude (inject_Z (3 * 1024 ^ 6)) k)
              +:+ nth k byte_units "")
    /\ (forall j, (j < k)%nat -> 1024 <= magnitude (inject_Z (3 * 1024 ^ 6)) j)
    /\ ((k < 5)%nat -> magnitude (inject_Z (3 * 1024 ^ 6)) k < 1024).
Proof.
  destruct format_bytes_selects_unit as [Hgen _].
  apply (Hgen (3 * 1024 ^ 6)%Z (inject_Z (3 * 1024 ^ 6))).
  - vm_compute. discriminate.
  - vm_compute. reflexivity.
Defined.

End Bytes.

(** ** Printing a float and reading it back *)

Section Decimal.

Lemma append_cons (c : ascii) (s t : string) :
  String c s +:+ t = String c (s +:+ t).
Proof. reflexivity. Qed.

Lemma append_empty_l (t : string) : "" +:+ t = t.
Proof. reflexivity. Qed.

Lemma is_digit_not_special (c : ascii) :
  is_digit c = true -> c <> "%"%char /\ c <> "."%char /\ c <> "-"%char.
Proof.
  destruct c as [[|] [|] [|] [|] [|] [|] [|] [|]]; cbv; intros H;
    try discriminate H; repeat split; discriminate.
Qed.

Lemma string_of_uint_digits (d : Decimal.uint) :
  all_chars is_digit (NilEmpty.string_of_uint d) = true.
Proof. induction d; simpl; auto. Qed.

Lemma of_N_digits (n : N) : all_chars is_digit (PyStr.of_N n) = true.
Proof.
  unfold PyStr.of_N, NilZero.string_of_uint.
  destruct (N.to_uint n) eqn:E; try reflexivity;
    rewrite <- E; apply string_of_uint_digits.
Qed.

Lemma of_N_nonempty (n : N) :
  exists c s, PyStr.of_N n = String c s /\ is_digit c = true.
Proof.
  pose proof (of_N_digits n) as H.
  unfold PyStr.of_N, NilZero.string_of_uint in *.
  destruct (N.to_uint n); simpl in *; eauto.
Qed.

Lemma to_uint_nonnil (n : N) : N.to_uint n <> Decimal.Nil.
Proof.
  destruct n as [|p]; [discriminate|]. apply DecimalPos.Unsigned.to_uint_nonnil.
Qed.

(** The digits of a number read back as that number. *)
Lemma uint_of_string_of_N (n : N) :
  exists u, NilZero.uint_of_string (PyStr.of_N n) = Some u /\ N.of_uint u = n.
Proof.
  exists (N.to_uint n). split.
  - apply NilZero.usu, to_uint_nonnil.
  - apply DecimalN.Unsigned.of_to.
Qed.

(** A number below ten prints as one digit. *)
Lemma of_N_one_digit (r : N) :
  (r < 10)%N ->
  exists c u,
    PyStr.of_N r = String c "" /\ is_digit c = true
    /\ NilEmpty.uint_of_string (String c "") = Some u /\ N.of_uint u = r.
Proof.
  intros Hr.
  assert (r = 0 \/ r = 1 \/ r = 2 \/ r = 3 \/ r = 4 \/ r = 5 \/ r = 6 \/ r = 7
          \/ r = 8 \/ r = 9)%N as Hcases by lia.
  repeat destruct Hcases as [->|Hcases]; try subst r;
    eexists _, _; repeat split; reflexivity.
Qed.

Lemma split_dot_digits (ip fp : string) :
  all_chars is_digit ip = true ->
  PyFloat.split_dot (ip +:+ String "." fp) = (ip, Some fp).
Proof.
  induction ip as [|c ip IH]; intros H; [reflexivity|].
  simpl in H. apply andb_prop in H as [Hc Hip].
  rewrite append_cons. cbn [PyFloat.split_dot].
  destruct (is_digit_not_special c Hc) as (_ & Hdot & _).
  rewrite (proj2 (Ascii.eqb_neq c ".") Hdot), (IH Hip). reflexivity.
Qed.

Lemma append_assoc (a b c : string) : (a +:+ b) +:+ c = a +:+ b +:+ c.
Proof. induction a as [|x a IH]; [reflexivity|]. rewrite !append_cons, IH. reflexivity. Qed.

(** Stripping at the right end stops at a character that is kept. *)
Lemma rstrip_by_kept_nonempty (p : ascii -> bool) (d : ascii) (tail : string) :
  p d = false -> exists c r, PyStr.rstrip_by p (String d tail) = String c r.
Proof.
  intros Hd. cbn [PyStr.rstrip_by]. rewrite Hd.
  destruct (PyStr.rstrip_by p tail); eauto.
Qed.

Lemma rstrip_by_cons_nonempty (p : ascii -> bool) (c c' : ascii) (s r : string) :
  PyStr.rstrip_by p s = String c' r ->
  PyStr.rstrip_by p (String c s) = String c (String c' r).
Proof. intros H. cbn [PyStr.rstrip_by]. rewrite H. reflexivity. Qed.

Lemma rstrip_by_keep (p : ascii -> bool) (body : string) (d : ascii)
    (tail : string) :
  p d = false ->
  PyStr.rstrip_by p (body +:+ String d tail)
  = body +:+ PyStr.rstrip_by p (String d tail).
Proof.
  intros Hd. destruct (rstrip_by_kept_nonempty p d tail Hd) as (c' & r & E).
  rewrite E. induction body as [|c body IH]; [exact E|].
  rewrite !append_cons.
  destruct body as [|b body].
  - rewrite append_empty_l in *. apply rstrip_by_cons_nonempty, IH.
  - rewrite append_cons in *. apply rstrip_by_cons_nonempty, IH.
Qed.

(** The sign of a float survives the rounding. *)
Lemma scaled_sign (prec : nat) (x : Q) :
  ((x < 0)%Q -> (PyFloat.scaled prec x <= 0)%Z)
  /\ ((0 <= x)%Q -> (0 <= PyFloat.scaled prec x)%Z).
Proof.
  unfold PyFloat.scaled, PyFloat.round_half_even.
  set (y := (x * inject_Z (10 ^ Z.of_nat prec))%Q).
  assert (Hp : (0 < inject_Z (10 ^ Z.of_nat prec))%Q).
  { change 0%Q with (inject_Z 0). rewrite <- Zlt_Qlt.
    apply Z.pow_pos_nonneg; lia. }
  pose proof (Qfloor_le y) as Hfl.
  split; intros Hx.
  - assert (Hy : (y < 0)%Q).
    { unfold y.
      apply Qlt_le_trans with (0 * inject_Z (10 ^ Z.of_nat prec))%Q;
        [apply Qmult_lt_compat_r; assumption | rewrite Qmult_0_l; apply Qle_refl]. }
    assert (inject_Z (Qfloor y) < inject_Z 0)%Q as Hneg
        by (change (inject_Z 0) with 0%Q; lra).
    rewrite <- Zlt_Qlt in Hneg.
    destruct (Qcompare _ _); [destruct (Z.even _) | | ]; lia.
  - assert (Hy : (0 <= y)%Q) by (unfold y; apply Qmult_le_0_compat; lra).
    pose proof (Qfloor_resp_le 0 y Hy) as Hpos. change (Qfloor 0) with 0%Z in Hpos.
    destruct (Qcompare _ _); [destruct (Z.even _) | | ]; lia.
Qed.

(** The text of [f"{x:.1f}"]: a sign, the digits of the whole part, a dot
    and one digit. *)
Lemma format_f_1_shape (x : Q) :
  exists d u,
    PyFloat.format_f 1 x
    = (if Qlt_le_dec x 0 then "-" else "")
      +:+ PyStr.of_N (Z.to_N (Z.abs (PyFloat.scaled 1 x) / 10))
      +:+ String "." (String d "")
    /\ is_digit d = true
    /\ NilEmpty.uint_of_string (String d "") = Some u
    /\ N.of_uint u = Z.to_N (Z.abs (PyFloat.scaled 1 x) mod 10).
Proof.
  set (t := Z.abs (PyFloat.scaled 1 x)).
  assert (Hr : (Z.to_N (t mod 10) < 10)%N).
  { pose proof (Z.mod_pos_bound t 10 eq_refl). lia. }
  destruct (of_N_one_digit _ Hr) as (d & u & Hd & Hdig & Hu & Hval).
  exists d, u. repeat split; try assumption.
  unfold PyFloat.format_f. fold t.
  change (10 ^ Z.of_nat 1)%Z with 10%Z. rewrite Hd. reflexivity.
Qed.

Lemma unsigned_literal_one_decimal (a : N) (d : ascii) (u : Decimal.uint) :
  NilEmpty.uint_of_string (String d "") = Some u ->
  PyFloat.unsigned_literal (PyStr.of_N a +:+ String "." (String d ""))
  = Some ((Z.of_N a * 10 + Z.of_N (N.of_uint u))%Z # 10).
Proof.
  intros Hu. unfold PyFloat.unsigned_literal.
  rewrite (split_dot_digits _ _ (of_N_digits a)).
  destruct (uint_of_string_of_N a) as (ua & -> & <-).
  rewrite Hu. reflexivity.
Qed.

Lemma of_string_unsigned (text : string) (c : ascii) (s : string) :
  c <> "-"%char -> text = String c s ->
  PyFloat.of_string text = PyFloat.unsigned_literal text.
Proof.
  intros Hc ->. cbn [PyFloat.of_string].
  rewrite (proj2 (Ascii.eqb_neq c "-") Hc). reflexivity.
Qed.

(** Reading back the text of [f"{x:.1f}"] gives the rounded number. *)
Lemma of_string_format_f_1 (x : Q) :
  exists k,
    PyFloat.of_string (PyFloat.format_f 1 x) = Some k
    /\ (k == inject_Z (PyFloat.scaled 1 x) / 10)%Q.
Proof.
  destruct (format_f_1_shape x) as (d & u & -> & Hdig & Hu & Hval).
  set (t := PyFloat.scaled 1 x) in *.
  assert (Hnum : (Z.of_N (Z.to_N (Z.abs t / 10)) * 10
                  + Z.of_N (N.of_uint u) = Z.abs t)%Z).
  { rewrite Hval, !Z2N.id.
    - pose proof (Z.div_mod (Z.abs t) 10). lia.
    - apply Z.mod_pos_bound. lia.
    - apply Z.div_pos; lia. }
  destruct (scaled_sign 1 x) as [Hneg Hpos]. fold t in Hneg, Hpos.
  destruct (Qlt_le_dec x 0) as [Hx|Hx].
  - eexists. split.
    + rewrite append_cons, append_empty_l. cbn [PyFloat.of_string].
      rewrite Ascii.eqb_refl, (unsigned_literal_one_decimal _ _ _ Hu), Hnum.
      reflexivity.
    + specialize (Hneg Hx). rewrite Z.abs_neq by exact Hneg.
      unfold Qeq, Qopp, Qdiv, Qmult, Qinv, inject_Z. simpl. lia.
  - rewrite append_empty_l.
    destruct (of_N_nonempty (Z.to_N (Z.abs t / 10))) as (c & s & Hs & Hc).
    destruct (is_digit_not_special c Hc) as (_ & _ & Hminus).
    exists (Z.abs t # 10). split.
    + rewrite (of_string_unsigned _ c (s +:+ String "." (String d "")) Hminus)
        by (rewrite Hs; apply append_cons).
      rewrite (unsigned_literal_one_decimal _ _ _ Hu), Hnum. reflexivity.
    + rewrite Z.abs_eq by auto.
      unfold Qeq, Qdiv, Qmult, Qinv, inject_Z. simpl. lia.
Qed.

(** The [cpu] text of an entry, stripped of its percent sign, is the text
    of the number. *)
Lemma strip_percent_format_f_1 (x : Q) :
  PyStr.strip_chars "%" (PyFloat.format_f 1 x +:+ "%") = PyFloat.format_f 1 x.
Proof.
  destruct (format_f_1_shape x) as (d & u & -> & Hdig & _ & _).
  set (ip := PyStr.of_N _).
  set (p := fun c : ascii => PyStr.mem_char c "%").
  assert (Hp : forall c, c <> "%"%char -> p c = false).
  { intros c Hc. unfold p. simpl.
    rewrite (proj2 (Ascii.eqb_neq c "%") Hc). reflexivity. }
  assert (Hd : p d = false) by (apply Hp, is_digit_not_special, Hdig).
  assert (Hhead : exists a rest,
             (if Qlt_le_dec x 0 then "-" else "") +:+ ip +:+ "."
             = String a rest /\ p a = false).
  { destruct (Qlt_le_dec x 0).
    - eexists _, _. split; [apply append_cons | reflexivity].
    - destruct (of_N_nonempty (Z.to_N (Z.abs (PyFloat.scaled 1 x) / 10)))
        as (c & s & Hs & Hc).
      exists c, (s +:+ "."). fold ip in Hs. rewrite append_empty_l, Hs.
      split; [apply append_cons | apply Hp, is_digit_not_special, Hc]. }
  destruct Hhead as (a & rest & Hbody & Ha).
  replace (((if Qlt_le_dec x 0 then "-" else "") +:+ ip +:+ String "." (String d ""))
           +:+ "%")
    with (String a rest +:+ String d "%").
  2:{ rewrite <- Hbody, !append_assoc. reflexivity. }
  replace ((if Qlt_le_dec x 0 then "-" else "") +:+ ip +:+ String "." (String d ""))
    with (String a rest +:+ String d "").
  2:{ rewrite <- Hbody, !append_assoc. reflexivity. }
  unfold PyStr.strip_chars, PyStr.strip_by. fold p.
  rewrite append_cons. cbn [PyStr.lstrip_by]. rewrite Ha, <- append_cons.
  rewrite (rstrip_by_keep p _ d "%" Hd).
  cbn [PyStr.rstrip_by]. rewrite Hd. reflexivity.
Qed.

(** The sort key of the entry of a process is its CPU percentage as
    displayed. *)
Lemma cpu_key_entry_of (i : proc_info) :
  exists k,
    cpu_key (entry_of i) = Ret k
    /\ (k == inject_Z (displayed_cpu i) / 10)%Q.
Proof.
  unfold cpu_key, entry_of, displayed_cpu. cbn [pe_cpu].
  rewrite strip_percent_format_f_1.
  destruct (of_string_format_f_1 (pi_cpu_percent i)) as (k & -> & Hk). eauto.
Qed.

Lemma entry_tenths_entry_of (i : proc_info) :
  entry_tenths (entry_of i) = displayed_cpu i.
Proof.
  unfold entry_tenths. destruct (cpu_key_entry_of i) as (k & -> & Hk).
  rewrite <- (Qfloor_Z (displayed_cpu i)). apply Qfloor_comp.
  rewrite Hk. field.
Qed.

End Decimal.

(** ** The stable descending sort *)

Section Sorting.

Context {A : Type}.
Implicit Types (x : Q * A) (l : list (Q * A)).

Lemma insert_desc_perm x l : Permutation (insert_desc x l) (x :: l).
Proof.
  induction l as [|y l IH]; [reflexivity|].
  cbn [insert_desc]. destruct (Qlt_le_dec (fst x) (fst y)); [|reflexivity].
  rewrite IH. apply perm_swap.
Qed.

Lemma sort_desc_perm l : Permutation (sort_desc l) l.
Proof.
  induction l as [|x l IH]; [reflexivity|].
  cbn [sort_desc foldr]. fold (sort_desc l).
  rewrite insert_desc_perm, IH. reflexivity.
Qed.

Lemma insert_desc_sorted x l :
  StronglySorted ge_key l -> StronglySorted ge_key (insert_desc x l).
Proof.
  induction 1 as [|y l Hl IH Hy]; cbn [insert_desc].
  - repeat constructor.
  - destruct (Qlt_le_dec (fst x) (fst y)) as [Hlt|Hge].
    + constructor; [exact IH|].
      rewrite (insert_desc_perm x l). constructor; [|exact Hy].
      unfold ge_key. apply Qlt_le_weak, Hlt.
    + constructor; [constructor; assumption|].
      constructor; [exact Hge|].
      eapply Forall_impl; [exact Hy|].
      intros z Hz. unfold ge_key in *. eapply Qle_trans; eassumption.
Qed.

Lemma sort_desc_sorted l : StronglySorted ge_key (sort_desc l).
Proof.
  induction l as [|x l IH]; [constructor|].
  cbn [sort_desc foldr]. fold (sort_desc l). apply insert_desc_sorted, IH.
Qed.

Lemma StronglySorted_firstn {B} (R : B -> B -> Prop) (n : nat) (l : list B) :
  StronglySorted R l -> StronglySorted R (firstn n l).
Proof.
  intros H. revert n. induction H as [|b l Hl IH Hb]; intros [|n];
    cbn [firstn]; try constructor; [apply IH | apply Forall_take, Hb].
Qed.

(** The sort is stable: among the items with one key, the order of the
    input is kept.  With [sort_desc_perm] and [sort_desc_sorted] this
    determines the result, as it does for [sorted]. *)
Lemma insert_desc_stable x l (k : Q) :
  List.filter (fun y => Qeq_bool (fst y) k) (insert_desc x l)
  = List.filter (fun y => Qeq_bool (fst y) k) (x :: l).
Proof.
  induction l as [|y l IH]; [reflexivity|].
  cbn [insert_desc]. destruct (Qlt_le_dec (fst x) (fst y)) as [Hlt|]; [|reflexivity].
  cbn [List.filter] in *. rewrite IH.
  destruct (Qeq_bool (fst x) k) eqn:Hx; [|reflexivity].
  destruct (Qeq_bool (fst y) k) eqn:Hy; [|reflexivity].
  apply Qeq_bool_eq in Hx, Hy. rewrite Hx, Hy in Hlt.
  exfalso. exact (Qlt_irrefl _ Hlt).
Qed.

Lemma sort_desc_stable l (k : Q) :
  List.filter (fun y => Qeq_bool (fst y) k) (sort_desc l)
  = List.filter (fun y => Qeq_bool (fst y) k) l.
Proof.
  induction l as [|x l IH]; [reflexivity|].
  cbn [sort_desc foldr]. fold (sort_desc l).
  rewrite insert_desc_stable. cbn [List.filter]. rewrite IH. reflexivity.
Qed.

End Sorting.

(** ** The top-process list *)

Lemma run_ret {A} (a : A) (s : state) : (mret a : M A) s = (Ret a, s).
Proof. reflexivity. Qed.

Lemma read_entry_delivered (d : proc_dict) (i : proc_info) :
  delivered d = Some i -> read_entry d = Ret (entry_of i).
Proof.
  unfold delivered, read_entry.
  destruct d as [pid [name|] [cpu|] [mem|] [user|]]; cbn;
    try discriminate; intros [= <-]; reflexivity.
Qed.


Lemma visible_cons (proc : process) (procs : list process) :
  visible (proc :: procs)
  = match info proc with
    | Ret d =>
        match delivered d with
        | Some i => i :: visible procs
        | None => visible procs
        end
    | Raise _ => visible procs
    end.
Proof.
  unfold visible. cbn. destruct (info proc) as [d|]; [|reflexivity].
  destruct (delivered d); reflexivity.
Qed.

Lemma collect_processes_run (procs : list process) (acc : list proc_entry)
    (s : state) :
  Forall readable_or_gone procs ->
  collect_processes acc procs s
  = (Ret (acc ++ map entry_of (visible procs))%list, s).
Proof.
  intros H. revert acc. induction H as [|proc procs Hproc _ IH]; intros acc.
  - cbn [collect_processes]. rewrite app_nil_r. reflexivity.
  - cbn [collect_processes]. rewrite run_bind, visible_cons.
    unfold collect_process, try_except_in, try_except, lift.
    rewrite run_bind.
    unfold readable_or_gone in Hproc.
    destruct (info proc) as [d|e].
    + destruct Hproc as [i Hi]. rewrite Hi, run_bind.
      rewrite (read_entry_delivered d i Hi), run_ret, IH.
      cbn [map]. rewrite <- app_assoc. reflexivity.
    + replace (existsb (exn_class_eqb (exn_cls e)) [NoSuchProcess; AccessDenied])
        with true by (destruct Hproc as [-> | ->]; reflexivity).
      rewrite run_ret. apply IH.
Qed.

Lemma delivered_dict_of (i : proc_info) : delivered (dict_of i) = Some i.
Proof. destruct i. reflexivity. Qed.

Lemma readable_all (infos : list proc_info) :
  Forall readable_or_gone (map readable infos).
Proof.
  apply Forall_fmap, Forall_forall. intros i _.
  exists i. apply delivered_dict_of.
Qed.

Lemma for_list_keys (items : list proc_entry) (s : state) :
  Forall (fun x => exists k, cpu_key x = Ret k) items ->
  for_list (fun x => k ← lift (cpu_key x); mret (k, x)) items s
  = (Ret (map keyed items), s).
Proof.
  induction 1 as [|x items [k Hk] _ IH]; [reflexivity|].
  cbn [for_list map]. rewrite run_bind, (run_bind (lift (cpu_key x))).
  unfold lift at 1. rewrite Hk. cbn beta iota. rewrite run_ret. cbn beta iota.
  rewrite run_bind, IH. rewrite run_ret.
  unfold keyed at 2, key_of. rewrite Hk. reflexivity.
Qed.

Lemma get_top_processes_run (w : world) (s : state) (procs : list process) :
  psutil_process_iter w = Ret procs ->
  Forall readable_or_gone procs ->
  get_top_processes w s
  = (Ret (firstn 10 (map snd (sort_desc (map keyed
                                            (map entry_of (visible procs)))))),
     log (PsutilCall "process_iter") s).
Proof.
  intros Hiter Hprocs. unfold get_top_processes.
  rewrite run_bind, run_external, Hiter. cbn beta iota.
  rewrite run_bind, (collect_processes_run procs [] _ Hprocs). cbn [app].
  unfold sorted_reverse. rewrite run_bind, run_bind, for_list_keys; [reflexivity|].
  apply Forall_forall. intros x Hx. apply list_elem_of_fmap in Hx as (i & -> & _).
  destruct (cpu_key_entry_of i) as (k & Hk & _). eauto.
Qed.

(** Keys that go with their entries. *)
Lemma sorted_by_key_sorted_by_cpu (l : list (Q * proc_entry)) :
  Forall (fun p => cpu_key (snd p) = Ret (fst p)) l ->
  StronglySorted ge_key l -> StronglySorted cpu_ge (map snd l).
Proof.
  intros Hkeys Hsorted.
  induction Hsorted as [|p l Hl IH Hp]; [constructor|].
  apply Forall_cons in Hkeys as [Hk Hkeys].
  cbn [map]. constructor; [apply IH, Hkeys|].
  apply Forall_fmap, Forall_forall. intros q Hq.
  exists (fst p), (fst q). repeat split; [exact Hk | | ].
  - rewrite Forall_forall in Hkeys. apply Hkeys, Hq.
  - rewrite Forall_forall in Hp. apply Hp, Hq.
Qed.

(** Entries that display different percentages are strictly ordered. *)
Lemma sorted_distinct_strict (l : list proc_entry) :
  StronglySorted cpu_ge l -> NoDup (map entry_tenths l) ->
  StronglySorted cpu_gt l.
Proof.
  induction 1 as [|a l Hl IH Ha]; intros Hnd; [constructor|].
  cbn [map] in Hnd. apply NoDup_cons in Hnd as [Hfresh Hnd].
  constructor; [apply IH, Hnd|].
  apply Forall_forall. intros b Hb.
  rewrite Forall_forall in Ha. destruct (Ha b Hb) as (ka & kb & Hka & Hkb & Hle).
  exists ka, kb. repeat split; [assumption .. |].
  destruct (Qle_lt_or_eq _ _ Hle) as [Hlt|Heq]; [exact Hlt|].
  exfalso. apply Hfresh. apply list_elem_of_fmap. exists b. split; [|exact Hb].
  unfold entry_tenths. rewrite Hka, Hkb. apply Qfloor_comp.
  rewrite Heq. reflexivity.
Qed.

Lemma take_length_le (n : nat) (s : string) :
  (String.length (PyStr.take n s) <= n)%nat.
Proof.
  revert s. induction n as [|n IH]; intros [|c s]; cbn; try lia.
  specialize (IH s). lia.
Qed.

Lemma keyed_entries_have_keys (infos : list proc_info) :
  Forall (fun p : Q * proc_entry => cpu_key (snd p) = Ret (fst p))
         (map keyed (map entry_of infos)).
Proof.
  apply Forall_fmap, Forall_fmap, Forall_forall. intros i _.
  unfold keyed, key_of. cbn [fst snd compose].
  destruct (cpu_key_entry_of i) as (k & -> & _). reflexivity.
Qed.

(** C4, as the program has it, for a process table in which every process
    delivers all its attributes or raises [NoSuchProcess] or
    [AccessDenied] as it is read: the processes that raise are left out
    without an error; the result holds the entries of the
    other processes, ordered by the CPU percentage they display (the value
    rounded to one decimal), largest first, cut to ten; the name is cut to
    30 characters, the user to 15, both percentages are printed with one
    decimal and a percent sign; when the displayed percentages are all
    different the order is strict, and fifteen such processes give exactly
    ten entries in strictly descending order. *)
Theorem top_processes_ranked_by_displayed_cpu (w : world) (s : state)
    (procs : list process) :
  psutil_process_iter w = Ret procs ->
  Forall readable_or_gone procs ->
  exists top s',
    get_top_processes w s = (Ret top, s')
    /\ (exists ranked,
           Permutation ranked (map entry_of (visible procs))
           /\ StronglySorted cpu_ge ranked
           /\ top = firstn 10 ranked)
    /\ length top = Nat.min 10 (length (visible procs))
    /\ StronglySorted cpu_ge top
    /\ Forall (fun x => exists i,
                   i ∈ visible procs
                   /\ pe_pid x = pi_pid i
                   /\ pe_name x = PyStr.take 30 (pi_name i)
                   /\ (String.length (pe_name x) <= 30)%nat
                   /\ pe_user x = PyStr.take 15 (pi_username i)
                   /\ (String.length (pe_user x) <= 15)%nat
                   /\ pe_cpu x = PyFloat.format_f 1 (pi_cpu_percent i) +:+ "%"
                   /\ pe_mem x = PyFloat.format_f 1 (pi_memory_percent i) +:+ "%"
                   /\ entry_tenths x = displayed_cpu i) top
    /\ (NoDup (map displayed_cpu (visible procs)) -> StronglySorted cpu_gt top)
    /\ (length (visible procs) = 15%nat ->
        NoDup (map displayed_cpu (visible procs)) ->
        length top = 10%nat /\ StronglySorted cpu_gt top).
Proof.
  intros Hiter Hprocs. rewrite (get_top_processes_run w s procs Hiter Hprocs).
  set (items := map entry_of (visible procs)).
  set (ranked := map snd (sort_desc (map keyed items))).
  assert (Hperm : Permutation ranked items).
  { unfold ranked. rewrite (sort_desc_perm (map keyed items)), map_map.
    cbn [keyed snd]. rewrite map_id. reflexivity. }
  assert (Hsorted : StronglySorted cpu_ge ranked).
  { apply sorted_by_key_sorted_by_cpu; [|apply sort_desc_sorted].
    eapply Permutation_Forall; [symmetry; apply sort_desc_perm|].
    apply keyed_entries_have_keys. }
  assert (Hlen : length (firstn 10 ranked) = Nat.min 10 (length (visible procs))).
  { rewrite length_take, (Permutation_length Hperm). unfold items.
    rewrite length_map. reflexivity. }
  assert (Hstrict : NoDup (map displayed_cpu (visible procs)) ->
                    StronglySorted cpu_gt (firstn 10 ranked)).
  { intros Hnd. apply StronglySorted_firstn, sorted_distinct_strict;
      [exact Hsorted|].
    rewrite Hperm. unfold items. rewrite map_map.
    erewrite map_ext; [exact Hnd|]. intros i. apply entry_tenths_entry_of. }
  eexists _, _. split; [reflexivity|].
  split; [exists ranked; auto|].
  split; [exact Hlen|].
  split; [apply StronglySorted_firstn, Hsorted|].
  split; [|split; [exact Hstrict|]].
  - apply Forall_take. rewrite Hperm. unfold items.
    apply Forall_fmap, Forall_forall. intros i Hi. exists i.
    cbn [compose entry_of pe_pid pe_name pe_user pe_cpu pe_mem].
    repeat split; auto using take_length_le, entry_tenths_entry_of.
  - intros H15 Hnd. split; [rewrite Hlen, H15; reflexivity | apply Hstrict, Hnd].
Qed.

Lemma top_processes_ranked_by_displayed_cpu_witness :
  exists top s',
    get_top_processes spread_world initial_state = (Ret top, s')
    /\ map pe_pid top = [15; 14; 13; 12; 11; 10; 9; 8; 7; 6]
    /\ length top = 10%nat
    /\ StronglySorted cpu_gt top.
Proof.
  destruct (top_processes_ranked_by_displayed_cpu spread_world initial_state
              ({| info := Raise (Exn NoSuchProcess
                                    "process no longer exists (pid=77)") |}
               :: map readable fifteen_spread_processes))
    as (top & s' & Hrun & _ & _ & _ & _ & _ & H15).
  - reflexivity.
  - constructor; [left; reflexivity | apply readable_all].
  - exists top, s'. split; [exact Hrun|].
    split.
    + vm_compute in Hrun. injection Hrun as <- _. reflexivity.
    + apply H15; [reflexivity|].
      apply (bool_decide_unpack _). vm_compute. exact I.
Defined.

(** C4 as the specification words it fails: fifteen processes with fifteen
    different CPU percentages need not come out in strictly descending
    order.  The percentages 20 and 20.03125 both display as [20.0%]; the
    sort compares what is displayed and keeps such entries in the order of
    the enumeration, here the smaller percentage first. *)
Lemma top_processes_rounding_ties :
  ~ (forall w s infos,
        psutil_process_iter w = Ret (map readable infos) ->
        length infos = 15%nat ->
        distinct_values (map pi_cpu_percent infos) ->
        exists top s',
          get_top_processes w s = (Ret top, s')
          /\ length top = 10%nat
          /\ StronglySorted cpu_gt top)
  /\ (exists top s',
         get_top_processes tie_world initial_state = (Ret top, s')
         /\ map (fun x => (pe_pid x, pe_cpu x)) top
            = [(14, "20.0%"); (15, "20.0%"); (13, "13.0%"); (12, "12.0%");
               (11, "11.0%"); (10, "10.0%"); (9, "9.0%"); (8, "8.0%");
               (7, "7.0%"); (6, "6.0%")]).
Proof.
  split.
  - intros Hclaim.
    destruct (Hclaim tie_world initial_state fifteen_processes)
      as (top & s' & Hrun & _ & Hsorted).
    + reflexivity.
    + reflexivity.
    + cbn. repeat split; repeat constructor; intros E; vm_compute in E;
        discriminate E.
    + vm_compute in Hrun. injection Hrun as <- _.
      apply StronglySorted_inv in Hsorted as [_ Hhead].
      apply Forall_cons in Hhead as [(ka & kb & Hka & Hkb & Hlt) _].
      vm_compute in Hka, Hkb. injection Hka as <-. injection Hkb as <-.
      vm_compute in Hlt. discriminate Hlt.
  - eexists _, _. split; vm_compute; reflexivity.
Qed.

(** * Further properties of the program *)

(** ** [load_config] and the globals of the module *)

Lemma io_run_bind {A B} (m : IO A) (k : A -> IO B) (s : io_state) :
  (m ≫= k) s =
  match m s with
  | (Ret a, s') => k a s'
  | (Raise e, s') => (Raise e, s')
  end.
Proof. reflexivity. Qed.

(** *** Symbolic links *)

Lemma follow_not_link (links : nat) (entries : gmap string node)
    (path final target : string) :
  follow links entries path = Some final ->
  entries !! final <> Some (Link target).
Proof.
  revert path. induction links as [|links IH]; intros path; cbn [follow];
    destruct (entries !! path) as [[doc|e|t]|] eqn:Hpath;
    try discriminate; try (intros [= <-]; rewrite Hpath; discriminate).
  apply IH.
Qed.

Lemma reach_not_link (d : disk) (path target : string) :
  reach d path <> Some (Link target).
Proof.
  unfold reach.
  destruct (follow MAXSYMLINKS (nodes d) path) as [final|] eqn:Hf;
    [|discriminate].
  exact (follow_not_link _ _ _ _ _ Hf).
Qed.

(** A path that is no link leads to itself. *)
Lemma follow_entry (d : disk) (path : string) :
  (forall target, nodes d !! path <> Some (Link target)) ->
  follow MAXSYMLINKS (nodes d) path = Some path.
Proof.
  intros Hn. unfold MAXSYMLINKS. cbn [follow].
  destruct (nodes d !! path) as [[doc|e|t]|]; try reflexivity.
  exfalso. exact (Hn t eq_refl).
Qed.

Lemma reach_entry (d : disk) (path : string) :
  (forall target, nodes d !! path <> Some (Link target)) ->
  reach d path = nodes d !! path.
Proof. intros Hn. unfold reach. rewrite (follow_entry d path Hn). reflexivity. Qed.

Lemma reach_file (d : disk) (path : string) (doc : document) :
  nodes d !! path = Some (File doc) -> reach d path = Some (File doc).
Proof. intros H. rewrite reach_entry; [exact H|]. rewrite H. discriminate. Qed.

(** *** The two branches of [load_config] *)

(** [load_config] on a path that exists. *)
Lemma load_config_existing (path : string) (s : io_state) (n : node) :
  reach (the_disk s) path = Some n ->
  load_config path s =
  match n with
  | File (Parsed v) =>
      (Ret v, print_all ["  configuration loaded from " +:+ path] s)
  | File (Unparseable e) | Unopenable e =>
      (Ret (json_of_config DEFAULT_CONFIG),
       print_all ["  error loading config: " +:+ exn_str e;
                  "  using default configuration"] s)
  | Link _ =>
      (Ret (json_of_config DEFAULT_CONFIG),
       print_all ["  error loading config: " +:+ exn_str (too_many_links path);
                  "  using default configuration"] s)
  end.
Proof.
  intros Hn. unfold load_config. rewrite io_run_bind. unfold path_exists.
  rewrite Hn, bool_decide_eq_true_2 by eauto.
  unfold io_try. rewrite io_run_bind. unfold read_json. rewrite Hn.
  destruct n as [[v|e]|e|t];
    unfold print_all, print, mbind, IO_bind, mret, IO_ret; cbn;
    rewrite <- ?app_assoc; reflexivity.
Qed.

(** [load_config] on a path that does not exist. *)
Lemma load_config_missing (path : string) (s : io_state) :
  reach (the_disk s) path = None ->
  load_config path s =
  (Ret (json_of_config DEFAULT_CONFIG),
   match follow MAXSYMLINKS (nodes (the_disk s)) path with
   | None =>
       print_all ["  could not create config file: "
                  +:+ exn_str (too_many_links path)] s
   | Some final =>
       match write_attempt (the_disk s) path with
       | Written =>
           print_all
             ["  created default config file: " +:+ path;
              "  edit this file to customize credentials and services"]
             (put_node final (File (Parsed (json_of_config DEFAULT_CONFIG))) s)
       | OpenFails e =>
           print_all ["  could not create config file: " +:+ exn_str e] s
       | DumpFails e remains =>
           print_all ["  could not create config file: " +:+ exn_str e]
                     (put_node final (File remains) s)
       end
   end).
Proof.
  intros Hn. unfold load_config. rewrite io_run_bind. unfold path_exists.
  rewrite Hn, bool_decide_eq_false_2 by (intros [? ?]; discriminate).
  rewrite io_run_bind. unfold io_try. rewrite io_run_bind. unfold write_json.
  destruct (follow MAXSYMLINKS (nodes (the_disk s)) path) as [final|];
    [destruct (write_attempt (the_disk s) path)|];
    unfold print_all, print, mbind, IO_bind, mret, IO_ret; cbn;
    rewrite <- ?app_assoc; reflexivity.
Qed.

(** [load_config] never raises: it returns what the file holds when the
    path, symbolic links followed, leads to a file that opens and parses,
    and [DEFAULT_CONFIG] in every other case. *)
Theorem load_config_falls_back_to_default (path : string) (s : io_state) :
  exists v s',
    load_config path s = (Ret v, s')
    /\ v = match reach (the_disk s) path with
           | Some (File (Parsed v0)) => v0
           | _ => json_of_config DEFAULT_CONFIG
           end.
Proof.
  destruct (reach (the_disk s) path) as [n|] eqn:Hn.
  - rewrite (load_config_existing path s n Hn).
    destruct n as [[v|e]|e|t]; eauto.
  - rewrite (load_config_missing path s Hn). eauto.
Qed.

(** [load_config] changes no directory entry that exists, whatever it
    holds, and creates at most one: the entry at the end of the symbolic
    links of its path (the path itself when it is no link), and that only
    when nothing is there.  So a link that leads nowhere stays, and it is
    its target that may be created. *)
Theorem load_config_keeps_existing_files (path other : string) (s : io_state) :
  follow MAXSYMLINKS (nodes (the_disk s)) path <> Some other
  \/ is_Some (nodes (the_disk s) !! other) ->
  nodes (the_disk (load_config path s).2) !! other
  = nodes (the_disk s) !! other.
Proof.
  intros H.
  destruct (reach (the_disk s) path) as [n|] eqn:Hn.
  - rewrite (load_config_existing path s n Hn).
    destruct n as [[v|e]|e|t]; reflexivity.
  - rewrite (load_config_missing path s Hn). unfold reach in Hn.
    destruct (follow MAXSYMLINKS (nodes (the_disk s)) path) as [final|];
      [|reflexivity].
    assert (Hne : final <> other).
    { intros ->. destruct H as [H|[n H]]; [congruence|].
      rewrite H in Hn. discriminate. }
    destruct (write_attempt (the_disk s) path); cbn;
      rewrite ?lookup_insert_ne by exact Hne; reflexivity.
Qed.

Lemma load_config_keeps_existing_files_witness :
  nodes (the_disk (load_config "config.json" (start_on dangling_link_disk)).2)
    !! "config.json"
  = nodes dangling_link_disk !! "config.json".
Proof.
  apply (load_config_keeps_existing_files "config.json" "config.json"
           (start_on dangling_link_disk)).
  right. vm_compute. eauto.
Defined.

(** On a path that does not exist and can be written, [load_config] leaves
    a file holding [DEFAULT_CONFIG]; called again it loads that file,
    returns [DEFAULT_CONFIG] and changes nothing on the disk. *)
Theorem load_config_creates_then_loads (path : string) (s : io_state) :
  nodes (the_disk s) !! path = None ->
  write_attempt (the_disk s) path = Written ->
  exists s1 s2,
    load_config path s = (Ret (json_of_config DEFAULT_CONFIG), s1)
    /\ nodes (the_disk s1) !! path
       = Some (File (Parsed (json_of_config DEFAULT_CONFIG)))
    /\ load_config path s1 = (Ret (json_of_config DEFAULT_CONFIG), s2)
    /\ the_disk s2 = the_disk s1
    /\ printed s2
       = (printed s
          ++ ["  created default config file: " +:+ path;
              "  edit this file to customize credentials and services";
              "  configuration loaded from " +:+ path])%list.
Proof.
  intros Hn Hw.
  assert (Hnolink : forall target,
             nodes (the_disk s) !! path <> Some (Link target))
    by (intros target; rewrite Hn; discriminate).
  assert (Hreach : reach (the_disk s) path = None)
    by (rewrite (reach_entry _ _ Hnolink); exact Hn).
  rewrite (load_config_missing path s Hreach), (follow_entry _ _ Hnolink), Hw.
  eexists _, _. split; [reflexivity|].
  assert (Hfile : nodes (the_disk
                    (print_all
                       ["  created default config file: " +:+ path;
                        "  edit this file to customize credentials and services"]
                       (put_node path
                          (File (Parsed (json_of_config DEFAULT_CONFIG))) s)))
                  !! path
                  = Some (File (Parsed (json_of_config DEFAULT_CONFIG))))
    by apply lookup_insert_eq.
  split; [exact Hfile|].
  rewrite (load_config_existing path _ _ (reach_file _ _ _ Hfile)).
  split; [reflexivity|]. split; [reflexivity|].
  cbn. rewrite <- app_assoc. reflexivity.
Qed.

Lemma load_config_creates_then_loads_witness :
  exists s1 s2,
    load_config "config.json" (start_on empty_disk)
    = (Ret (json_of_config DEFAULT_CONFIG), s1)
    /\ nodes (the_disk s1) !! "config.json"
       = Some (File (Parsed (json_of_config DEFAULT_CONFIG)))
    /\ load_config "config.json" s1 = (Ret (json_of_config DEFAULT_CONFIG), s2)
    /\ the_disk s2 = the_disk s1
    /\ printed s2
       = (printed (start_on empty_disk)
          ++ ["  created default config file: " +:+ "config.json";
              "  edit this file to customize credentials and services";
              "  configuration loaded from " +:+ "config.json"])%list.
Proof.
  apply (load_config_creates_then_loads "config.json" (start_on empty_disk));
    reflexivity.
Defined.

Lemma load_globals_run (s : io_state) :
  load_globals s =
  match load_config "config.json" s with
  | (Ret config, s') =>
      match subscript config "username", subscript config "password",
            subscript config "services" with
      | Ret u, Ret p, Ret sv => (Ret (u, p, sv), s')
      | Raise e, _, _ | Ret _, Raise e, _ | Ret _, Ret _, Raise e => (Raise e, s')
      end
  | (Raise e, s') => (Raise e, s')
  end.
Proof.
  unfold load_globals. rewrite io_run_bind.
  destruct (load_config "config.json" s) as [[config|e] s']; [|reflexivity].
  unfold mbind, IO_bind, io_lift, mret, IO_ret.
  destruct (subscript config "username"); [|reflexivity].
  destruct (subscript config "password"); [|reflexivity].
  destruct (subscript config "services"); reflexivity.
Qed.

Lemma mapM_string_of_json (names : list string) :
  mapM string_of_json (map JString names) = Some names.
Proof.
  induction names as [|name names IH]; [reflexivity|].
  cbn. cbn in IH. rewrite IH. reflexivity.
Qed.

(** Writing a configuration as JSON and reading it back gives the same
    configuration. *)
Lemma typed_config_of_config (c : config) :
  typed_config (JString (cfg_username c)) (JString (cfg_password c))
               (JArray (map JString (cfg_services c))) = Some c.
Proof.
  unfold typed_config. rewrite mapM_string_of_json. destruct c; reflexivity.
Qed.

Lemma load_config_default (path : string) (s : io_state) :
  (forall v, reach (the_disk s) path <> Some (File (Parsed v))) ->
  exists s', load_config path s = (Ret (json_of_config DEFAULT_CONFIG), s').
Proof.
  intros Hbad. destruct (reach (the_disk s) path) as [n|] eqn:Hn.
  - rewrite (load_config_existing path s n Hn).
    destruct n as [[v|e]|e|t]; eauto. exfalso. exact (Hbad v eq_refl).
  - rewrite (load_config_missing path s Hn). eauto.
Qed.

(** When [config.json], symbolic links followed, is missing, cannot be
    opened or is not JSON, the module starts with the default credentials
    [admin] / [admin] and the default services, whether or not the default
    file could be written. *)
Theorem load_globals_default_credentials (s : io_state) :
  (forall v, reach (the_disk s) "config.json" <> Some (File (Parsed v))) ->
  exists u p sv s',
    load_globals s = (Ret (u, p, sv), s')
    /\ typed_config u p sv = Some DEFAULT_CONFIG.
Proof.
  intros Hbad. rewrite load_globals_run.
  destruct (load_config_default "config.json" s Hbad)
    as (s' & ->).
  eexists _, _, _, _. split; reflexivity.
Qed.

Lemma load_globals_default_credentials_witness :
  exists u p sv s',
    load_globals (start_on corrupt_config_disk) = (Ret (u, p, sv), s')
    /\ typed_config u p sv = Some DEFAULT_CONFIG.
Proof.
  apply (load_globals_default_credentials (start_on corrupt_config_disk)).
  intros v. vm_compute. discriminate.
Defined.

(** The file is taken as it is: when [config.json] parses to something
    that is not a dictionary, or to a dictionary without one of the keys
    [username], [password], [services], the module fails to start; no
    default is filled in for what is missing. *)
Theorem load_globals_needs_every_key (s : io_state) (v : json) :
  nodes (the_disk s) !! "config.json" = Some (File (Parsed v)) ->
  match v with
  | JObject members =>
      member "username" members = None
      \/ member "password" members = None
      \/ member "services" members = None
  | _ => True
  end ->
  exists e s', load_globals s = (Raise e, s').
Proof.
  intros Hfile Hmissing. rewrite load_globals_run.
  rewrite (load_config_existing "config.json" s _ (reach_file _ _ _ Hfile)).
  destruct v as [| | | | | |members]; try (cbn; eauto; fail).
  unfold subscript.
  destruct (member "username" members) eqn:Hu; [|eauto].
  destruct (member "password" members) eqn:Hp; [|eauto].
  destruct (member "services" members) eqn:Hs; [|eauto].
  destruct Hmissing as [H|[H|H]]; discriminate.
Qed.

Lemma load_globals_needs_every_key_witness :
  exists e s', load_globals (start_on partial_config_disk) = (Raise e, s').
Proof.
  apply (load_globals_needs_every_key (start_on partial_config_disk)
           (JObject [("username", JString "ops");
                     ("password", JString "s3cret")])).
  - reflexivity.
  - right. right. reflexivity.
Defined.

(** A file that holds a dictionary with the three keys sets the globals to
    the values under these keys, whatever their types; for a file written
    from a configuration of two strings and a list of strings the globals
    are that configuration. *)
Theorem load_globals_reads_the_file (s : io_state)
    (members : list (string * json)) (u p sv : json) :
  nodes (the_disk s) !! "config.json" = Some (File (Parsed (JObject members))) ->
  member "username" members = Some u ->
  member "password" members = Some p ->
  member "services" members = Some sv ->
  load_globals s
  = (Ret (u, p, sv), print_all ["  configuration loaded from config.json"] s)
  /\ (forall c, JObject members = json_of_config c ->
                typed_config u p sv = Some c).
Proof.
  intros Hfile Hu Hp Hs. split.
  - rewrite load_globals_run,
      (load_config_existing "config.json" s _ (reach_file _ _ _ Hfile)).
    unfold subscript. rewrite Hu, Hp, Hs. reflexivity.
  - intros c [= ->]. cbn in Hu, Hp, Hs.
    injection Hu as <-. injection Hp as <-. injection Hs as <-.
    apply typed_config_of_config.
Qed.

Lemma load_globals_reads_the_file_witness :
  load_globals (start_on operator_disk)
  = (Ret (JString "ops", JString "s3cret",
          JArray [JString "nginx"; JString "cron"]),
     print_all ["  configuration loaded from config.json"]
               (start_on operator_disk))
  /\ (forall c,
         JObject [("username", JString "ops"); ("password", JString "s3cret");
                  ("services", JArray [JString "nginx"; JString "cron"])]
         = json_of_config c ->
         typed_config (JString "ops") (JString "s3cret")
                      (JArray [JString "nginx"; JString "cron"]) = Some c).
Proof.
  apply (load_globals_reads_the_file (start_on operator_disk)); reflexivity.
Defined.

(** ** The authentication gate *)

(** One call of [check_auth]: the answer, the delay, and the counter of the
    address. *)
Lemma check_auth_run (cfg : config) (req : request) (username password : string)
    (s : state) :
  check_auth cfg req username password s
  = (Ret (String.eqb username (USERNAME cfg)
          && String.eqb password (PASSWORD cfg)),
     {| trace := trace s ++ (if 5 <? attempts s (remote_addr req)
                             then [TimeSleep 3] else []);
        login_attempts :=
          <[ remote_addr req :=
               if String.eqb username (USERNAME cfg)
                  && String.eqb password (PASSWORD cfg)
               then 0 else attempts s (remote_addr req) + 1 ]>
            (login_attempts s) |}).
Proof.
  unfold check_auth, attempts.
  destruct (5 <? default 0 (login_attempts s !! remote_addr req));
    cbn; rewrite ?app_nil_r; reflexivity.
Qed.

Lemma accepted_eqb (cfg : config) (username password : string) :
  String.eqb username (USERNAME cfg) && String.eqb password (PASSWORD cfg) = true
  <-> accepted cfg username password.
Proof.
  unfold accepted. rewrite andb_true_iff, !String.eqb_eq. reflexivity.
Qed.

Lemma rejected_eqb (cfg : config) (username password : string) :
  ~ accepted cfg username password ->
  String.eqb username (USERNAME cfg) && String.eqb password (PASSWORD cfg) = false.
Proof.
  intros H. apply not_true_is_false. rewrite accepted_eqb. exact H.
Qed.

Lemma attempts_insert (s : state) (ip : string) (n : Z) (tr : list event) :
  attempts {| trace := tr; login_attempts := <[ ip := n ]> (login_attempts s) |}
           ip = n.
Proof. unfold attempts. cbn. rewrite lookup_insert_eq. reflexivity. Qed.

(** Wrong guesses from one address: every one is refused, the counter of
    the address goes up by one each time, and a guess is delayed by three
    seconds exactly when more than five failures were counted before it.
    From a counter of [c], the first [6 - c] guesses go through without
    delay and all later ones are delayed. *)
Theorem repeated_failures_are_delayed (cfg : config) (req : request)
    (guesses : list (string * string)) (s : state) :
  Forall (fun g => ~ accepted cfg g.1 g.2) guesses ->
  exists s',
    logins cfg req guesses s = (Ret (map (fun _ => false) guesses), s')
    /\ attempts s' (remote_addr req)
       = attempts s (remote_addr req) + Z.of_nat (length guesses)
    /\ trace s'
       = (trace s
          ++ repeat (TimeSleep 3)
               (length guesses - Z.to_nat (6 - attempts s (remote_addr req))))%list.
Proof.
  intros Hwrong. revert s. unfold logins.
  induction Hwrong as [|g guesses Hg _ IH]; intros s.
  - exists s. cbn. rewrite app_nil_r. repeat split; lia.
  - cbn [for_list]. rewrite run_bind, check_auth_run, (rejected_eqb _ _ _ Hg).
    rewrite run_bind.
    set (c := attempts s (remote_addr req)).
    set (s1 := {| trace := _; login_attempts := _ |}).
    destruct (IH s1) as (s' & -> & Hcount & Htrace).
    assert (Hc1 : attempts s1 (remote_addr req) = c + 1)
      by apply attempts_insert.
    exists s'. split; [reflexivity|]. rewrite Hcount, Htrace, Hc1.
    split; [cbn [length]; lia|].
    unfold s1. cbn [trace length]. rewrite <- app_assoc. f_equal.
    destruct (Z.ltb_spec 5 c) as [Hlt|Hge].
    + replace (Z.to_nat (6 - (c + 1))) with 0%nat by lia.
      replace (Z.to_nat (6 - c)) with 0%nat by lia.
      rewrite !Nat.sub_0_r. reflexivity.
    + replace (Z.to_nat (6 - c)) with (S (Z.to_nat (6 - (c + 1)))) by lia.
      reflexivity.
Qed.

Lemma repeated_failures_are_delayed_witness :
  exists s',
    logins DEFAULT_CONFIG intruder_request
           [("admin", "a"); ("admin", "b"); ("admin", "c"); ("admin", "d");
            ("admin", "e"); ("admin", "f"); ("admin", "g"); ("admin", "h")]
           initial_state
    = (Ret [false; false; false; false; false; false; false; false], s')
    /\ attempts s' "203.0.113.9" = 8
    /\ trace s' = [TimeSleep 3; TimeSleep 3].
Proof.
  apply (repeated_failures_are_delayed DEFAULT_CONFIG intruder_request
           [("admin", "a"); ("admin", "b"); ("admin", "c"); ("admin", "d");
            ("admin", "e"); ("admin", "f"); ("admin", "g"); ("admin", "h")]
           initial_state).
  repeat constructor; intros [_ H]; discriminate H.
Defined.

(** There is no lock-out: the right credentials are accepted whatever the
    counter of the address says, three seconds late when the counter is
    above five, and they set the counter back to zero. *)
Theorem right_credentials_always_pass (cfg : config) (req : request)
    (s : state) :
  exists s',
    check_auth cfg req (USERNAME cfg) (PASSWORD cfg) s = (Ret true, s')
    /\ attempts s' (remote_addr req) = 0
    /\ trace s'
       = (trace s ++ if 5 <? attempts s (remote_addr req)
                     then [TimeSleep 3] else [])%list.
Proof.
  rewrite check_auth_run, !String.eqb_refl. cbn [andb].
  eexists. split; [reflexivity|]. split; [apply attempts_insert | reflexivity].
Qed.

Lemma logins_other_addresses (cfg : config) (req : request)
    (guesses : list (string * string)) (s : state) (other : string) :
  other <> remote_addr req ->
  login_attempts (logins cfg req guesses s).2 !! other
  = login_attempts s !! other.
Proof.
  intros Hother. revert s. unfold logins.
  induction guesses as [|g guesses IH]; intros s; [reflexivity|].
  cbn [for_list]. rewrite run_bind, check_auth_run, run_bind.
  set (s1 := {| trace := _; login_attempts := _ |}).
  specialize (IH s1).
  destruct (for_list _ guesses s1) as [[answers|e] s'].
  - cbn in *. rewrite IH. unfold s1. cbn.
    apply lookup_insert_ne. congruence.
  - cbn in *. rewrite IH. unfold s1. cbn.
    apply lookup_insert_ne. congruence.
Qed.

(** The counters are kept per address: whatever one address sends, right
    or wrong, the counter of every other address stays as it was, so
    neither the delay nor its reset carries over from one address to
    another. *)
Theorem logins_count_per_address (cfg : config) (req : request)
    (guesses : list (string * string)) (s : state) (other : string) :
  other <> remote_addr req ->
  attempts (logins cfg req guesses s).2 other = attempts s other.
Proof.
  intros Hother. unfold attempts.
  rewrite (logins_other_addresses cfg req guesses s other Hother). reflexivity.
Qed.

Lemma logins_count_per_address_witness :
  attempts (logins DEFAULT_CONFIG intruder_request
                   [("admin", "a"); ("root", "b"); ("admin", "admin")]
                   initial_state).2 "127.0.0.1"
  = attempts initial_state "127.0.0.1".
Proof.
  apply (logins_count_per_address DEFAULT_CONFIG intruder_request
           [("admin", "a"); ("root", "b"); ("admin", "admin")] initial_state
           "127.0.0.1").
  discriminate.
Defined.

(** ** The calls of [get_system_data] *)

Lemma sample_metrics_calls (w : world) (s s1 : state) (r : result metrics) :
  sample_metrics w s = (r, s1) ->
  exists evs,
    s1 = log_all evs s
    /\ evs `prefix_of` metric_calls
    /\ (forall m, r = Ret m -> evs = metric_calls).
Proof.
  unfold sample_metrics.
  assert (Hdone : forall (e : exn) (r : result metrics) (evs : list event),
             evs `prefix_of` metric_calls ->
             (Raise e, log_all evs s) = (r, s1) ->
             exists evs,
               s1 = log_all evs s /\ evs `prefix_of` metric_calls
               /\ (forall m, r = Ret m -> evs = metric_calls)).
  { intros e r' evs Hpre [= <- <-]. exists evs. repeat split; [exact Hpre|].
    discriminate. }
  assert (Hlog : forall ev evs, log ev (log_all evs s) = log_all (evs ++ [ev]) s).
  { intros ev evs. unfold log, log_all. cbn. rewrite <- app_assoc. reflexivity. }
  run_next.
  change (log (PsutilCall "cpu_percent") s)
    with (log_all [PsutilCall "cpu_percent"] s).
  destruct (psutil_cpu_percent w) as [cpu|e];
    [|apply Hdone; eexists; reflexivity].
  run_next. rewrite Hlog. destruct (psutil_cpu_count w) as [n|e];
    [|apply Hdone; eexists; reflexivity].
  run_next. rewrite Hlog. destruct (psutil_getloadavg w) as [[[l1 l5] l15]|e];
    [|apply Hdone; eexists; reflexivity].
  run_next. rewrite Hlog. destruct (psutil_virtual_memory w) as [mem|e];
    [|apply Hdone; eexists; reflexivity].
  run_next. destruct (format_bytes (vm_total mem));
    [|apply Hdone; eexists; reflexivity].
  run_next. destruct (format_bytes (vm_used mem));
    [|apply Hdone; eexists; reflexivity].
  run_next. destruct (format_bytes (vm_available mem));
    [|apply Hdone; eexists; reflexivity].
  run_next. rewrite Hlog. destruct (psutil_disk_usage w "/") as [disk|e];
    [|apply Hdone; eexists; reflexivity].
  run_next. destruct (format_bytes (du_total disk));
    [|apply Hdone; eexists; reflexivity].
  run_next. destruct (format_bytes (du_used disk));
    [|apply Hdone; eexists; reflexivity].
  run_next. destruct (format_bytes (du_free disk));
    [|apply Hdone; eexists; reflexivity].
  run_next. rewrite Hlog. destruct (psutil_net_io_counters w) as [net|e];
    [|apply Hdone; eexists; reflexivity].
  run_next. destruct (format_bytes (bytes_sent net));
    [|apply Hdone; eexists; reflexivity].
  run_next. destruct (format_bytes (bytes_recv net));
    [|apply Hdone; eexists; reflexivity].
  run_next. rewrite Hlog.
  run_next. rewrite Hlog. destruct (psutil_boot_time w) as [boot|e];
    [|apply Hdone; eexists; reflexivity].
  intros [= <- <-]. exists metric_calls. repeat split.
  exists []. rewrite app_nil_r. reflexivity.
Qed.

Lemma collect_processes_state (procs : list process) (acc : list proc_entry)
    (s s' : state) (r : result (list proc_entry)) :
  collect_processes acc procs s = (r, s') -> s' = s.
Proof.
  revert acc. induction procs as [|proc procs IH]; intros acc.
  - intros [= _ <-]. reflexivity.
  - cbn [collect_processes]. rewrite run_bind.
    unfold collect_process, try_except_in, try_except, lift.
    rewrite run_bind. destruct (info proc) as [d|e].
    + rewrite run_bind. destruct (read_entry d) as [entry|e].
      * rewrite run_ret. apply IH.
      * destruct (existsb _ _).
        -- rewrite run_ret. apply IH.
        -- intros [= _ <-]. reflexivity.
    + destruct (existsb _ _).
      * rewrite run_ret. apply IH.
      * intros [= _ <-]. reflexivity.
Qed.

Lemma for_list_keys_state (items : list proc_entry) (s s' : state)
    (r : result (list (Q * proc_entry))) :
  for_list (fun x => k ← lift (cpu_key x); mret (k, x)) items s = (r, s') ->
  s' = s.
Proof.
  revert r. induction items as [|x items IH]; intros r.
  - intros [= _ <-]. reflexivity.
  - cbn [for_list]. rewrite run_bind, (run_bind (lift (cpu_key x))).
    unfold lift at 1. destruct (cpu_key x) as [k|e].
    + cbn beta iota. rewrite run_ret. cbn beta iota. rewrite run_bind.
      destruct (for_list _ items s) as [[ys|e] s0] eqn:Hrest.
      * rewrite run_ret. intros [= _ <-]. exact (IH _ eq_refl).
      * intros [= _ <-]. exact (IH _ eq_refl).
    + intros [= _ <-]. reflexivity.
Qed.

(** Whatever the processes do, the "Top processes" part makes one call. *)
Lemma get_top_processes_state (w : world) (s s' : state)
    (r : result (list proc_entry)) :
  get_top_processes w s = (r, s') -> s' = log (PsutilCall "process_iter") s.
Proof.
  unfold get_top_processes. rewrite run_bind, run_external.
  destruct (psutil_process_iter w) as [procs|e]; [|intros [= _ <-]; reflexivity].
  rewrite run_bind.
  destruct (collect_processes [] procs _) as [[entries|e] s1] eqn:Hc;
    apply collect_processes_state in Hc as ->;
    [|intros [= _ <-]; reflexivity].
  unfold sorted_reverse. rewrite run_bind, run_bind.
  destruct (for_list _ entries _) as [[ks|e] s2] eqn:Hk;
    apply for_list_keys_state in Hk as ->; intros [= _ <-]; reflexivity.
Qed.

Lemma get_system_data_calls (w : world) (cfg : config) (s s' : state)
    (r : result snapshot) :
  get_system_data w cfg s = (r, s') ->
  exists evs,
    s' = log_all evs s
    /\ evs `prefix_of` snapshot_calls cfg
    /\ (forall snap, r = Ret snap -> evs = snapshot_calls cfg)
    /\ (metric_read_failed w -> evs `prefix_of` metric_calls).
Proof.
  rewrite get_system_data_run.
  destruct (sample_metrics w s) as [[m|e] s1] eqn:Hm.
  - destruct (sample_metrics_calls _ _ _ _ Hm) as (evs & -> & _ & Hall).
    rewrite (Hall m eq_refl). clear Hall.
    assert (Hok : ~ metric_read_failed w).
    { intros Hf. destruct (sample_metrics_failure w s Hf) as (e & s0 & He).
      congruence. }
    rewrite log_all_log_all.
    destruct (get_top_processes w _) as [[top|e] s2] eqn:Ht;
      apply get_top_processes_state in Ht as ->; intros [= <- <-].
    + exists (snapshot_calls cfg). split.
      * unfold snapshot_calls, log, log_all. cbn [trace login_attempts].
        rewrite <- !app_assoc. reflexivity.
      * repeat split; [reflexivity | tauto].
    + exists (metric_calls ++ map systemctl_call (SERVICES cfg)
              ++ [PsutilCall "process_iter"])%list. split.
      * unfold log, log_all. cbn [trace login_attempts].
        rewrite <- !app_assoc. reflexivity.
      * repeat split; [|discriminate | tauto].
        exists [DatetimeNow]. unfold snapshot_calls.
        rewrite <- !app_assoc. reflexivity.
  - destruct (sample_metrics_calls _ _ _ _ Hm) as (evs & -> & Hpre & _).
    intros [= <- <-]. exists evs. repeat split; [|discriminate|auto].
    unfold snapshot_calls. apply prefix_app_r, Hpre.
Qed.

(** A snapshot costs exactly these calls, in this order: the eight readings
    of host metrics, one [systemctl status] per entry of [SERVICES] in the
    order of [SERVICES], the enumeration of processes and the clock for the
    timestamp.  The counters of failed logins are not touched. *)
Theorem get_system_data_call_sequence (w : world) (cfg : config) (s s' : state)
    (snap : snapshot) :
  get_system_data w cfg s = (Ret snap, s') ->
  trace s' = (trace s ++ snapshot_calls cfg)%list
  /\ login_attempts s' = login_attempts s.
Proof.
  intros Hrun.
  destruct (get_system_data_calls _ _ _ _ _ Hrun) as (evs & -> & _ & Hall & _).
  rewrite (Hall snap eq_refl). split; reflexivity.
Qed.

Lemma get_system_data_call_sequence_witness :
  exists snap s',
    get_system_data sample_world DEFAULT_CONFIG initial_state = (Ret snap, s')
    /\ trace s' = (trace initial_state ++ snapshot_calls DEFAULT_CONFIG)%list
    /\ login_attempts s' = login_attempts initial_state.
Proof.
  destruct (get_system_data sample_world DEFAULT_CONFIG initial_state)
    as [[snap|e] s'] eqn:Hrun.
  - exists snap, s'. split; [reflexivity|].
    apply (get_system_data_call_sequence sample_world DEFAULT_CONFIG
             initial_state s' snap Hrun).
  - vm_compute in Hrun. discriminate.
Defined.

(** When a reading of host metrics fails, [get_system_data] stops there:
    the calls made are a prefix of the metric readings, and no subprocess
    is started (no service is queried). *)
Theorem get_system_data_stops_at_failed_reading (w : world) (cfg : config)
    (s : state) :
  metric_read_failed w ->
  exists evs,
    (get_system_data w cfg s).2 = log_all evs s
    /\ evs `prefix_of` metric_calls
    /\ Forall (fun ev => ~ is_subprocess_run ev) evs.
Proof.
  intros Hfail.
  destruct (get_system_data w cfg s) as [r s'] eqn:Hrun.
  destruct (get_system_data_calls _ _ _ _ _ Hrun) as (evs & -> & _ & _ & Hpre).
  exists evs. specialize (Hpre Hfail). repeat split; [exact Hpre|].
  destruct Hpre as [rest Hrest].
  assert (Hall : Forall (fun ev => ~ is_subprocess_run ev) metric_calls)
    by (repeat constructor; intros []).
  rewrite Hrest in Hall. apply Forall_app in Hall as [Hevs _]. exact Hevs.
Qed.

Lemma get_system_data_stops_at_failed_reading_witness :
  exists evs,
    (get_system_data broken_disk_world DEFAULT_CONFIG initial_state).2
    = log_all evs initial_state
    /\ evs `prefix_of` metric_calls
    /\ Forall (fun ev => ~ is_subprocess_run ev) evs.
Proof.
  apply (get_system_data_stops_at_failed_reading broken_disk_world
           DEFAULT_CONFIG initial_state).
  unfold metric_read_failed. do 4 right. left.
  exists (Exn OSError "[Errno 5] Input/output error: '/'"). reflexivity.
Defined.

(** Without accepted credentials the view behind [requires_auth] is not
    run: the response is [authenticate] whatever the view is, the only call
    that can be made is the three-second delay, and a request that carries
    no credentials at all changes nothing, not even a counter. *)
Theorem requires_auth_guards_the_view (cfg : config)
    (f g : request -> M response) (req : request) (s : state) :
  rejected cfg req ->
  requires_auth cfg f req s = requires_auth cfg g req s
  /\ (requires_auth cfg f req s).1 = Ret authenticate
  /\ (trace (requires_auth cfg f req s).2 = trace s
      \/ trace (requires_auth cfg f req s).2 = (trace s ++ [TimeSleep 3])%list)
  /\ (authorization req = None -> (requires_auth cfg f req s).2 = s).
Proof.
  unfold rejected, requires_auth.
  destruct (authorization req) as [[username password]|].
  - intros Hrej. rewrite !run_bind, check_auth_run, (rejected_eqb _ _ _ Hrej).
    repeat split; [|discriminate]. cbn [snd trace].
    destruct (5 <? attempts s (remote_addr req));
      [right; reflexivity | left; apply app_nil_r].
  - intros _. repeat split. left. reflexivity.
Qed.

Lemma requires_auth_guards_the_view_witness :
  requires_auth DEFAULT_CONFIG (api_logs sample_world DEFAULT_CONFIG "nginx")
                intruder_request initial_state
  = requires_auth DEFAULT_CONFIG index intruder_request initial_state
  /\ (requires_auth DEFAULT_CONFIG (api_logs sample_world DEFAULT_CONFIG "nginx")
                    intruder_request initial_state).1 = Ret authenticate
  /\ (trace (requires_auth DEFAULT_CONFIG
               (api_logs sample_world DEFAULT_CONFIG "nginx")
               intruder_request initial_state).2 = trace initial_state
      \/ trace (requires_auth DEFAULT_CONFIG
                  (api_logs sample_world DEFAULT_CONFIG "nginx")
                  intruder_request initial_state).2
         = (trace initial_state ++ [TimeSleep 3])%list)
  /\ (authorization intruder_request = None ->
      (requires_auth DEFAULT_CONFIG (api_logs sample_world DEFAULT_CONFIG "nginx")
                     intruder_request initial_state).2 = initial_state).
Proof.
  apply (requires_auth_guards_the_view DEFAULT_CONFIG
           (api_logs sample_world DEFAULT_CONFIG "nginx") index
           intruder_request initial_state).
  intros [_ H]. discriminate H.
Defined.

Lemma check_auth_counters_nonneg (cfg : config) (req : request)
    (username password : string) (s : state) :
  counters_nonneg s ->
  counters_nonneg (check_auth cfg req username password s).2.
Proof.
  intros Hs. rewrite check_auth_run. intros ip n. cbn [snd login_attempts].
  destruct (decide (remote_addr req = ip)) as [->|Hne].
  - rewrite lookup_insert_eq. intros [= <-].
    destruct (_ && _); [lia|]. unfold attempts.
    destruct (login_attempts s !! ip) as [c|] eqn:Hc; cbn; [|lia].
    specialize (Hs ip c Hc). lia.
  - rewrite lookup_insert_ne by exact Hne. apply Hs.
Qed.

Lemma requires_auth_counters_nonneg (cfg : config) (f : request -> M response)
    (req : request) (s : state) :
  (forall s0, login_attempts (f req s0).2 = login_attempts s0) ->
  counters_nonneg s -> counters_nonneg (requires_auth cfg f req s).2.
Proof.
  intros Hf Hs. unfold requires_auth.
  destruct (authorization req) as [[username password]|]; [|exact Hs].
  rewrite run_bind.
  pose proof (check_auth_counters_nonneg cfg req username password s Hs) as H1.
  destruct (check_auth cfg req username password s) as [[[|]|e] s1];
    cbn [snd] in *; try exact H1.
  intros ip n. rewrite Hf. apply H1.
Qed.

(** Every route keeps the counters of failed logins non-negative; the views
    themselves never write to [login_attempts]. *)
Theorem routes_keep_counters_nonneg (w : world) (cfg : config) (name : string)
    (req : request) (s : state) :
  counters_nonneg s ->
  counters_nonneg (route_index cfg req s).2
  /\ counters_nonneg (route_api_data w cfg req s).2
  /\ counters_nonneg (route_api_logs w cfg name req s).2.
Proof.
  intros Hs. repeat split; apply requires_auth_counters_nonneg; try exact Hs.
  - reflexivity.
  - intros s0. unfold api_data. rewrite run_bind.
    destruct (get_system_data w cfg s0) as [r s1] eqn:Hrun.
    destruct (get_system_data_calls _ _ _ _ _ Hrun) as (evs & -> & _).
    destruct r; reflexivity.
  - intros s0. rewrite api_logs_run. reflexivity.
Qed.

Lemma routes_keep_counters_nonneg_witness :
  counters_nonneg (route_index DEFAULT_CONFIG intruder_request initial_state).2
  /\ counters_nonneg
       (route_api_data sample_world DEFAULT_CONFIG intruder_request
                       initial_state).2
  /\ counters_nonneg
       (route_api_logs sample_world DEFAULT_CONFIG "nginx" intruder_request
                       initial_state).2.
Proof.
  apply (routes_keep_counters_nonneg sample_world DEFAULT_CONFIG "nginx"
           intruder_request initial_state).
  intros ip n H. vm_compute in H. discriminate H.
Defined.

(** For a service of [SERVICES] the logs view never fails: it answers with
    the name and the output of [journalctl -u name -n lines --no-pager]
    (100 lines unless the request says otherwise), or, when that call
    raises, with the text [Error fetching logs: ] followed by the error. *)
Theorem api_logs_serves_allowed_service (w : world) (cfg : config)
    (name : string) (req : request) (s : state) :
  name ∈ SERVICES cfg ->
  exists logs,
    api_logs w cfg name req s
    = (Ret (JsonDict {[ "service" := name; "logs" := logs ]}),
       log (journalctl_call name (default 100 (args_lines req))) s)
    /\ match subprocess_run w (trace s)
               ["journalctl"; "-u"; name; "-n";
                PyStr.of_int (default 100 (args_lines req)); "--no-pager"] 5 with
       | Ret output => logs = output
       | Raise e => logs = "Error fetching logs: " +:+ exn_str e
       end.
Proof.
  intros Hname. rewrite api_logs_run, (bool_decide_eq_true_2 _ Hname).
  eexists. split; [reflexivity|]. unfold logs_of.
  destruct (subprocess_run w _ _ 5); reflexivity.
Qed.

Lemma api_logs_serves_allowed_service_witness :
  exists logs,
    api_logs unresponsive_world DEFAULT_CONFIG "nginx" operator_request
             initial_state
    = (Ret (JsonDict {[ "service" := "nginx"; "logs" := logs ]}),
       log (journalctl_call "nginx" (default 100 (args_lines operator_request)))
           initial_state)
    /\ match subprocess_run unresponsive_world (trace initial_state)
               ["journalctl"; "-u"; "nginx"; "-n";
                PyStr.of_int (default 100 (args_lines operator_request));
                "--no-pager"] 5 with
       | Ret output => logs = output
       | Raise e => logs = "Error fetching logs: " +:+ exn_str e
       end.
Proof.
  apply (api_logs_serves_allowed_service unresponsive_world DEFAULT_CONFIG
           "nginx" operator_request initial_state).
  apply (bool_decide_unpack _). vm_compute. exact I.
Defined.

(** ** More on [format_bytes] *)

Section BytesMore.

Local Open Scope Q_scope.

Lemma pow1024_pos (i : nat) : (0 < 1024 ^ Z.of_nat i)%Z.
Proof. apply Z.pow_pos_nonneg; lia. Qed.

(** The magnitude of an integer byte count against 1024, in integers. *)
Lemma magnitude_ge_iff (n : Z) (i : nat) :
  1024 <= magnitude (inject_Z n) i <-> (1024 ^ Z.of_nat (S i) <= n)%Z.
Proof.
  unfold magnitude. pose proof (pow1024_pos i) as Hp.
  set (P := (1024 ^ Z.of_nat i)%Z) in *.
  replace (1024 ^ Z.of_nat (S i))%Z with (1024 * P)%Z
    by (unfold P; rewrite Nat2Z.inj_succ, Z.pow_succ_r by lia; reflexivity).
  assert (HP : 0 < inject_Z P).
  { change 0 with (inject_Z 0). rewrite <- Zlt_Qlt. exact Hp. }
  rewrite Zle_Qle, inject_Z_mult. change (inject_Z 1024) with 1024.
  rewrite <- (Qmult_le_r _ _ (inject_Z P) HP).
  assert (E : inject_Z n / inject_Z P * inject_Z P == inject_Z n)
    by (field; lra).
  rewrite E. reflexivity.
Qed.

Lemma magnitude_lt_iff (n : Z) (i : nat) :
  magnitude (inject_Z n) i < 1024 <-> (n < 1024 ^ Z.of_nat (S i))%Z.
Proof.
  pose proof (magnitude_ge_iff n i) as H.
  split; intros Hlt.
  - apply Z.nle_gt. intros Hge. apply H in Hge.
    exact (Qlt_not_le _ _ Hlt Hge).
  - apply Qnot_le_lt. intros Hge. apply H in Hge. lia.
Qed.

(** The unit of a byte count below 2^53, by the range it lies in. *)
Lemma format_bytes_unit_at (n : Z) (j : nat) :
  (0 <= n < 2 ^ 53)%Z -> (j <= 5)%nat ->
  (j = 0%nat \/ (1024 ^ Z.of_nat j <= n)%Z) ->
  (j = 5%nat \/ (n < 1024 ^ Z.of_nat (S j))%Z) ->
  format_bytes n
  = Ret (PyFloat.format_f 1 (magnitude (inject_Z n) j) +:+ nth j byte_units "").
Proof.
  intros Hn Hj Hlow Hhigh. unfold format_bytes.
  rewrite float_of_int_exact by lia.
  destruct (Z.ltb_spec n 1024) as [Hlt|Hge].
  - assert (j = 0%nat) as ->.
    { destruct Hlow as [|Hlow]; [assumption|].
      destruct j as [|j]; [reflexivity|].
      assert (1024 ^ 1 <= 1024 ^ Z.of_nat (S j))%Z
        by (apply Z.pow_le_mono_r; lia). lia. }
    rewrite (format_f_comp 1 _ _ (magnitude_0 (inject_Z n))). reflexivity.
  - destruct (format_bytes_loop_spec ["KB"; "MB"; "GB"; "TB"] (inject_Z n / 1024))
      as (k & Hk & -> & Hbefore & Hat).
    cbn [length] in Hk, Hat.
    assert (S k = j) as <-.
    { destruct (Nat.lt_trichotomy (S k) j) as [Hlt|[Heq|Hgt]]; [|exact Heq|].
      - exfalso. assert (Hk4 : (k < 4)%nat) by lia.
        specialize (Hat Hk4). rewrite <- magnitude_S in Hat.
        apply magnitude_lt_iff in Hat.
        destruct Hlow as [->|Hlow]; [lia|].
        assert (1024 ^ Z.of_nat (S (S k)) <= 1024 ^ Z.of_nat j)%Z
          by (apply Z.pow_le_mono_r; lia). lia.
      - exfalso. destruct Hhigh as [->|Hhigh]; [lia|].
        destruct j as [|j].
        + change (1024 ^ Z.of_nat 1)%Z with 1024%Z in Hhigh. lia.
        + assert (Hjk : (j < k)%nat) by lia.
          specialize (Hbefore j Hjk). rewrite <- magnitude_S in Hbefore.
          apply magnitude_ge_iff in Hbefore. lia. }
    rewrite (format_f_comp 1 _ _ (magnitude_S (inject_Z n) k)). reflexivity.
Qed.

(** For a byte count below 2^53 the unit is decided by the range the count
    lies in: [B] below 1024, the unit number [j] from [1024^j] up to
    [1024^(j+1)], and [PB] from [1024^5] on; the number printed is the count
    divided by [1024^j]. *)
Theorem format_bytes_by_range (n : Z) (j : nat) :
  (0 <= n < 2 ^ 53)%Z -> (j <= 5)%nat ->
  (j = 0%nat \/ (1024 ^ Z.of_nat j <= n)%Z) ->
  (j = 5%nat \/ (n < 1024 ^ Z.of_nat (S j))%Z) ->
  format_bytes n
  = Ret (PyFloat.format_f 1 (inject_Z n / inject_Z (1024 ^ Z.of_nat j))
         +:+ nth j byte_units "").
Proof. apply format_bytes_unit_at. Qed.

Lemma format_bytes_by_range_witness :
  format_bytes 5000000
  = Ret (PyFloat.format_f 1 (inject_Z 5000000 / inject_Z (1024 ^ Z.of_nat 2))
         +:+ nth 2 byte_units "").
Proof.
  apply (format_bytes_by_range 5000000 2);
    [lia | lia | right; vm_compute; discriminate
     | right; vm_compute; reflexivity].
Defined.

Lemma scaled_1_Z (n : Z) : PyFloat.scaled 1 (inject_Z n) = (n * 10)%Z.
Proof.
  unfold PyFloat.scaled. change (10 ^ Z.of_nat 1)%Z with 10%Z.
  rewrite <- (round_half_even_Z (n * 10)). apply round_half_even_comp.
  rewrite inject_Z_mult. reflexivity.
Qed.

(** A whole number prints with [.0]. *)
Lemma format_f_1_integer (n : Z) :
  PyFloat.format_f 1 (inject_Z n)
  = (if (n <? 0)%Z then "-" else "") +:+ PyStr.of_N (Z.to_N (Z.abs n)) +:+ ".0".
Proof.
  unfold PyFloat.format_f. rewrite scaled_1_Z.
  change (10 ^ Z.of_nat 1)%Z with 10%Z.
  rewrite Z.abs_mul. change (Z.abs 10) with 10%Z.
  rewrite Z.div_mul, Z.mod_mul by lia.
  change (PyStr.zfill 1 (PyStr.of_N (Z.to_N 0))) with "0".
  destruct (Qlt_le_dec (inject_Z n) 0) as [Hq|Hq], (Z.ltb_spec n 0) as [Hz|Hz];
    try reflexivity; exfalso.
  - change 0 with (inject_Z 0) in Hq. rewrite <- Zlt_Qlt in Hq. lia.
  - change 0 with (inject_Z 0) in Hq. rewrite <- Zle_Qle in Hq. lia.
Qed.

(** From 1023.95 up to 1024 the number printed is [1024.0]. *)
Lemma format_f_1_just_below_1024 (x : Q) :
  20479 # 20 <= x -> x < 1024 -> PyFloat.format_f 1 x = "1024.0".
Proof.
  intros Hlow Hhigh.
  assert (Hs : PyFloat.scaled 1 x = 10240%Z).
  { unfold PyFloat.scaled, PyFloat.round_half_even.
    change (inject_Z (10 ^ Z.of_nat 1)) with 10.
    assert (Hf : Qfloor (x * 10) = 10239%Z).
    { apply Qfloor_unique; change (inject_Z 10239) with 10239; lra. }
    rewrite Hf. change (inject_Z 10239) with 10239.
    destruct (Qcompare (x * 10 - 10239) (1 # 2)) eqn:Hc; try reflexivity.
    apply Qlt_alt in Hc. exfalso. lra. }
  unfold PyFloat.format_f. rewrite Hs.
  destruct (Qlt_le_dec x 0); [exfalso; lra | reflexivity].
Qed.

(** Whole multiples of a unit: [k * 1024^j] bytes print as [k.0] and the
    unit number [j], for [k] below 1024 and the units up to [TB]; in
    particular a count below 1024 prints as itself with [.0B]. *)
Theorem format_bytes_whole_units (k : Z) (j : nat) :
  (j <= 4)%nat -> (0 <= k < 1024)%Z -> (j = 0%nat \/ (1 <= k)%Z) ->
  format_bytes (k * 1024 ^ Z.of_nat j)
  = Ret (PyStr.of_N (Z.to_N k) +:+ ".0" +:+ nth j byte_units "").
Proof.
  intros Hj Hk Hk1. pose proof (pow1024_pos j) as Hp.
  assert (Hp5 : (1024 ^ Z.of_nat j <= 1024 ^ 4)%Z)
    by (apply Z.pow_le_mono_r; lia).
  assert (HS : (1024 ^ Z.of_nat (S j) = 1024 * 1024 ^ Z.of_nat j)%Z)
    by (rewrite Nat2Z.inj_succ, Z.pow_succ_r by lia; reflexivity).
  rewrite (format_bytes_unit_at (k * 1024 ^ Z.of_nat j) j);
    [| nia | lia | destruct Hk1; [left; assumption | right; nia]
     | right; rewrite HS; nia].
  assert (E : magnitude (inject_Z (k * 1024 ^ Z.of_nat j)) j == inject_Z k).
  { unfold magnitude. rewrite inject_Z_mult. rewrite Zlt_Qlt in Hp.
    change (inject_Z 0) with 0 in Hp. field. lra. }
  rewrite (format_f_comp 1 _ _ E), format_f_1_integer.
  destruct (Z.ltb_spec k 0); [lia|].
  rewrite Z.abs_eq, append_empty_l, append_assoc by lia. reflexivity.
Qed.

Lemma format_bytes_whole_units_witness :
  format_bytes (512 * 1024 ^ Z.of_nat 3)
  = Ret (PyStr.of_N (Z.to_N 512) +:+ ".0" +:+ nth 3 byte_units "").
Proof.
  apply (format_bytes_whole_units 512 3); [lia | lia | right; lia].
Defined.

(** Rounding can print 1024 of a unit: a count from 1023.95 units up to
    the next unit prints as [1024.0] of the smaller unit, not as [1.0] of
    the larger one. *)
Theorem format_bytes_prints_1024 (n : Z) (j : nat) :
  (j <= 4)%nat ->
  (20479 * 1024 ^ Z.of_nat j <= 20 * n)%Z ->
  (n < 1024 ^ Z.of_nat (S j))%Z ->
  format_bytes n = Ret ("1024.0" +:+ nth j byte_units "").
Proof.
  intros Hj Hlow Hhigh. pose proof (pow1024_pos j) as Hp.
  assert (Hp5 : (1024 ^ Z.of_nat (S j) <= 1024 ^ 5)%Z)
    by (apply Z.pow_le_mono_r; lia).
  rewrite (format_bytes_unit_at n j);
    [| change (1024 ^ 5)%Z with (2 ^ 50)%Z in Hp5; lia | lia
     | right; lia | right; exact Hhigh].
  rewrite format_f_1_just_below_1024; [reflexivity | | ].
  - unfold magnitude. rewrite Zlt_Qlt in Hp. change (inject_Z 0) with 0 in Hp.
    apply Qle_shift_div_l; [exact Hp|].
    rewrite Zle_Qle, !inject_Z_mult in Hlow.
    change (inject_Z 20479) with 20479 in Hlow.
    change (inject_Z 20) with 20 in Hlow.
    lra.
  - apply magnitude_lt_iff. exact Hhigh.
Qed.

Lemma format_bytes_prints_1024_witness :
  format_bytes (1024 ^ 2 - 1) = Ret ("1024.0" +:+ nth 1 byte_units "").
Proof.
  apply (format_bytes_prints_1024 (1024 ^ 2 - 1) 1);
    [lia | vm_compute; discriminate | vm_compute; reflexivity].
Defined.

(** A negative count is never scaled: it prints in [B] with its sign. *)
Theorem format_bytes_negative (n : Z) :
  (- 2 ^ 53 < n < 0)%Z ->
  format_bytes n = Ret ("-" +:+ PyStr.of_N (Z.to_N (- n)) +:+ ".0B").
Proof.
  intros Hn. unfold format_bytes. rewrite float_of_int_exact by lia.
  destruct (Z.ltb_spec n 1024); [|lia].
  rewrite format_f_1_integer. destruct (Z.ltb_spec n 0); [|lia].
  rewrite Z.abs_neq by lia. rewrite !append_assoc. reflexivity.
Qed.

Lemma format_bytes_negative_witness :
  format_bytes (-5000) = Ret ("-" +:+ PyStr.of_N (Z.to_N (- -5000)) +:+ ".0B").
Proof. apply (format_bytes_negative (-5000)). lia. Defined.

End BytesMore.

(** ** [format_bytes]: counts beyond the range of a float *)

Section BytesRange.

Local Open Scope Z_scope.

(** The rounding to 53 bits never falls below a power of two that the
    integer has reached. *)
Lemma round_to_binary64_abs_ge (n k : Z) :
  53 <= k -> 2 ^ k <= Z.abs n -> 2 ^ k <= Z.abs (PyFloat.round_to_binary64 n).
Proof.
  intros Hk Hn. unfold PyFloat.round_to_binary64.
  assert (Hpos : 0 < 2 ^ k) by (apply Z.pow_pos_nonneg; lia).
  assert (Hlog : k <= Z.log2 (Z.abs n)) by (apply Z.log2_le_pow2; lia).
  destruct (Z.leb_spec (Z.log2 (Z.abs n) + 1 - 53) 0) as [|Hsh]; [lia|].
  set (a := Z.abs n) in *.
  set (sh := Z.log2 a + 1 - 53) in *.
  rewrite Z.shiftr_div_pow2, Z.shiftl_mul_pow2 by lia.
  assert (Hq : 2 ^ 52 <= a / 2 ^ sh).
  { apply Z.div_le_lower_bound; [apply Z.pow_pos_nonneg; lia|].
    rewrite Z.mul_comm, <- Z.pow_add_r by lia.
    replace (52 + sh) with (Z.log2 a) by lia.
    apply Z.log2_spec. lia. }
  set (q' := if (_ || _)%bool then _ else _).
  assert (Hq' : 2 ^ 52 <= q') by (subst q'; destruct (_ || _); lia).
  assert (Hpow : 2 ^ (k - 52) <= 2 ^ sh) by (apply Z.pow_le_mono_r; lia).
  assert (Hsplit : 2 ^ k = 2 ^ 52 * 2 ^ (k - 52))
    by (rewrite <- Z.pow_add_r by lia; f_equal; lia).
  assert (0 < 2 ^ (k - 52)) by (apply Z.pow_pos_nonneg; lia).
  assert (Hprod : 2 ^ k <= q' * 2 ^ sh)
    by (rewrite Hsplit; apply Z.mul_le_mono_nonneg; lia).
  assert (Hs : Z.abs (Z.sgn n) = 1) by (subst a; lia).
  rewrite Z.abs_mul, Hs, Z.mul_1_l, Z.abs_eq by lia. exact Hprod.
Qed.

(** Nor does it pass the next power of two. *)
Lemma round_to_binary64_abs_le (n : Z) :
  Z.abs (PyFloat.round_to_binary64 n) <= 2 ^ (Z.log2 (Z.abs n) + 1).
Proof.
  unfold PyFloat.round_to_binary64.
  pose proof (Z.log2_nonneg (Z.abs n)) as Hlog.
  assert (Hlt : Z.abs n < 2 ^ (Z.log2 (Z.abs n) + 1)).
  { destruct (Z.eq_dec (Z.abs n) 0) as [->|].
    - reflexivity.
    - pose proof (Z.log2_spec (Z.abs n) ltac:(lia)) as [_ H].
      rewrite <- Z.add_1_r in H. exact H. }
  destruct (Z.leb_spec (Z.log2 (Z.abs n) + 1 - 53) 0) as [|Hsh]; [lia|].
  set (a := Z.abs n) in *.
  set (sh := Z.log2 a + 1 - 53) in *.
  rewrite Z.shiftr_div_pow2, Z.shiftl_mul_pow2 by lia.
  assert (Hpsh : 0 < 2 ^ sh) by (apply Z.pow_pos_nonneg; lia).
  assert (Hq0 : 0 <= a / 2 ^ sh) by (apply Z.div_pos; lia).
  assert (Hq : a / 2 ^ sh < 2 ^ 53).
  { apply Z.div_lt_upper_bound; [lia|].
    rewrite <- Z.pow_add_r by lia.
    replace (sh + 53) with (Z.log2 a + 1) by lia. exact Hlt. }
  set (q' := if (_ || _)%bool then _ else _).
  assert (Hq' : 0 <= q' <= 2 ^ 53) by (subst q'; destruct (_ || _); lia).
  replace (Z.log2 a + 1) with (53 + sh) by lia.
  rewrite Z.pow_add_r by lia.
  rewrite Z.abs_mul, (Z.abs_eq (q' * _)) by nia.
  assert (Hs : Z.abs (Z.sgn n) <= 1) by lia.
  assert (q' * 2 ^ sh <= 2 ^ 53 * 2 ^ sh) by (apply Z.mul_le_mono_nonneg_r; lia).
  assert (0 <= q' * 2 ^ sh) by nia.
  generalize dependent (q' * 2 ^ sh). generalize dependent (2 ^ 53 * 2 ^ sh).
  intros. nia.
Qed.

(** An integer of 1024 bits or more has no float: [format_bytes] raises the
    [OverflowError] of the conversion, whatever the sign. *)
Theorem format_bytes_overflows (n : Z) :
  2 ^ 1024 <= Z.abs n ->
  format_bytes n
  = Raise (Exn OverflowError "int too large to convert to float").
Proof.
  intros Hn. unfold format_bytes, float_of_int.
  pose proof (round_to_binary64_abs_ge n 1024 ltac:(lia) Hn).
  destruct (Z.ltb_spec (Z.abs (PyFloat.round_to_binary64 n)) (2 ^ 1024));
    [lia | reflexivity].
Qed.

Lemma format_bytes_overflows_witness :
  format_bytes (2 ^ 1024)
  = Raise (Exn OverflowError "int too large to convert to float").
Proof. apply (format_bytes_overflows (2 ^ 1024)). vm_compute. discriminate. Defined.

Lemma format_bytes_in_range (n : Z) :
  Z.abs n < 2 ^ 1023 -> exists text, format_bytes n = Ret text.
Proof.
  intros Hn. unfold format_bytes, float_of_int.
  pose proof (round_to_binary64_abs_le n) as Hle.
  assert (Hlog : Z.log2 (Z.abs n) + 1 <= 1023).
  { destruct (Z.eq_dec (Z.abs n) 0) as [->|]; [cbn; lia|].
    assert (Z.log2 (Z.abs n) < 1023) by (apply Z.log2_lt_pow2; lia). lia. }
  assert (Hp : 2 ^ (Z.log2 (Z.abs n) + 1) <= 2 ^ 1023)
    by (apply Z.pow_le_mono_r; lia).
  assert (Hp' : 2 ^ 1023 < 2 ^ 1024) by (apply Z.pow_lt_mono_r; lia).
  destruct (Z.ltb_spec (Z.abs (PyFloat.round_to_binary64 n)) (2 ^ 1024)); [|lia].
  destruct (n <? 1024); eexists; reflexivity.
Qed.

(** Below 2^1023 in absolute value the conversion succeeds and
    [format_bytes] returns a text. *)
Theorem format_bytes_returns (n : Z) :
  Z.abs n < 2 ^ 1023 -> exists text, format_bytes n = Ret text.
Proof. apply format_bytes_in_range. Qed.

Lemma format_bytes_returns_witness :
  exists text, format_bytes (2 ^ 80) = Ret text.
Proof. apply (format_bytes_returns (2 ^ 80)). vm_compute. reflexivity. Defined.

End BytesRange.

(** ** [format_uptime]: the text is fixed by the minute the argument lies in *)

Section UptimeMore.

Local Open Scope Q_scope.

Lemma Qfloor_div_unique (x : Q) (y z : Z) :
  (0 < y)%Z ->
  inject_Z z * inject_Z y <= x -> x < inject_Z z * inject_Z y + inject_Z y ->
  Qfloor (x / inject_Z y) = z.
Proof.
  intros Hy Hle Hlt. rewrite Zlt_Qlt in Hy. change (inject_Z 0) with 0 in Hy.
  apply Qfloor_unique.
  - apply Qle_shift_div_l; assumption.
  - apply Qlt_shift_div_r; [assumption|].
    assert (E : (inject_Z z + 1) * inject_Z y
                == inject_Z z * inject_Z y + inject_Z y) by ring.
    rewrite E. exact Hlt.
Qed.

(** Up to 2^53 seconds, any number of seconds within the minute [m] of the
    hour [h] of the day [d] prints as [d], [h] and [m]: the text is fixed by
    the minute the argument lies in. *)
Theorem format_uptime_of_parts (seconds : Q) (d h m : Z) :
  (0 <= d)%Z -> (0 <= h < 24)%Z -> (0 <= m < 60)%Z ->
  inject_Z (86400 * d + 3600 * h + 60 * m) <= seconds ->
  seconds < inject_Z (86400 * d + 3600 * h + 60 * m + 60) ->
  seconds < inject_Z (2 ^ 53) ->
  format_uptime seconds
  = PyStr.of_int d +:+ "d " +:+ PyStr.of_int h +:+ "h "
    +:+ PyStr.of_int m +:+ "m".
Proof.
  intros Hd Hh Hm Hlow Hhigh Hrange.
  repeat first [ rewrite inject_Z_plus in Hlow | rewrite inject_Z_mult in Hlow ].
  repeat first [ rewrite inject_Z_plus in Hhigh | rewrite inject_Z_mult in Hhigh ].
  change (inject_Z 86400) with 86400 in Hlow, Hhigh.
  change (inject_Z 3600) with 3600 in Hlow, Hhigh.
  change (inject_Z 60) with 60 in Hlow, Hhigh.
  assert (Hd0 : 0 <= inject_Z d)
    by (change 0 with (inject_Z 0); rewrite <- Zle_Qle; lia).
  assert (Hh0 : 0 <= inject_Z h)
    by (change 0 with (inject_Z 0); rewrite <- Zle_Qle; lia).
  assert (Hh1 : inject_Z h <= 23)
    by (change 23 with (inject_Z 23); rewrite <- Zle_Qle; lia).
  assert (Hm0 : 0 <= inject_Z m)
    by (change 0 with (inject_Z 0); rewrite <- Zle_Qle; lia).
  assert (Hm1 : inject_Z m <= 59)
    by (change 59 with (inject_Z 59); rewrite <- Zle_Qle; lia).
  assert (Ed : Qfloor (seconds / 86400) = d).
  { apply (Qfloor_div_unique seconds 86400 d); [reflexivity| |];
      change (inject_Z 86400) with 86400; lra. }
  assert (Ek : Qfloor (seconds / 3600) = (24 * d + h)%Z).
  { apply (Qfloor_div_unique seconds 3600 (24 * d + h)); [reflexivity| |];
      rewrite inject_Z_plus, inject_Z_mult;
      change (inject_Z 3600) with 3600; change (inject_Z 24) with 24; lra. }
  rewrite format_uptime_exact by lra.
  rewrite Ed, Ek.
  assert (Eh : Qfloor ((seconds - 86400 * inject_Z d) / 3600) = h).
  { apply (Qfloor_div_unique _ 3600 h); [reflexivity| |];
      change (inject_Z 3600) with 3600; lra. }
  assert (Em : Qfloor ((seconds - 3600 * inject_Z (24 * d + h)) / 60) = m).
  { apply (Qfloor_div_unique _ 60 m); [reflexivity| |];
      rewrite inject_Z_plus, inject_Z_mult;
      change (inject_Z 60) with 60; change (inject_Z 24) with 24; lra. }
  rewrite Eh, Em. reflexivity.
Qed.

Lemma format_uptime_of_parts_witness :
  format_uptime (4142522435566043 # 33554432)
  = PyStr.of_int 1428 +:+ "d " +:+ PyStr.of_int 21 +:+ "h "
    +:+ PyStr.of_int 33 +:+ "m".
Proof.
  apply (format_uptime_of_parts (4142522435566043 # 33554432) 1428 21 33);
    [lia | lia | lia | vm_compute; discriminate | vm_compute; reflexivity
     | vm_compute; reflexivity].
Defined.

End UptimeMore.

(** ** The process table: unexpected exceptions and ties *)

Lemma collect_processes_raises (pre post : list process) (p : process)
    (e : exn) (acc : list proc_entry) (s : state) :
  Forall readable_or_gone pre ->
  try_body p = Raise e ->
  exn_cls e <> NoSuchProcess -> exn_cls e <> AccessDenied ->
  collect_processes acc (pre ++ p :: post) s = (Raise e, s).
Proof.
  intros Hpre Hp Hn Ha. revert acc.
  assert (Hpass : existsb (exn_class_eqb (exn_cls e))
                          [NoSuchProcess; AccessDenied] = false)
    by (destruct (exn_cls e); try reflexivity; congruence).
  induction Hpre as [|q pre Hq _ IH]; intros acc.
  - cbn [app collect_processes]. rewrite run_bind.
    unfold collect_process, try_except_in, try_except, lift.
    rewrite run_bind. unfold try_body in Hp.
    destruct (info p) as [d|e'].
    + rewrite run_bind, Hp, Hpass. reflexivity.
    + injection Hp as ->. rewrite Hpass. reflexivity.
  - cbn [app collect_processes]. rewrite run_bind.
    unfold collect_process, try_except_in, try_except, lift.
    rewrite run_bind. unfold readable_or_gone in Hq.
    destruct (info q) as [d|e'].
    + destruct Hq as [i Hi].
      rewrite run_bind, (read_entry_delivered d i Hi), run_ret. apply IH.
    + replace (existsb (exn_class_eqb (exn_cls e')) [NoSuchProcess; AccessDenied])
        with true by (destruct Hq as [-> | ->]; reflexivity).
      rewrite run_ret. apply IH.
Qed.

(** Only [NoSuchProcess] and [AccessDenied] are passed over in the loop
    over the processes: the first process that raises anything else ends
    [get_top_processes] with that exception, and the entries collected
    before it are dropped. *)
Theorem top_processes_other_exceptions_escape (w : world) (s : state)
    (pre post : list process) (p : process) (e : exn) :
  psutil_process_iter w = Ret (pre ++ p :: post)%list ->
  Forall readable_or_gone pre ->
  info p = Raise e ->
  exn_cls e <> NoSuchProcess -> exn_cls e <> AccessDenied ->
  get_top_processes w s = (Raise e, log (PsutilCall "process_iter") s).
Proof.
  intros Hiter Hpre Hp Hn Ha. unfold get_top_processes.
  rewrite run_bind, run_external, Hiter. cbn beta iota.
  assert (Hbody : try_body p = Raise e) by (unfold try_body; rewrite Hp; reflexivity).
  rewrite run_bind, (collect_processes_raises pre post p e [] _ Hpre Hbody Hn Ha).
  reflexivity.
Qed.

Lemma top_processes_other_exceptions_escape_witness :
  get_top_processes
    (with_processes
       ([readable (process_with_cpu 1 5)]
        ++ {| info := Raise (Exn OSError "[Errno 5] Input/output error") |}
        :: [readable (process_with_cpu 2 7)])%list
       sample_world)
    initial_state
  = (Raise (Exn OSError "[Errno 5] Input/output error"),
     log (PsutilCall "process_iter") initial_state).
Proof.
  apply (top_processes_other_exceptions_escape _ initial_state
           [readable (process_with_cpu 1 5)]
           [readable (process_with_cpu 2 7)]
           {| info := Raise (Exn OSError "[Errno 5] Input/output error") |}
           (Exn OSError "[Errno 5] Input/output error"));
    [reflexivity | apply (readable_all [process_with_cpu 1 5]) | reflexivity
     | discriminate | discriminate].
Defined.

Lemma filter_key_map_snd (k : Q) (l : list (Q * proc_entry)) :
  Forall (fun p => fst p = key_of (snd p)) l ->
  List.filter (fun x => Qeq_bool (key_of x) k) (map snd l)
  = map snd (List.filter (fun y => Qeq_bool (fst y) k) l).
Proof.
  induction 1 as [|p l Hp _ IH]; [reflexivity|].
  cbn [map List.filter]. rewrite <- Hp, IH.
  destruct (Qeq_bool (fst p) k); reflexivity.
Qed.

(** The sort is stable: processes whose sort keys are equal stay in the
    order in which [process_iter] handed them out, for every key. *)
Theorem top_processes_ties_keep_iteration_order (w : world) (s : state)
    (procs : list process) :
  psutil_process_iter w = Ret procs ->
  Forall readable_or_gone procs ->
  exists ranked s',
    get_top_processes w s = (Ret (firstn 10 ranked), s')
    /\ forall k : Q,
         List.filter (fun x => Qeq_bool (key_of x) k) ranked
         = List.filter (fun x => Qeq_bool (key_of x) k)
                       (map entry_of (visible procs)).
Proof.
  intros Hiter Hprocs. rewrite (get_top_processes_run w s procs Hiter Hprocs).
  eexists _, _. split; [reflexivity|]. intros k.
  set (items := map entry_of (visible procs)).
  assert (Hkeys : Forall (fun p : Q * proc_entry => fst p = key_of (snd p))
                         (map keyed items))
    by (apply Forall_fmap, Forall_forall; intros x _; reflexivity).
  rewrite filter_key_map_snd
    by (eapply Permutation_Forall; [symmetry; apply sort_desc_perm | exact Hkeys]).
  rewrite sort_desc_stable, <- filter_key_map_snd by exact Hkeys.
  rewrite map_map. cbn [keyed snd]. rewrite map_id. reflexivity.
Qed.

Lemma top_processes_ties_keep_iteration_order_witness :
  exists ranked s',
    get_top_processes tie_world initial_state = (Ret (firstn 10 ranked), s')
    /\ forall k : Q,
         List.filter (fun x => Qeq_bool (key_of x) k) ranked
         = List.filter (fun x => Qeq_bool (key_of x) k)
             (map entry_of (visible (map readable fifteen_processes))).
Proof.
  apply (top_processes_ties_keep_iteration_order tie_world initial_state
           (map readable fifteen_processes));
    [reflexivity | apply readable_all].
Defined.

(** ** A snapshot when every reading succeeds *)

(** The byte counts [get_system_data] prints. *)
Lemma sample_metrics_run (w : world) (s : state) (cpu : Q) (n : Z)
    (l1 l5 l15 : Q) (mem : svmem) (disk : sdiskusage) (net : snetio) (boot : Q)
    (t1 t2 t3 t4 t5 t6 t7 t8 : string) :
  psutil_cpu_percent w = Ret cpu ->
  psutil_cpu_count w = Ret n ->
  psutil_getloadavg w = Ret (l1, l5, l15) ->
  psutil_virtual_memory w = Ret mem ->
  psutil_disk_usage w "/" = Ret disk ->
  psutil_net_io_counters w = Ret net ->
  psutil_boot_time w = Ret boot ->
  format_bytes (vm_total mem) = Ret t1 ->
  format_bytes (vm_used mem) = Ret t2 ->
  format_bytes (vm_available mem) = Ret t3 ->
  format_bytes (du_total disk) = Ret t4 ->
  format_bytes (du_used disk) = Ret t5 ->
  format_bytes (du_free disk) = Ret t6 ->
  format_bytes (bytes_sent net) = Ret t7 ->
  format_bytes (bytes_recv net) = Ret t8 ->
  exists s1,
    sample_metrics w s
    = (Ret {| m_cpu_percent := cpu;
              m_cpu_count := n;
              m_load_avg :=
                PyStr.join ", " (map (PyFloat.format_f 2) [l1; l5; l15]);
              m_mem_total := t1;
              m_mem_used := t2;
              m_mem_available := t3;
              m_mem_percent := vm_percent mem;
              m_disk_total := t4;
              m_disk_used := t5;
              m_disk_free := t6;
              m_disk_percent := du_percent disk;
              m_net_sent := t7;
              m_net_recv := t8;
              m_uptime := format_uptime (PyFloat.sub (time_time w) boot) |},
       s1).
Proof.
  intros Hcpu Hn Hload Hmem Hdisk Hnet Hboot H1 H2 H3 H4 H5 H6 H7 H8.
  unfold sample_metrics.
  run_next. rewrite Hcpu.
  run_next. rewrite Hn.
  run_next. rewrite Hload.
  run_next. rewrite Hmem.
  run_next. rewrite H1.
  run_next. rewrite H2.
  run_next. rewrite H3.
  run_next. rewrite Hdisk.
  run_next. rewrite H4.
  run_next. rewrite H5.
  run_next. rewrite H6.
  run_next. rewrite Hnet.
  run_next. rewrite H7.
  run_next. rewrite H8.
  run_next.
  run_next. rewrite Hboot.
  eexists. reflexivity.
Qed.

(** The converse of a failed reading: when the eight readings answer, the
    byte counts are within the range of a float and every process can be
    read or has vanished, [get_system_data] returns a snapshot.  Its fields
    are the readings, the byte counts as [format_bytes] prints them, the
    three load averages with two decimals, the time since boot as
    [format_uptime] prints it, one status per entry of [SERVICES] and at
    most ten processes. *)
Theorem get_system_data_returns_snapshot (w : world) (cfg : config) (s : state)
    (cpu : Q) (n : Z) (l1 l5 l15 : Q) (mem : svmem) (disk : sdiskusage)
    (net : snetio) (boot : Q) (procs : list process) :
  psutil_cpu_percent w = Ret cpu ->
  psutil_cpu_count w = Ret n ->
  psutil_getloadavg w = Ret (l1, l5, l15) ->
  psutil_virtual_memory w = Ret mem ->
  psutil_disk_usage w "/" = Ret disk ->
  psutil_net_io_counters w = Ret net ->
  psutil_boot_time w = Ret boot ->
  psutil_process_iter w = Ret procs ->
  Forall (fun b => (Z.abs b < 2 ^ 1023)%Z)
         [vm_total mem; vm_used mem; vm_available mem;
          du_total disk; du_used disk; du_free disk;
          bytes_sent net; bytes_recv net] ->
  Forall readable_or_gone procs ->
  exists snap s',
    get_system_data w cfg s = (Ret snap, s')
    /\ timestamp snap = datetime_now w
    /\ cpu_percent snap = cpu
    /\ cpu_count snap = n
    /\ load_avg snap
       = PyFloat.format_f 2 l1 +:+ ", " +:+ PyFloat.format_f 2 l5 +:+ ", "
         +:+ PyFloat.format_f 2 l15
    /\ map Ret [mem_total snap; mem_used snap; mem_available snap]
       = map format_bytes [vm_total mem; vm_used mem; vm_available mem]
    /\ mem_percent snap = vm_percent mem
    /\ map Ret [disk_total snap; disk_used snap; disk_free snap]
       = map format_bytes [du_total disk; du_used disk; du_free disk]
    /\ disk_percent snap = du_percent disk
    /\ map Ret [net_sent snap; net_recv snap]
       = map format_bytes [bytes_sent net; bytes_recv net]
    /\ uptime snap = format_uptime (PyFloat.sub (time_time w) boot)
    /\ length (services snap) = length (SERVICES cfg)
    /\ length (top_processes snap) = Nat.min 10 (length (visible procs)).
Proof.
  intros Hcpu Hn Hload Hmem Hdisk Hnet Hboot Hiter Hbytes Hprocs.
  repeat match goal with
         | H : Forall _ (_ :: _) |- _ => apply Forall_cons in H as [?Hb H]
         end.
  destruct (format_bytes_in_range _ Hb) as [t1 H1].
  destruct (format_bytes_in_range _ Hb0) as [t2 H2].
  destruct (format_bytes_in_range _ Hb1) as [t3 H3].
  destruct (format_bytes_in_range _ Hb2) as [t4 H4].
  destruct (format_bytes_in_range _ Hb3) as [t5 H5].
  destruct (format_bytes_in_range _ Hb4) as [t6 H6].
  destruct (format_bytes_in_range _ Hb5) as [t7 H7].
  destruct (format_bytes_in_range _ Hb6) as [t8 H8].
  destruct (sample_metrics_run w s cpu n l1 l5 l15 mem disk net boot
              t1 t2 t3 t4 t5 t6 t7 t8) as [s1 Hm]; try assumption.
  rewrite get_system_data_run, Hm, (get_top_processes_run w _ procs Hiter Hprocs).
  eexists _, _. split; [reflexivity|].
  cbn [timestamp cpu_percent cpu_count load_avg mem_total mem_used
       mem_available mem_percent disk_total disk_used disk_free disk_percent
       net_sent net_recv uptime services top_processes
       m_cpu_percent m_cpu_count m_load_avg m_mem_total m_mem_used
       m_mem_available m_mem_percent m_disk_total m_disk_used m_disk_free
       m_disk_percent m_net_sent m_net_recv m_uptime map].
  rewrite H1, H2, H3, H4, H5, H6, H7, H8.
  repeat split.
  - apply service_statuses_length.
  - rewrite length_take, length_map.
    assert (Hperm := sort_desc_perm (map keyed (map entry_of (visible procs)))).
    rewrite (Permutation_length Hperm), !length_map. reflexivity.
Qed.

Lemma get_system_data_returns_snapshot_witness :
  exists snap s',
    get_system_data sample_world DEFAULT_CONFIG initial_state = (Ret snap, s')
    /\ timestamp snap = datetime_now sample_world
    /\ uptime snap
       = format_uptime (PyFloat.sub (time_time sample_world) 1700000000%Q)
    /\ length (top_processes snap)
       = Nat.min 10 (length (visible sample_processes)).
Proof.
  destruct (get_system_data_returns_snapshot sample_world DEFAULT_CONFIG
              initial_state (25 # 2)%Q 4 (1 # 2)%Q (1 # 4)%Q (5 # 100)%Q
              {| vm_total := 8 * 1024 ^ 3; vm_used := 3 * 1024 ^ 3;
                 vm_available := 5 * 1024 ^ 3; vm_percent := (75 # 2)%Q |}
              {| du_total := 1024 ^ 4; du_used := 1536;
                 du_free := 1024 ^ 4 - 1536; du_percent := (1 # 10)%Q |}
              {| bytes_sent := 1024; bytes_recv := 1023 |}
              1700000000%Q sample_processes)
    as (snap & s' & Hrun & Htime & _ & _ & _ & _ & _ & _ & _ & _ & Hup & _ & Htop);
    try reflexivity.
  - repeat (constructor; [vm_compute; reflexivity|]). constructor.
  - repeat (constructor; [cbv; eauto|]). constructor.
  - exists snap, s'. auto.
Defined.

(** ** Requests with accepted credentials *)

(** With accepted credentials the response of a route is that of its view,
    run once the counter of the address is back at zero; the other
    counters are as before, and the only call made ahead of the view is the
    three-second delay of an address with more than five failures. *)
Theorem accepted_request_reaches_the_view (cfg : config)
    (f : request -> M response) (req : request) (s : state)
    (username password : string) :
  authorization req = Some (username, password) ->
  accepted cfg username password ->
  exists s1,
    requires_auth cfg f req s = f req s1
    /\ attempts s1 (remote_addr req) = 0
    /\ (forall ip, ip <> remote_addr req -> attempts s1 ip = attempts s ip)
    /\ trace s1
       = (trace s ++ if 5 <? attempts s (remote_addr req)
                     then [TimeSleep 3] else [])%list.
Proof.
  intros Hauth Hok. unfold requires_auth. rewrite Hauth.
  rewrite run_bind, check_auth_run.
  apply accepted_eqb in Hok. rewrite Hok. cbn beta iota.
  eexists. split; [reflexivity|].
  split; [apply attempts_insert|]. split; [|reflexivity].
  intros ip Hip. unfold attempts. cbn [login_attempts].
  rewrite lookup_insert_ne by congruence. reflexivity.
Qed.

Lemma accepted_request_reaches_the_view_witness :
  exists s1,
    requires_auth operator_config index
      {| remote_addr := "198.51.100.7";
         authorization := Some ("ops", "s3cret");
         args_lines := None |} initial_state
    = index {| remote_addr := "198.51.100.7";
               authorization := Some ("ops", "s3cret");
               args_lines := None |} s1
    /\ attempts s1 "198.51.100.7" = 0.
Proof.
  destruct (accepted_request_reaches_the_view operator_config index
              {| remote_addr := "198.51.100.7";
                 authorization := Some ("ops", "s3cret");
                 args_lines := None |} initial_state
              "ops" "s3cret")
    as (s1 & Hrun & Hzero & _); [reflexivity | split; reflexivity |].
  exists s1. split; [exact Hrun | exact Hzero].
Defined.

(** ** A process of which an attribute is withheld *)


